(** * MS58XX altimeter driver (drivers/sensors/ms58xx.c)

    A shallow embedding of the measurement core of the driver: the PROM
    CRC, the 16- and 24-bit register reads, the oversampling table, the
    PROM loader, the conversion sequence, the compensation arithmetic and
    the registration entry point.  C integers are [Z] with the wrap-around
    of every conversion written out; the I2C bus and [up_udelay] are
    effects on a trace of events, answered by a deterministic bus. *)

From Stdlib Require Import ZArith List Lia Bool.
From stdpp Require Import base list.
Import ListNotations.

Local Open Scope Z_scope.

(** ** Fixed-width integers *)

Definition u8 (x : Z) : Z := x mod 256.
Definition u16 (x : Z) : Z := x mod 65536.
Definition u32 (x : Z) : Z := x mod 4294967296.

(** Conversion to a signed type, two's complement. *)
Definition s32 (x : Z) : Z := (x + 2147483648) mod 4294967296 - 2147483648.
Definition s64 (x : Z) : Z :=
  (x + 9223372036854775808) mod 18446744073709551616 - 9223372036854775808.

(** [int64_t] arithmetic.  C leaves signed overflow undefined; the model
    wraps.  [/] truncates toward zero ([Z.quot]; a zero divisor cannot
    arise from [1 << s] with [s < 64]). *)
Definition add64 (a b : Z) : Z := s64 (a + b).
Definition sub64 (a b : Z) : Z := s64 (a - b).
Definition mul64 (a b : Z) : Z := s64 (a * b).
Definition div64 (a b : Z) : Z := s64 (Z.quot a b).
Definition shl64 (a s : Z) : Z := s64 (Z.shiftl a s).

Definition add32 (a b : Z) : Z := s32 (a + b).
Definition sub32 (a b : Z) : Z := s32 (a - b).
Definition div32 (a b : Z) : Z := s32 (Z.quot a b).
Definition shl32 (a s : Z) : Z := s32 (Z.shiftl a s).

(** ** errno values and register addresses *)

Definition OK : Z := 0.
Definition EIO : Z := 5.
Definition ENOMEM : Z := 12.
Definition ENODEV : Z := 19.
Definition EINVAL : Z := 22.

Definition MS58XX_RESET_REG : Z := 0x1e.
Definition MS58XX_PRESS_REG : Z := 0x40.
Definition MS58XX_TEMP_REG : Z := 0x50.
Definition MS58XX_ADC_REG : Z := 0x00.
Definition MS58XX_PROM_REG : Z := 0xa0.
Definition MS58XX_PROM_LEN : nat := 8.

(** ** The bus and the trace of effects

    Everything the driver does to the outside world is appended to a
    trace.  The bus is deterministic: what a transfer returns is a function
    of the trace so far and of the request. *)

Inductive event : Type :=
| SetAddress (addr nbits : Z)
| Write (buffer : list Z)
| Read (buflen : nat)
| Udelay (usec : Z).

Record i2c_dev_s : Type := {
  i2c_write : list event -> list Z -> Z;
  i2c_read : list event -> nat -> Z * list Z
}.

Definition io (A : Type) : Type := list event -> A * list event.

Definition Ret {A : Type} (a : A) : io A := fun t => (a, t).

Definition Bind {A B : Type} (m : io A) (k : A -> io B) : io B :=
  fun t => let (a, t') := m t in k a t'.

Notation "'let*' x := m 'in' k" := (Bind m (fun x => k))
  (at level 10, x pattern, m at level 100, k at level 200).

Definition I2C_SETADDRESS (dev : i2c_dev_s) (addr nbits : Z) : io unit :=
  fun t => (tt, t ++ [SetAddress addr nbits]).

Definition I2C_WRITE (dev : i2c_dev_s) (buffer : list Z) : io Z :=
  fun t => (i2c_write dev t buffer, t ++ [Write buffer]).

Definition I2C_READ (dev : i2c_dev_s) (buflen : nat) : io (Z * list Z) :=
  fun t => (i2c_read dev t buflen, t ++ [Read buflen]).

Definition up_udelay (usec : Z) : io unit :=
  fun t => (tt, t ++ [Udelay usec]).

(** The [i]-th cell of a [uint8_t] buffer filled by a transfer. *)
Definition byte_at (buffer : list Z) (i : nat) : Z := u8 (nth i buffer 0).

(** ** Device state *)

Inductive ms58xx_model_e : Type :=
| MS58XX_MODEL_MS5803_02
| MS58XX_MODEL_MS5803_05
| MS58XX_MODEL_MS5803_07
| MS58XX_MODEL_MS5803_14
| MS58XX_MODEL_MS5803_30
| MS58XX_MODEL_MS5805_02
| MS58XX_MODEL_MS5806_02
| MS58XX_MODEL_MS5837_30.

Record ms58xx_dev_s : Type := {
  i2c : i2c_dev_s;
  addr : Z;
  model : ms58xx_model_e;
  crcindex : Z;
  crcshift : Z;
  temp : Z;
  press : Z;
  osr : Z;
  delay : Z;
  c1 : Z; c2 : Z; c3 : Z; c4 : Z; c5 : Z; c6 : Z; c7 : Z; c8 : Z;
  c1s : Z; c2s : Z; c3s : Z; c4s : Z;
  diffmull : Z; diffdivls : Z; offmull : Z; offdivls : Z;
  sensmull : Z; sensdivls : Z;
  offmulvl : Z; sensmulvl : Z;
  diffmulh : Z; diffdivhs : Z; offmulh : Z; offdivhs : Z;
  sensmulh : Z; sensdivhs : Z;
  pressdivs : Z
}.

(** Field assignment [priv->f = v]. *)

Definition set_i2c (v : i2c_dev_s) (p : ms58xx_dev_s) : ms58xx_dev_s :=
  {| i2c := v; addr := addr p; model := model p; crcindex := crcindex p;
     crcshift := crcshift p; temp := temp p; press := press p; osr := osr p;
     delay := delay p; c1 := c1 p; c2 := c2 p; c3 := c3 p; c4 := c4 p;
     c5 := c5 p; c6 := c6 p; c7 := c7 p; c8 := c8 p; c1s := c1s p;
     c2s := c2s p; c3s := c3s p; c4s := c4s p; diffmull := diffmull p;
     diffdivls := diffdivls p; offmull := offmull p; offdivls := offdivls p;
     sensmull := sensmull p; sensdivls := sensdivls p;
     offmulvl := offmulvl p; sensmulvl := sensmulvl p;
     diffmulh := diffmulh p; diffdivhs := diffdivhs p; offmulh := offmulh p;
     offdivhs := offdivhs p; sensmulh := sensmulh p;
     sensdivhs := sensdivhs p; pressdivs := pressdivs p |}.

Definition set_addr (v : Z) (p : ms58xx_dev_s) : ms58xx_dev_s :=
  {| i2c := i2c p; addr := v; model := model p; crcindex := crcindex p;
     crcshift := crcshift p; temp := temp p; press := press p; osr := osr p;
     delay := delay p; c1 := c1 p; c2 := c2 p; c3 := c3 p; c4 := c4 p;
     c5 := c5 p; c6 := c6 p; c7 := c7 p; c8 := c8 p; c1s := c1s p;
     c2s := c2s p; c3s := c3s p; c4s := c4s p; diffmull := diffmull p;
     diffdivls := diffdivls p; offmull := offmull p; offdivls := offdivls p;
     sensmull := sensmull p; sensdivls := sensdivls p;
     offmulvl := offmulvl p; sensmulvl := sensmulvl p;
     diffmulh := diffmulh p; diffdivhs := diffdivhs p; offmulh := offmulh p;
     offdivhs := offdivhs p; sensmulh := sensmulh p;
     sensdivhs := sensdivhs p; pressdivs := pressdivs p |}.

Definition set_model (v : ms58xx_model_e) (p : ms58xx_dev_s) : ms58xx_dev_s :=
  {| i2c := i2c p; addr := addr p; model := v; crcindex := crcindex p;
     crcshift := crcshift p; temp := temp p; press := press p; osr := osr p;
     delay := delay p; c1 := c1 p; c2 := c2 p; c3 := c3 p; c4 := c4 p;
     c5 := c5 p; c6 := c6 p; c7 := c7 p; c8 := c8 p; c1s := c1s p;
     c2s := c2s p; c3s := c3s p; c4s := c4s p; diffmull := diffmull p;
     diffdivls := diffdivls p; offmull := offmull p; offdivls := offdivls p;
     sensmull := sensmull p; sensdivls := sensdivls p;
     offmulvl := offmulvl p; sensmulvl := sensmulvl p;
     diffmulh := diffmulh p; diffdivhs := diffdivhs p; offmulh := offmulh p;
     offdivhs := offdivhs p; sensmulh := sensmulh p;
     sensdivhs := sensdivhs p; pressdivs := pressdivs p |}.

Definition set_temp (v : Z) (p : ms58xx_dev_s) : ms58xx_dev_s :=
  {| i2c := i2c p; addr := addr p; model := model p; crcindex := crcindex p;
     crcshift := crcshift p; temp := v; press := press p; osr := osr p;
     delay := delay p; c1 := c1 p; c2 := c2 p; c3 := c3 p; c4 := c4 p;
     c5 := c5 p; c6 := c6 p; c7 := c7 p; c8 := c8 p; c1s := c1s p;
     c2s := c2s p; c3s := c3s p; c4s := c4s p; diffmull := diffmull p;
     diffdivls := diffdivls p; offmull := offmull p; offdivls := offdivls p;
     sensmull := sensmull p; sensdivls := sensdivls p;
     offmulvl := offmulvl p; sensmulvl := sensmulvl p;
     diffmulh := diffmulh p; diffdivhs := diffdivhs p; offmulh := offmulh p;
     offdivhs := offdivhs p; sensmulh := sensmulh p;
     sensdivhs := sensdivhs p; pressdivs := pressdivs p |}.

Definition set_press (v : Z) (p : ms58xx_dev_s) : ms58xx_dev_s :=
  {| i2c := i2c p; addr := addr p; model := model p; crcindex := crcindex p;
     crcshift := crcshift p; temp := temp p; press := v; osr := osr p;
     delay := delay p; c1 := c1 p; c2 := c2 p; c3 := c3 p; c4 := c4 p;
     c5 := c5 p; c6 := c6 p; c7 := c7 p; c8 := c8 p; c1s := c1s p;
     c2s := c2s p; c3s := c3s p; c4s := c4s p; diffmull := diffmull p;
     diffdivls := diffdivls p; offmull := offmull p; offdivls := offdivls p;
     sensmull := sensmull p; sensdivls := sensdivls p;
     offmulvl := offmulvl p; sensmulvl := sensmulvl p;
     diffmulh := diffmulh p; diffdivhs := diffdivhs p; offmulh := offmulh p;
     offdivhs := offdivhs p; sensmulh := sensmulh p;
     sensdivhs := sensdivhs p; pressdivs := pressdivs p |}.

Definition set_osr (v : Z) (p : ms58xx_dev_s) : ms58xx_dev_s :=
  {| i2c := i2c p; addr := addr p; model := model p; crcindex := crcindex p;
     crcshift := crcshift p; temp := temp p; press := press p; osr := v;
     delay := delay p; c1 := c1 p; c2 := c2 p; c3 := c3 p; c4 := c4 p;
     c5 := c5 p; c6 := c6 p; c7 := c7 p; c8 := c8 p; c1s := c1s p;
     c2s := c2s p; c3s := c3s p; c4s := c4s p; diffmull := diffmull p;
     diffdivls := diffdivls p; offmull := offmull p; offdivls := offdivls p;
     sensmull := sensmull p; sensdivls := sensdivls p;
     offmulvl := offmulvl p; sensmulvl := sensmulvl p;
     diffmulh := diffmulh p; diffdivhs := diffdivhs p; offmulh := offmulh p;
     offdivhs := offdivhs p; sensmulh := sensmulh p;
     sensdivhs := sensdivhs p; pressdivs := pressdivs p |}.

Definition set_delay (v : Z) (p : ms58xx_dev_s) : ms58xx_dev_s :=
  {| i2c := i2c p; addr := addr p; model := model p; crcindex := crcindex p;
     crcshift := crcshift p; temp := temp p; press := press p; osr := osr p;
     delay := v; c1 := c1 p; c2 := c2 p; c3 := c3 p; c4 := c4 p; c5 := c5 p;
     c6 := c6 p; c7 := c7 p; c8 := c8 p; c1s := c1s p; c2s := c2s p;
     c3s := c3s p; c4s := c4s p; diffmull := diffmull p;
     diffdivls := diffdivls p; offmull := offmull p; offdivls := offdivls p;
     sensmull := sensmull p; sensdivls := sensdivls p;
     offmulvl := offmulvl p; sensmulvl := sensmulvl p;
     diffmulh := diffmulh p; diffdivhs := diffdivhs p; offmulh := offmulh p;
     offdivhs := offdivhs p; sensmulh := sensmulh p;
     sensdivhs := sensdivhs p; pressdivs := pressdivs p |}.

Definition set_c1 (v : Z) (p : ms58xx_dev_s) : ms58xx_dev_s :=
  {| i2c := i2c p; addr := addr p; model := model p; crcindex := crcindex p;
     crcshift := crcshift p; temp := temp p; press := press p; osr := osr p;
     delay := delay p; c1 := v; c2 := c2 p; c3 := c3 p; c4 := c4 p;
     c5 := c5 p; c6 := c6 p; c7 := c7 p; c8 := c8 p; c1s := c1s p;
     c2s := c2s p; c3s := c3s p; c4s := c4s p; diffmull := diffmull p;
     diffdivls := diffdivls p; offmull := offmull p; offdivls := offdivls p;
     sensmull := sensmull p; sensdivls := sensdivls p;
     offmulvl := offmulvl p; sensmulvl := sensmulvl p;
     diffmulh := diffmulh p; diffdivhs := diffdivhs p; offmulh := offmulh p;
     offdivhs := offdivhs p; sensmulh := sensmulh p;
     sensdivhs := sensdivhs p; pressdivs := pressdivs p |}.

Definition set_c2 (v : Z) (p : ms58xx_dev_s) : ms58xx_dev_s :=
  {| i2c := i2c p; addr := addr p; model := model p; crcindex := crcindex p;
     crcshift := crcshift p; temp := temp p; press := press p; osr := osr p;
     delay := delay p; c1 := c1 p; c2 := v; c3 := c3 p; c4 := c4 p;
     c5 := c5 p; c6 := c6 p; c7 := c7 p; c8 := c8 p; c1s := c1s p;
     c2s := c2s p; c3s := c3s p; c4s := c4s p; diffmull := diffmull p;
     diffdivls := diffdivls p; offmull := offmull p; offdivls := offdivls p;
     sensmull := sensmull p; sensdivls := sensdivls p;
     offmulvl := offmulvl p; sensmulvl := sensmulvl p;
     diffmulh := diffmulh p; diffdivhs := diffdivhs p; offmulh := offmulh p;
     offdivhs := offdivhs p; sensmulh := sensmulh p;
     sensdivhs := sensdivhs p; pressdivs := pressdivs p |}.

Definition set_c3 (v : Z) (p : ms58xx_dev_s) : ms58xx_dev_s :=
  {| i2c := i2c p; addr := addr p; model := model p; crcindex := crcindex p;
     crcshift := crcshift p; temp := temp p; press := press p; osr := osr p;
     delay := delay p; c1 := c1 p; c2 := c2 p; c3 := v; c4 := c4 p;
     c5 := c5 p; c6 := c6 p; c7 := c7 p; c8 := c8 p; c1s := c1s p;
     c2s := c2s p; c3s := c3s p; c4s := c4s p; diffmull := diffmull p;
     diffdivls := diffdivls p; offmull := offmull p; offdivls := offdivls p;
     sensmull := sensmull p; sensdivls := sensdivls p;
     offmulvl := offmulvl p; sensmulvl := sensmulvl p;
     diffmulh := diffmulh p; diffdivhs := diffdivhs p; offmulh := offmulh p;
     offdivhs := offdivhs p; sensmulh := sensmulh p;
     sensdivhs := sensdivhs p; pressdivs := pressdivs p |}.

Definition set_c4 (v : Z) (p : ms58xx_dev_s) : ms58xx_dev_s :=
  {| i2c := i2c p; addr := addr p; model := model p; crcindex := crcindex p;
     crcshift := crcshift p; temp := temp p; press := press p; osr := osr p;
     delay := delay p; c1 := c1 p; c2 := c2 p; c3 := c3 p; c4 := v;
     c5 := c5 p; c6 := c6 p; c7 := c7 p; c8 := c8 p; c1s := c1s p;
     c2s := c2s p; c3s := c3s p; c4s := c4s p; diffmull := diffmull p;
     diffdivls := diffdivls p; offmull := offmull p; offdivls := offdivls p;
     sensmull := sensmull p; sensdivls := sensdivls p;
     offmulvl := offmulvl p; sensmulvl := sensmulvl p;
     diffmulh := diffmulh p; diffdivhs := diffdivhs p; offmulh := offmulh p;
     offdivhs := offdivhs p; sensmulh := sensmulh p;
     sensdivhs := sensdivhs p; pressdivs := pressdivs p |}.

Definition set_c5 (v : Z) (p : ms58xx_dev_s) : ms58xx_dev_s :=
  {| i2c := i2c p; addr := addr p; model := model p; crcindex := crcindex p;
     crcshift := crcshift p; temp := temp p; press := press p; osr := osr p;
     delay := delay p; c1 := c1 p; c2 := c2 p; c3 := c3 p; c4 := c4 p;
     c5 := v; c6 := c6 p; c7 := c7 p; c8 := c8 p; c1s := c1s p; c2s := c2s p;
     c3s := c3s p; c4s := c4s p; diffmull := diffmull p;
     diffdivls := diffdivls p; offmull := offmull p; offdivls := offdivls p;
     sensmull := sensmull p; sensdivls := sensdivls p;
     offmulvl := offmulvl p; sensmulvl := sensmulvl p;
     diffmulh := diffmulh p; diffdivhs := diffdivhs p; offmulh := offmulh p;
     offdivhs := offdivhs p; sensmulh := sensmulh p;
     sensdivhs := sensdivhs p; pressdivs := pressdivs p |}.

Definition set_c6 (v : Z) (p : ms58xx_dev_s) : ms58xx_dev_s :=
  {| i2c := i2c p; addr := addr p; model := model p; crcindex := crcindex p;
     crcshift := crcshift p; temp := temp p; press := press p; osr := osr p;
     delay := delay p; c1 := c1 p; c2 := c2 p; c3 := c3 p; c4 := c4 p;
     c5 := c5 p; c6 := v; c7 := c7 p; c8 := c8 p; c1s := c1s p; c2s := c2s p;
     c3s := c3s p; c4s := c4s p; diffmull := diffmull p;
     diffdivls := diffdivls p; offmull := offmull p; offdivls := offdivls p;
     sensmull := sensmull p; sensdivls := sensdivls p;
     offmulvl := offmulvl p; sensmulvl := sensmulvl p;
     diffmulh := diffmulh p; diffdivhs := diffdivhs p; offmulh := offmulh p;
     offdivhs := offdivhs p; sensmulh := sensmulh p;
     sensdivhs := sensdivhs p; pressdivs := pressdivs p |}.

Definition set_c7 (v : Z) (p : ms58xx_dev_s) : ms58xx_dev_s :=
  {| i2c := i2c p; addr := addr p; model := model p; crcindex := crcindex p;
     crcshift := crcshift p; temp := temp p; press := press p; osr := osr p;
     delay := delay p; c1 := c1 p; c2 := c2 p; c3 := c3 p; c4 := c4 p;
     c5 := c5 p; c6 := c6 p; c7 := v; c8 := c8 p; c1s := c1s p; c2s := c2s p;
     c3s := c3s p; c4s := c4s p; diffmull := diffmull p;
     diffdivls := diffdivls p; offmull := offmull p; offdivls := offdivls p;
     sensmull := sensmull p; sensdivls := sensdivls p;
     offmulvl := offmulvl p; sensmulvl := sensmulvl p;
     diffmulh := diffmulh p; diffdivhs := diffdivhs p; offmulh := offmulh p;
     offdivhs := offdivhs p; sensmulh := sensmulh p;
     sensdivhs := sensdivhs p; pressdivs := pressdivs p |}.

Definition set_c8 (v : Z) (p : ms58xx_dev_s) : ms58xx_dev_s :=
  {| i2c := i2c p; addr := addr p; model := model p; crcindex := crcindex p;
     crcshift := crcshift p; temp := temp p; press := press p; osr := osr p;
     delay := delay p; c1 := c1 p; c2 := c2 p; c3 := c3 p; c4 := c4 p;
     c5 := c5 p; c6 := c6 p; c7 := c7 p; c8 := v; c1s := c1s p; c2s := c2s p;
     c3s := c3s p; c4s := c4s p; diffmull := diffmull p;
     diffdivls := diffdivls p; offmull := offmull p; offdivls := offdivls p;
     sensmull := sensmull p; sensdivls := sensdivls p;
     offmulvl := offmulvl p; sensmulvl := sensmulvl p;
     diffmulh := diffmulh p; diffdivhs := diffdivhs p; offmulh := offmulh p;
     offdivhs := offdivhs p; sensmulh := sensmulh p;
     sensdivhs := sensdivhs p; pressdivs := pressdivs p |}.

Definition set_c1s (v : Z) (p : ms58xx_dev_s) : ms58xx_dev_s :=
  {| i2c := i2c p; addr := addr p; model := model p; crcindex := crcindex p;
     crcshift := crcshift p; temp := temp p; press := press p; osr := osr p;
     delay := delay p; c1 := c1 p; c2 := c2 p; c3 := c3 p; c4 := c4 p;
     c5 := c5 p; c6 := c6 p; c7 := c7 p; c8 := c8 p; c1s := v; c2s := c2s p;
     c3s := c3s p; c4s := c4s p; diffmull := diffmull p;
     diffdivls := diffdivls p; offmull := offmull p; offdivls := offdivls p;
     sensmull := sensmull p; sensdivls := sensdivls p;
     offmulvl := offmulvl p; sensmulvl := sensmulvl p;
     diffmulh := diffmulh p; diffdivhs := diffdivhs p; offmulh := offmulh p;
     offdivhs := offdivhs p; sensmulh := sensmulh p;
     sensdivhs := sensdivhs p; pressdivs := pressdivs p |}.

Definition set_c2s (v : Z) (p : ms58xx_dev_s) : ms58xx_dev_s :=
  {| i2c := i2c p; addr := addr p; model := model p; crcindex := crcindex p;
     crcshift := crcshift p; temp := temp p; press := press p; osr := osr p;
     delay := delay p; c1 := c1 p; c2 := c2 p; c3 := c3 p; c4 := c4 p;
     c5 := c5 p; c6 := c6 p; c7 := c7 p; c8 := c8 p; c1s := c1s p; c2s := v;
     c3s := c3s p; c4s := c4s p; diffmull := diffmull p;
     diffdivls := diffdivls p; offmull := offmull p; offdivls := offdivls p;
     sensmull := sensmull p; sensdivls := sensdivls p;
     offmulvl := offmulvl p; sensmulvl := sensmulvl p;
     diffmulh := diffmulh p; diffdivhs := diffdivhs p; offmulh := offmulh p;
     offdivhs := offdivhs p; sensmulh := sensmulh p;
     sensdivhs := sensdivhs p; pressdivs := pressdivs p |}.

Definition set_c3s (v : Z) (p : ms58xx_dev_s) : ms58xx_dev_s :=
  {| i2c := i2c p; addr := addr p; model := model p; crcindex := crcindex p;
     crcshift := crcshift p; temp := temp p; press := press p; osr := osr p;
     delay := delay p; c1 := c1 p; c2 := c2 p; c3 := c3 p; c4 := c4 p;
     c5 := c5 p; c6 := c6 p; c7 := c7 p; c8 := c8 p; c1s := c1s p;
     c2s := c2s p; c3s := v; c4s := c4s p; diffmull := diffmull p;
     diffdivls := diffdivls p; offmull := offmull p; offdivls := offdivls p;
     sensmull := sensmull p; sensdivls := sensdivls p;
     offmulvl := offmulvl p; sensmulvl := sensmulvl p;
     diffmulh := diffmulh p; diffdivhs := diffdivhs p; offmulh := offmulh p;
     offdivhs := offdivhs p; sensmulh := sensmulh p;
     sensdivhs := sensdivhs p; pressdivs := pressdivs p |}.

Definition set_c4s (v : Z) (p : ms58xx_dev_s) : ms58xx_dev_s :=
  {| i2c := i2c p; addr := addr p; model := model p; crcindex := crcindex p;
     crcshift := crcshift p; temp := temp p; press := press p; osr := osr p;
     delay := delay p; c1 := c1 p; c2 := c2 p; c3 := c3 p; c4 := c4 p;
     c5 := c5 p; c6 := c6 p; c7 := c7 p; c8 := c8 p; c1s := c1s p;
     c2s := c2s p; c3s := c3s p; c4s := v; diffmull := diffmull p;
     diffdivls := diffdivls p; offmull := offmull p; offdivls := offdivls p;
     sensmull := sensmull p; sensdivls := sensdivls p;
     offmulvl := offmulvl p; sensmulvl := sensmulvl p;
     diffmulh := diffmulh p; diffdivhs := diffdivhs p; offmulh := offmulh p;
     offdivhs := offdivhs p; sensmulh := sensmulh p;
     sensdivhs := sensdivhs p; pressdivs := pressdivs p |}.

Definition set_diffmull (v : Z) (p : ms58xx_dev_s) : ms58xx_dev_s :=
  {| i2c := i2c p; addr := addr p; model := model p; crcindex := crcindex p;
     crcshift := crcshift p; temp := temp p; press := press p; osr := osr p;
     delay := delay p; c1 := c1 p; c2 := c2 p; c3 := c3 p; c4 := c4 p;
     c5 := c5 p; c6 := c6 p; c7 := c7 p; c8 := c8 p; c1s := c1s p;
     c2s := c2s p; c3s := c3s p; c4s := c4s p; diffmull := v;
     diffdivls := diffdivls p; offmull := offmull p; offdivls := offdivls p;
     sensmull := sensmull p; sensdivls := sensdivls p;
     offmulvl := offmulvl p; sensmulvl := sensmulvl p;
     diffmulh := diffmulh p; diffdivhs := diffdivhs p; offmulh := offmulh p;
     offdivhs := offdivhs p; sensmulh := sensmulh p;
     sensdivhs := sensdivhs p; pressdivs := pressdivs p |}.

Definition set_diffdivls (v : Z) (p : ms58xx_dev_s) : ms58xx_dev_s :=
  {| i2c := i2c p; addr := addr p; model := model p; crcindex := crcindex p;
     crcshift := crcshift p; temp := temp p; press := press p; osr := osr p;
     delay := delay p; c1 := c1 p; c2 := c2 p; c3 := c3 p; c4 := c4 p;
     c5 := c5 p; c6 := c6 p; c7 := c7 p; c8 := c8 p; c1s := c1s p;
     c2s := c2s p; c3s := c3s p; c4s := c4s p; diffmull := diffmull p;
     diffdivls := v; offmull := offmull p; offdivls := offdivls p;
     sensmull := sensmull p; sensdivls := sensdivls p;
     offmulvl := offmulvl p; sensmulvl := sensmulvl p;
     diffmulh := diffmulh p; diffdivhs := diffdivhs p; offmulh := offmulh p;
     offdivhs := offdivhs p; sensmulh := sensmulh p;
     sensdivhs := sensdivhs p; pressdivs := pressdivs p |}.

Definition set_offmull (v : Z) (p : ms58xx_dev_s) : ms58xx_dev_s :=
  {| i2c := i2c p; addr := addr p; model := model p; crcindex := crcindex p;
     crcshift := crcshift p; temp := temp p; press := press p; osr := osr p;
     delay := delay p; c1 := c1 p; c2 := c2 p; c3 := c3 p; c4 := c4 p;
     c5 := c5 p; c6 := c6 p; c7 := c7 p; c8 := c8 p; c1s := c1s p;
     c2s := c2s p; c3s := c3s p; c4s := c4s p; diffmull := diffmull p;
     diffdivls := diffdivls p; offmull := v; offdivls := offdivls p;
     sensmull := sensmull p; sensdivls := sensdivls p;
     offmulvl := offmulvl p; sensmulvl := sensmulvl p;
     diffmulh := diffmulh p; diffdivhs := diffdivhs p; offmulh := offmulh p;
     offdivhs := offdivhs p; sensmulh := sensmulh p;
     sensdivhs := sensdivhs p; pressdivs := pressdivs p |}.

Definition set_offdivls (v : Z) (p : ms58xx_dev_s) : ms58xx_dev_s :=
  {| i2c := i2c p; addr := addr p; model := model p; crcindex := crcindex p;
     crcshift := crcshift p; temp := temp p; press := press p; osr := osr p;
     delay := delay p; c1 := c1 p; c2 := c2 p; c3 := c3 p; c4 := c4 p;
     c5 := c5 p; c6 := c6 p; c7 := c7 p; c8 := c8 p; c1s := c1s p;
     c2s := c2s p; c3s := c3s p; c4s := c4s p; diffmull := diffmull p;
     diffdivls := diffdivls p; offmull := offmull p; offdivls := v;
     sensmull := sensmull p; sensdivls := sensdivls p;
     offmulvl := offmulvl p; sensmulvl := sensmulvl p;
     diffmulh := diffmulh p; diffdivhs := diffdivhs p; offmulh := offmulh p;
     offdivhs := offdivhs p; sensmulh := sensmulh p;
     sensdivhs := sensdivhs p; pressdivs := pressdivs p |}.

Definition set_sensmull (v : Z) (p : ms58xx_dev_s) : ms58xx_dev_s :=
  {| i2c := i2c p; addr := addr p; model := model p; crcindex := crcindex p;
     crcshift := crcshift p; temp := temp p; press := press p; osr := osr p;
     delay := delay p; c1 := c1 p; c2 := c2 p; c3 := c3 p; c4 := c4 p;
     c5 := c5 p; c6 := c6 p; c7 := c7 p; c8 := c8 p; c1s := c1s p;
     c2s := c2s p; c3s := c3s p; c4s := c4s p; diffmull := diffmull p;
     diffdivls := diffdivls p; offmull := offmull p; offdivls := offdivls p;
     sensmull := v; sensdivls := sensdivls p; offmulvl := offmulvl p;
     sensmulvl := sensmulvl p; diffmulh := diffmulh p;
     diffdivhs := diffdivhs p; offmulh := offmulh p; offdivhs := offdivhs p;
     sensmulh := sensmulh p; sensdivhs := sensdivhs p;
     pressdivs := pressdivs p |}.

Definition set_sensdivls (v : Z) (p : ms58xx_dev_s) : ms58xx_dev_s :=
  {| i2c := i2c p; addr := addr p; model := model p; crcindex := crcindex p;
     crcshift := crcshift p; temp := temp p; press := press p; osr := osr p;
     delay := delay p; c1 := c1 p; c2 := c2 p; c3 := c3 p; c4 := c4 p;
     c5 := c5 p; c6 := c6 p; c7 := c7 p; c8 := c8 p; c1s := c1s p;
     c2s := c2s p; c3s := c3s p; c4s := c4s p; diffmull := diffmull p;
     diffdivls := diffdivls p; offmull := offmull p; offdivls := offdivls p;
     sensmull := sensmull p; sensdivls := v; offmulvl := offmulvl p;
     sensmulvl := sensmulvl p; diffmulh := diffmulh p;
     diffdivhs := diffdivhs p; offmulh := offmulh p; offdivhs := offdivhs p;
     sensmulh := sensmulh p; sensdivhs := sensdivhs p;
     pressdivs := pressdivs p |}.

Definition set_offmulvl (v : Z) (p : ms58xx_dev_s) : ms58xx_dev_s :=
  {| i2c := i2c p; addr := addr p; model := model p; crcindex := crcindex p;
     crcshift := crcshift p; temp := temp p; press := press p; osr := osr p;
     delay := delay p; c1 := c1 p; c2 := c2 p; c3 := c3 p; c4 := c4 p;
     c5 := c5 p; c6 := c6 p; c7 := c7 p; c8 := c8 p; c1s := c1s p;
     c2s := c2s p; c3s := c3s p; c4s := c4s p; diffmull := diffmull p;
     diffdivls := diffdivls p; offmull := offmull p; offdivls := offdivls p;
     sensmull := sensmull p; sensdivls := sensdivls p; offmulvl := v;
     sensmulvl := sensmulvl p; diffmulh := diffmulh p;
     diffdivhs := diffdivhs p; offmulh := offmulh p; offdivhs := offdivhs p;
     sensmulh := sensmulh p; sensdivhs := sensdivhs p;
     pressdivs := pressdivs p |}.

Definition set_sensmulvl (v : Z) (p : ms58xx_dev_s) : ms58xx_dev_s :=
  {| i2c := i2c p; addr := addr p; model := model p; crcindex := crcindex p;
     crcshift := crcshift p; temp := temp p; press := press p; osr := osr p;
     delay := delay p; c1 := c1 p; c2 := c2 p; c3 := c3 p; c4 := c4 p;
     c5 := c5 p; c6 := c6 p; c7 := c7 p; c8 := c8 p; c1s := c1s p;
     c2s := c2s p; c3s := c3s p; c4s := c4s p; diffmull := diffmull p;
     diffdivls := diffdivls p; offmull := offmull p; offdivls := offdivls p;
     sensmull := sensmull p; sensdivls := sensdivls p;
     offmulvl := offmulvl p; sensmulvl := v; diffmulh := diffmulh p;
     diffdivhs := diffdivhs p; offmulh := offmulh p; offdivhs := offdivhs p;
     sensmulh := sensmulh p; sensdivhs := sensdivhs p;
     pressdivs := pressdivs p |}.

Definition set_diffmulh (v : Z) (p : ms58xx_dev_s) : ms58xx_dev_s :=
  {| i2c := i2c p; addr := addr p; model := model p; crcindex := crcindex p;
     crcshift := crcshift p; temp := temp p; press := press p; osr := osr p;
     delay := delay p; c1 := c1 p; c2 := c2 p; c3 := c3 p; c4 := c4 p;
     c5 := c5 p; c6 := c6 p; c7 := c7 p; c8 := c8 p; c1s := c1s p;
     c2s := c2s p; c3s := c3s p; c4s := c4s p; diffmull := diffmull p;
     diffdivls := diffdivls p; offmull := offmull p; offdivls := offdivls p;
     sensmull := sensmull p; sensdivls := sensdivls p;
     offmulvl := offmulvl p; sensmulvl := sensmulvl p; diffmulh := v;
     diffdivhs := diffdivhs p; offmulh := offmulh p; offdivhs := offdivhs p;
     sensmulh := sensmulh p; sensdivhs := sensdivhs p;
     pressdivs := pressdivs p |}.

Definition set_diffdivhs (v : Z) (p : ms58xx_dev_s) : ms58xx_dev_s :=
  {| i2c := i2c p; addr := addr p; model := model p; crcindex := crcindex p;
     crcshift := crcshift p; temp := temp p; press := press p; osr := osr p;
     delay := delay p; c1 := c1 p; c2 := c2 p; c3 := c3 p; c4 := c4 p;
     c5 := c5 p; c6 := c6 p; c7 := c7 p; c8 := c8 p; c1s := c1s p;
     c2s := c2s p; c3s := c3s p; c4s := c4s p; diffmull := diffmull p;
     diffdivls := diffdivls p; offmull := offmull p; offdivls := offdivls p;
     sensmull := sensmull p; sensdivls := sensdivls p;
     offmulvl := offmulvl p; sensmulvl := sensmulvl p;
     diffmulh := diffmulh p; diffdivhs := v; offmulh := offmulh p;
     offdivhs := offdivhs p; sensmulh := sensmulh p;
     sensdivhs := sensdivhs p; pressdivs := pressdivs p |}.

Definition set_offmulh (v : Z) (p : ms58xx_dev_s) : ms58xx_dev_s :=
  {| i2c := i2c p; addr := addr p; model := model p; crcindex := crcindex p;
     crcshift := crcshift p; temp := temp p; press := press p; osr := osr p;
     delay := delay p; c1 := c1 p; c2 := c2 p; c3 := c3 p; c4 := c4 p;
     c5 := c5 p; c6 := c6 p; c7 := c7 p; c8 := c8 p; c1s := c1s p;
     c2s := c2s p; c3s := c3s p; c4s := c4s p; diffmull := diffmull p;
     diffdivls := diffdivls p; offmull := offmull p; offdivls := offdivls p;
     sensmull := sensmull p; sensdivls := sensdivls p;
     offmulvl := offmulvl p; sensmulvl := sensmulvl p;
     diffmulh := diffmulh p; diffdivhs := diffdivhs p; offmulh := v;
     offdivhs := offdivhs p; sensmulh := sensmulh p;
     sensdivhs := sensdivhs p; pressdivs := pressdivs p |}.

Definition set_offdivhs (v : Z) (p : ms58xx_dev_s) : ms58xx_dev_s :=
  {| i2c := i2c p; addr := addr p; model := model p; crcindex := crcindex p;
     crcshift := crcshift p; temp := temp p; press := press p; osr := osr p;
     delay := delay p; c1 := c1 p; c2 := c2 p; c3 := c3 p; c4 := c4 p;
     c5 := c5 p; c6 := c6 p; c7 := c7 p; c8 := c8 p; c1s := c1s p;
     c2s := c2s p; c3s := c3s p; c4s := c4s p; diffmull := diffmull p;
     diffdivls := diffdivls p; offmull := offmull p; offdivls := offdivls p;
     sensmull := sensmull p; sensdivls := sensdivls p;
     offmulvl := offmulvl p; sensmulvl := sensmulvl p;
     diffmulh := diffmulh p; diffdivhs := diffdivhs p; offmulh := offmulh p;
     offdivhs := v; sensmulh := sensmulh p; sensdivhs := sensdivhs p;
     pressdivs := pressdivs p |}.

Definition set_sensmulh (v : Z) (p : ms58xx_dev_s) : ms58xx_dev_s :=
  {| i2c := i2c p; addr := addr p; model := model p; crcindex := crcindex p;
     crcshift := crcshift p; temp := temp p; press := press p; osr := osr p;
     delay := delay p; c1 := c1 p; c2 := c2 p; c3 := c3 p; c4 := c4 p;
     c5 := c5 p; c6 := c6 p; c7 := c7 p; c8 := c8 p; c1s := c1s p;
     c2s := c2s p; c3s := c3s p; c4s := c4s p; diffmull := diffmull p;
     diffdivls := diffdivls p; offmull := offmull p; offdivls := offdivls p;
     sensmull := sensmull p; sensdivls := sensdivls p;
     offmulvl := offmulvl p; sensmulvl := sensmulvl p;
     diffmulh := diffmulh p; diffdivhs := diffdivhs p; offmulh := offmulh p;
     offdivhs := offdivhs p; sensmulh := v; sensdivhs := sensdivhs p;
     pressdivs := pressdivs p |}.

Definition set_sensdivhs (v : Z) (p : ms58xx_dev_s) : ms58xx_dev_s :=
  {| i2c := i2c p; addr := addr p; model := model p; crcindex := crcindex p;
     crcshift := crcshift p; temp := temp p; press := press p; osr := osr p;
     delay := delay p; c1 := c1 p; c2 := c2 p; c3 := c3 p; c4 := c4 p;
     c5 := c5 p; c6 := c6 p; c7 := c7 p; c8 := c8 p; c1s := c1s p;
     c2s := c2s p; c3s := c3s p; c4s := c4s p; diffmull := diffmull p;
     diffdivls := diffdivls p; offmull := offmull p; offdivls := offdivls p;
     sensmull := sensmull p; sensdivls := sensdivls p;
     offmulvl := offmulvl p; sensmulvl := sensmulvl p;
     diffmulh := diffmulh p; diffdivhs := diffdivhs p; offmulh := offmulh p;
     offdivhs := offdivhs p; sensmulh := sensmulh p; sensdivhs := v;
     pressdivs := pressdivs p |}.

Definition set_pressdivs (v : Z) (p : ms58xx_dev_s) : ms58xx_dev_s :=
  {| i2c := i2c p; addr := addr p; model := model p; crcindex := crcindex p;
     crcshift := crcshift p; temp := temp p; press := press p; osr := osr p;
     delay := delay p; c1 := c1 p; c2 := c2 p; c3 := c3 p; c4 := c4 p;
     c5 := c5 p; c6 := c6 p; c7 := c7 p; c8 := c8 p; c1s := c1s p;
     c2s := c2s p; c3s := c3s p; c4s := c4s p; diffmull := diffmull p;
     diffdivls := diffdivls p; offmull := offmull p; offdivls := offdivls p;
     sensmull := sensmull p; sensdivls := sensdivls p;
     offmulvl := offmulvl p; sensmulvl := sensmulvl p;
     diffmulh := diffmulh p; diffdivhs := diffdivhs p; offmulh := offmulh p;
     offdivhs := offdivhs p; sensmulh := sensmulh p;
     sensdivhs := sensdivhs p; pressdivs := v |}.

Notation "p <| f := v |>" := (f v p)
  (at level 1, f at level 0, left associativity, only parsing).

(** ** ms58xx_crc *)

(** The inner loop: [n] times, shift the 16-bit register left by one and
    XOR 0x3000 in when the bit shifted out was set. *)
Fixpoint crc_shift (n : nat) (crc : Z) : Z :=
  match n with
  | O => crc
  | S n' =>
      let xor := negb (Z.land crc 0x8000 =? 0) in
      let crc := u16 (Z.shiftl crc 1) in
      crc_shift n' (if xor then u16 (Z.lxor crc 0x3000) else crc)
  end.

Definition crc_byte (crc b : Z) : Z := crc_shift 8 (u16 (Z.lxor crc b)).

Definition ms58xx_crc (src : list Z) : Z :=
  u8 (Z.shiftr (fold_left crc_byte src 0) 12).

(** How a [uint16_t] lies in memory: the driver hands the PROM array to
    [ms58xx_crc] through a [uint8_t] pointer. *)
Inductive endianness : Type := LittleEndian | BigEndian.

Definition bytes_of_u16 (e : endianness) (w : Z) : list Z :=
  match e with
  | LittleEndian => [u8 w; u8 (Z.shiftr w 8)]
  | BigEndian => [u8 (Z.shiftr w 8); u8 w]
  end.

Definition prom_bytes (e : endianness) (prom : list Z) : list Z :=
  concat (map (bytes_of_u16 e) prom).

(** ** ms58xx_readu16 / ms58xx_readadc

    Both return [ret] and the value stored through the out-pointer, [None]
    when the function returned before storing. *)

Definition ms58xx_readu16 (priv : ms58xx_dev_s) (regaddr : Z)
  : io (Z * option Z) :=
  let* _ := I2C_SETADDRESS (i2c priv) (addr priv) 7 in
  let* ret := I2C_WRITE (i2c priv) [regaddr] in
  if ret <? 0 then Ret (ret, None) else
  let* (ret, buffer) := I2C_READ (i2c priv) 2 in
  if ret <? 0 then Ret (ret, None) else
  let regval := Z.lor (Z.shiftl (byte_at buffer 0) 8) (byte_at buffer 1) in
  Ret (ret, Some regval).

Definition ms58xx_readadc (priv : ms58xx_dev_s) : io (Z * option Z) :=
  let regaddr := MS58XX_ADC_REG in
  let* _ := I2C_SETADDRESS (i2c priv) (addr priv) 7 in
  let* ret := I2C_WRITE (i2c priv) [regaddr] in
  if ret <? 0 then Ret (ret, None) else
  let* (ret, buffer) := I2C_READ (i2c priv) 3 in
  if ret <? 0 then Ret (ret, None) else
  let adc := Z.lor (Z.lor (Z.shiftl (byte_at buffer 0) 16)
                          (Z.shiftl (byte_at buffer 1) 8))
                   (byte_at buffer 2) in
  Ret (ret, Some adc).

(** ** ms58xx_setosr *)

Definition ms58xx_setosr (priv : ms58xx_dev_s) (osr : Z)
  : Z * ms58xx_dev_s :=
  let '(ret, priv) :=
    match osr with
    | 256 => (OK, priv <| set_delay := 600 |>)
    | 512 => (OK, priv <| set_delay := 1170 |>)
    | 1024 => (OK, priv <| set_delay := 2280 |>)
    | 2048 => (OK, priv <| set_delay := 4540 |>)
    | 4096 => (OK, priv <| set_delay := 9040 |>)
    | 8192 =>
        match model priv with
        | MS58XX_MODEL_MS5805_02
        | MS58XX_MODEL_MS5837_30 => (OK, priv <| set_delay := 18080 |>)
        | _ => (- EINVAL, priv)
        end
    | _ => (- EINVAL, priv)
    end in
  if ret =? OK
  then (ret, priv <| set_osr := u8 ((Z.quot osr 256 - 1) * 2) |>)
  else (ret, priv).

(** ** ms58xx_readprom *)

(** How the [for] loop over the PROM words ends: by the [return ret] in its
    body, or by running to [len]. *)
Inductive loop_exit : Type :=
| Returned (ret : Z)
| Completed (ret : Z) (prom : list Z).

(** The register of word [i]: [MS58XX_PROM_REG+i*2], as a [uint8_t]. *)
Definition prom_reg (i : nat) : Z := u8 (MS58XX_PROM_REG + Z.of_nat i * 2).

(** [n] iterations are left, the next one is iteration [i]. *)
Fixpoint readprom_loop (priv : ms58xx_dev_s) (n i : nat) (ret : Z)
  (prom : list Z) : io loop_exit :=
  match n with
  | O => Ret (Completed ret prom)
  | S n' =>
      let* (ret, regval) := ms58xx_readu16 priv (prom_reg i) in
      let prom :=
        match regval with Some v => <[i := v]> prom | None => prom end in
      if ret <? 0 then Ret (Returned ret)
      else readprom_loop priv n' (S i) ret prom
  end.

(** The part of [ms58xx_readprom] after the loop: extract and clear the
    CRC nibble, compare, and store the coefficients. *)
Definition readprom_finish (e : endianness) (priv : ms58xx_dev_s)
  (crcindex : nat) (crcshift : Z) (ret : Z) (prom : list Z)
  : Z * ms58xx_dev_s :=
  let crcmask := u16 (Z.shiftl 0xf crcshift) in
  let crc :=
    u8 (Z.shiftr (Z.land (prom !!! crcindex) crcmask) crcshift) in
  let prom :=
    <[crcindex := u16 (Z.land (prom !!! crcindex) (Z.lnot crcmask))]>
      prom in
  if negb (crc =? ms58xx_crc (prom_bytes e prom))
  then (- ENODEV, priv)
  else
    let priv := priv <| set_c1 := prom !!! 1%nat |>
                     <| set_c2 := prom !!! 2%nat |>
                     <| set_c3 := prom !!! 3%nat |>
                     <| set_c4 := prom !!! 4%nat |>
                     <| set_c5 := prom !!! 5%nat |>
                     <| set_c6 := prom !!! 6%nat |> in
    let priv :=
      match model priv with
      | MS58XX_MODEL_MS5803_07 =>
          priv <| set_c7 :=
                    u8 (Z.shiftr (Z.land (prom !!! 7%nat) 0x03f0) 4) |>
               <| set_c8 :=
                    u8 (Z.shiftr (Z.land (prom !!! 7%nat) 0xf700) 10) |>
      | MS58XX_MODEL_MS5806_02 =>
          priv <| set_c7 :=
                    u8 (Z.shiftr (Z.land (prom !!! 7%nat) 0x0ff0) 4) |>
               <| set_c8 := 0 |>
      | _ => priv <| set_c7 := 0 |> <| set_c8 := 0 |>
      end in
    (ret, priv).

(** [prom] is the content the local array happens to have on entry; the
    C local [ret] is assigned by the first iteration of the loop. *)
Definition ms58xx_readprom (e : endianness) (prom : list Z)
  (priv : ms58xx_dev_s) : io (Z * ms58xx_dev_s) :=
  let '(prom, len, crcindex, crcshift) :=
    match model priv with
    | MS58XX_MODEL_MS5805_02
    | MS58XX_MODEL_MS5837_30 =>
        (<[(MS58XX_PROM_LEN - 1)%nat := 0]> prom,
         (MS58XX_PROM_LEN - 1)%nat, 0%nat, 12)
    | _ => (prom, MS58XX_PROM_LEN, 7%nat, 0)
    end in
  let* exit := readprom_loop priv len 0 0 prom in
  match exit with
  | Returned ret => Ret (ret, priv)
  | Completed ret prom =>
      Ret (readprom_finish e priv crcindex crcshift ret prom)
  end.

(** ** ms58xx_reset *)

Definition ms58xx_reset (e : endianness) (prom : list Z)
  (priv : ms58xx_dev_s) : io (Z * ms58xx_dev_s) :=
  let regaddr := MS58XX_RESET_REG in
  let* _ := I2C_SETADDRESS (i2c priv) (addr priv) 7 in
  let* ret := I2C_WRITE (i2c priv) [regaddr] in
  if ret <? 0 then Ret (ret, priv) else
  ms58xx_readprom e prom priv.

(** ** ms58xx_convert

    The result of the trigger write is only logged; [ret] is then
    overwritten by the result of [ms58xx_readadc]. *)

Definition ms58xx_convert (priv : ms58xx_dev_s) (regaddr : Z)
  : io (Z * option Z) :=
  let regaddr := u8 (Z.lor regaddr (osr priv)) in
  let* _ := I2C_SETADDRESS (i2c priv) (addr priv) 7 in
  let* ret := I2C_WRITE (i2c priv) [regaddr] in
  let* _ := up_udelay (delay priv) in
  let* (ret, regval) := ms58xx_readadc priv in
  if ret <? 0 then Ret (ret, regval) else
  Ret (ret, regval).

(** ** ms58xx_measure *)

Declare Scope i64_scope.
Delimit Scope i64_scope with i64.
Arguments add64 (a b)%_i64.
Arguments sub64 (a b)%_i64.
Arguments mul64 (a b)%_i64.
Arguments div64 (a b)%_i64.
Arguments shl64 (a s)%_i64.
Infix "+" := add64 : i64_scope.
Infix "-" := sub64 : i64_scope.
Infix "*" := mul64 : i64_scope.
Infix "/" := div64 : i64_scope.
Infix "<<" := shl64 (at level 30, no associativity) : i64_scope.

(** [diff], the first assignment after the two conversions:
    [(int32_t)rawtemp - (int32_t)priv->c5 / ((int32_t)1 << 8)]. *)
Definition measure_diff (priv : ms58xx_dev_s) (rawtemp : Z) : Z :=
  sub32 (s32 rawtemp) (div32 (s32 (c5 priv)) (shl32 1 8)).

(** The arithmetic of [ms58xx_measure] from [diff] to the final [temp]
    and [press]. [vdd] is [CONFIG_MS58XX_VDD]. *)
Definition measure_compensate (vdd : Z) (priv : ms58xx_dev_s)
  (rawpress rawtemp : Z) : Z * Z :=
  let diff := measure_diff priv rawtemp in
  let temp := s32 (2000 + diff * c6 priv / (1 << 23))%i64 in
  let off := (c2 priv * (1 << c2s priv)
              + c4 priv * diff / (1 << c4s priv))%i64 in
  let sens := (c1 priv * (1 << c1s priv)
               + c3 priv * diff / (1 << c3s priv))%i64 in
  let '(diffmul, diffdiv, offmula, offdiva, sensmula, sensdiva,
        offmulb, sensmulb) :=
    if temp <? 2000 then
      let '(offmulb, sensmulb) :=
        if temp <? -1500 then (offmulvl priv, sensmulvl priv) else (0, 0) in
      (diffmull priv, (1 << diffdivls priv)%i64,
       offmull priv, (1 << offdivls priv)%i64,
       sensmull priv, (1 << sensdivls priv)%i64,
       offmulb, sensmulb)
    else
      (diffmulh priv, (1 << diffdivhs priv)%i64,
       offmulh priv, (1 << offdivhs priv)%i64,
       sensmulh priv, (1 << sensdivhs priv)%i64,
       0, 0) in
  let tm := (temp - 2000)%i64 in
  let tm := (tm * tm)%i64 in
  let tp := (temp + 1500)%i64 in
  let tp := (tp * tp)%i64 in
  let off := (off - (offmula * tm / offdiva + offmulb * tp))%i64 in
  let sens := (sens - (sensmula * tm / sensdiva + sensmulb * tp))%i64 in
  let temp := sub32 temp (s32 (diffmul * diff * diff / diffdiv)%i64) in
  let press :=
    s32 ((rawpress * sens / (1 << 21) - off) / (1 << pressdivs priv))%i64 in
  let press :=
    match model priv with
    | MS58XX_MODEL_MS5803_07 =>
        if 110000 <? press then
          add32 press
            (s32 (((c7 priv - (1 << 5)) * 100 * (1 << 2)
                   - (c8 priv - (1 << 5)) * (temp - 2000) / (1 << 4))
                  * (press - 110000) / 49000000)%i64)
        else press
    | MS58XX_MODEL_MS5806_02 =>
        if (22 <=? vdd) && (vdd <=? 30) then
          add32 press (s32 ((30 - vdd) * c7 priv / ((1 << 6) * 10))%i64)
        else press
    | _ => press
    end in
  (temp, press).

(** A conversion that returns [ret >= 0] has stored its value (lemma
    [convert_stores]); the default below is never taken. *)
Definition ms58xx_measure (vdd : Z) (priv : ms58xx_dev_s)
  : io (Z * ms58xx_dev_s) :=
  let* (ret, rawpress) := ms58xx_convert priv MS58XX_PRESS_REG in
  if ret <? 0 then Ret (ret, priv) else
  let* (ret, rawtemp) := ms58xx_convert priv MS58XX_TEMP_REG in
  if ret <? 0 then Ret (ret, priv) else
  let '(temp, press) :=
    measure_compensate vdd priv (default 0 rawpress) (default 0 rawtemp) in
  Ret (ret, priv <| set_temp := temp |> <| set_press := press |>).

(** ** ms58xx_register *)

(** The condition of the second [DEBUGASSERT] (the first, [i2c != NULL],
    always holds of a bus value).  [addr0] and [addr1] are [MS58XX_ADDR0]
    and [MS58XX_ADDR1] of nuttx/sensors/ms58xx.h. *)
Definition register_sanity (addr0 addr1 : Z) (model : ms58xx_model_e)
  (addr : Z) : bool :=
  (match model with
   | MS58XX_MODEL_MS5803_02 | MS58XX_MODEL_MS5803_05
   | MS58XX_MODEL_MS5803_07 | MS58XX_MODEL_MS5803_14
   | MS58XX_MODEL_MS5803_30 | MS58XX_MODEL_MS5806_02 => true
   | _ => false
   end && ((addr =? addr0) || (addr =? addr1)))
  || (match model with
      | MS58XX_MODEL_MS5805_02 | MS58XX_MODEL_MS5837_30 => true
      | _ => false
      end && (addr =? addr0)).

(** What the board configuration fixes: whether [DEBUGASSERT] checks its
    condition (CONFIG_DEBUG) or expands to nothing, the two bus addresses,
    the byte order, and CONFIG_MS58XX_VDD. *)
Record config : Type := {
  CONFIG_DEBUG : bool;
  MS58XX_ADDR0 : Z;
  MS58XX_ADDR1 : Z;
  CONFIG_ENDIAN : endianness;
  CONFIG_MS58XX_VDD : Z
}.

Inductive register_exit : Type :=
| Asserted
| Exited (ret : Z) (dev : option ms58xx_dev_s).

(** [kmm_malloc] is [None] when the allocation fails and otherwise the
    content of the fresh block; [register_driver] is what the file system
    answers for the new instance; [prom] as in [ms58xx_readprom]. *)
Definition ms58xx_register (cfg : config)
  (kmm_malloc : option ms58xx_dev_s) (register_driver : ms58xx_dev_s -> Z)
  (prom : list Z)
  (i2c : i2c_dev_s) (addr osr : Z) (model : ms58xx_model_e)
  : io register_exit :=
  if CONFIG_DEBUG cfg
     && negb (register_sanity (MS58XX_ADDR0 cfg) (MS58XX_ADDR1 cfg) model addr)
  then Ret Asserted else
  match kmm_malloc with
  | None => Ret (Exited (- ENOMEM) None)
  | Some priv =>
      let priv := priv <| set_i2c := i2c |> <| set_addr := addr |>
                       <| set_model := model |>
                       <| set_temp := 0 |> <| set_press := 0 |> in
      let priv :=
        match model with
        | MS58XX_MODEL_MS5803_02
        | MS58XX_MODEL_MS5805_02
        | MS58XX_MODEL_MS5806_02 =>
            priv <| set_c1s := 16 |> <| set_c2s := 17 |>
                 <| set_c3s := 7 |> <| set_c4s := 6 |>
        | MS58XX_MODEL_MS5803_05 =>
            priv <| set_c1s := 17 |> <| set_c2s := 18 |>
                 <| set_c3s := 7 |> <| set_c4s := 5 |>
        | MS58XX_MODEL_MS5803_07 =>
            priv <| set_c1s := 17 |> <| set_c2s := 18 |>
                 <| set_c3s := 6 |> <| set_c4s := 5 |>
        | MS58XX_MODEL_MS5803_14
        | MS58XX_MODEL_MS5803_30
        | MS58XX_MODEL_MS5837_30 =>
            priv <| set_c1s := 15 |> <| set_c2s := 16 |>
                 <| set_c3s := 8 |> <| set_c4s := 7 |>
        end in
      let priv :=
        match model with
        | MS58XX_MODEL_MS5803_02
        | MS58XX_MODEL_MS5806_02 =>
            priv <| set_diffmull := 1 |> <| set_diffdivls := 31 |>
                 <| set_offmull := 61 |> <| set_offdivls := 4 |>
                 <| set_sensmull := 2 |> <| set_sensdivls := 0 |>
                 <| set_offmulvl := 20 |> <| set_sensmulvl := 12 |>
                 <| set_diffmulh := 0 |> <| set_diffdivhs := 0 |>
                 <| set_offmulh := 0 |> <| set_offdivhs := 0 |>
                 <| set_sensmulh := 0 |> <| set_sensdivhs := 0 |>
        | MS58XX_MODEL_MS5803_05
        | MS58XX_MODEL_MS5803_07 =>
            priv <| set_diffmull := 3 |> <| set_diffdivls := 33 |>
                 <| set_offmull := 3 |> <| set_offdivls := 3 |>
                 <| set_sensmull := 7 |> <| set_sensdivls := 3 |>
                 <| set_offmulvl := 0 |> <| set_sensmulvl := 3 |>
                 <| set_diffmulh := 0 |> <| set_diffdivhs := 0 |>
                 <| set_offmulh := 0 |> <| set_offdivhs := 0 |>
                 <| set_sensmulh := 0 |> <| set_sensdivhs := 0 |>
        | MS58XX_MODEL_MS5803_14
        | MS58XX_MODEL_MS5803_30 =>
            priv <| set_diffmull := 3 |> <| set_diffdivls := 33 |>
                 <| set_offmull := 3 |> <| set_offdivls := 1 |>
                 <| set_sensmull := 5 |> <| set_sensdivls := 3 |>
                 <| set_offmulvl := 7 |> <| set_sensmulvl := 4 |>
                 <| set_diffmulh := 7 |> <| set_diffdivhs := 37 |>
                 <| set_offmulh := 1 |> <| set_offdivhs := 4 |>
                 <| set_sensmulh := 0 |> <| set_sensdivhs := 0 |>
        | MS58XX_MODEL_MS5805_02 =>
            priv <| set_diffmull := 11 |> <| set_diffdivls := 35 |>
                 <| set_offmull := 31 |> <| set_offdivls := 3 |>
                 <| set_sensmull := 63 |> <| set_sensdivls := 5 |>
                 <| set_offmulvl := 0 |> <| set_sensmulvl := 0 |>
                 <| set_diffmulh := 0 |> <| set_diffdivhs := 0 |>
                 <| set_offmulh := 0 |> <| set_offdivhs := 0 |>
                 <| set_sensmulh := 0 |> <| set_sensdivhs := 0 |>
        | MS58XX_MODEL_MS5837_30 =>
            priv <| set_diffmull := 3 |> <| set_diffdivls := 33 |>
                 <| set_offmull := 3 |> <| set_offdivls := 1 |>
                 <| set_sensmull := 5 |> <| set_sensdivls := 3 |>
                 <| set_offmulvl := 7 |> <| set_sensmulvl := 4 |>
                 <| set_diffmulh := 2 |> <| set_diffdivhs := 37 |>
                 <| set_offmulh := 1 |> <| set_offdivhs := 4 |>
                 <| set_sensmulh := 0 |> <| set_sensdivhs := 0 |>
        end in
      let priv :=
        match model with
        | MS58XX_MODEL_MS5803_30
        | MS58XX_MODEL_MS5837_30 => priv <| set_pressdivs := 13 |>
        | _ => priv <| set_pressdivs := 15 |>
        end in
      let '(ret, priv) := ms58xx_setosr priv osr in
      if ret <? 0 then Ret (Exited ret None) else
      let* (ret, priv) := ms58xx_reset (CONFIG_ENDIAN cfg) prom priv in
      if ret <? 0 then Ret (Exited ret None) else
      let ret := register_driver priv in
      if ret <? 0 then Ret (Exited ret None) else
      Ret (Exited ret (Some priv))
  end.

(** ** The check value in the words of the data sheet

    Word by word, most-significant byte first: each byte is XORed into a
    16-bit register, which is then shifted left eight times, XORing 0x3000
    in whenever the bit shifted out of the top was set; the check value
    is bits 15..12 of the final register. *)

Definition crc4_shift (reg : Z) : Z :=
  let out := Z.testbit reg 15 in
  let reg := (2 * reg) mod 65536 in
  if out then Z.lxor reg 0x3000 else reg.

Definition crc4_byte (reg b : Z) : Z := Nat.iter 8 crc4_shift (Z.lxor reg b).

Definition crc4_word (reg w : Z) : Z :=
  crc4_byte (crc4_byte reg (w / 256)) (w mod 256).

Definition crc4 (block : list Z) : Z := fold_left crc4_word block 0 / 4096.

(** ** A simulated sensor

    A bus on which every write is acknowledged and every read answers the
    last command written: a PROM word for 0xa0..0xae, and for the ADC read
    command the result of the conversion triggered before it. *)

Fixpoint commands (t : list event) : list Z :=
  match t with
  | [] => []
  | Write (c :: _) :: t' => c :: commands t'
  | _ :: t' => commands t'
  end.

Definition msb_first (n : nat) (v : Z) : list Z :=
  map (fun k => u8 (Z.shiftr v (8 * Z.of_nat k))) (rev (seq 0 n)).

Definition sensor_read (prom : list Z) (d1 d2 : Z) (t : list event)
  (buflen : nat) : Z * list Z :=
  match rev (commands t) with
  | [] => (OK, [])
  | c :: earlier =>
      if (0xa0 <=? c) && (c <? 0xb0) then
        (OK, msb_first buflen (prom !!! Z.to_nat ((c - 0xa0) / 2)))
      else
        match find (fun c' => (0x40 <=? c') && (c' <? 0x60)) earlier with
        | Some conv =>
            (OK, msb_first buflen (if conv <? 0x50 then d1 else d2))
        | None => (OK, msb_first buflen 0)
        end
  end.

Definition sensor (prom : list Z) (d1 d2 : Z) : i2c_dev_s :=
  {| i2c_write := fun _ _ => OK; i2c_read := sensor_read prom d1 d2 |}.

(** The same bus, except that the write number [k] (counting from 0) is
    not acknowledged and returns [err]. *)
Definition nack_write (k : nat) (err : Z) (bus : i2c_dev_s) : i2c_dev_s :=
  {| i2c_write := fun t buffer =>
       if Nat.eqb (length (commands t)) k then err else i2c_write bus t buffer;
     i2c_read := i2c_read bus |}.

(** The same bus, except that the read number [k] fails with [err]. *)
Definition is_read (ev : event) : bool :=
  match ev with Read _ => true | _ => false end.

Definition nack_read (k : nat) (err : Z) (bus : i2c_dev_s) : i2c_dev_s :=
  {| i2c_write := i2c_write bus;
     i2c_read := fun t buflen =>
       if Nat.eqb (length (filter is_read t)) k then (err, [])
       else i2c_read bus t buflen |}.

(** A freshly allocated, zeroed instance. *)
Definition blank (bus : i2c_dev_s) (a : Z) (m : ms58xx_model_e)
  : ms58xx_dev_s :=
  {| i2c := bus; addr := a; model := m; crcindex := 0; crcshift := 0;
     temp := 0; press := 0; osr := 0; delay := 0;
     c1 := 0; c2 := 0; c3 := 0; c4 := 0; c5 := 0; c6 := 0; c7 := 0; c8 := 0;
     c1s := 0; c2s := 0; c3s := 0; c4s := 0;
     diffmull := 0; diffdivls := 0; offmull := 0; offdivls := 0;
     sensmull := 0; sensdivls := 0; offmulvl := 0; sensmulvl := 0;
     diffmulh := 0; diffdivhs := 0; offmulh := 0; offdivhs := 0;
     sensmulh := 0; sensdivhs := 0; pressdivs := 0 |}.

(** The PROM image of the data sheet's CRC example (application note
    AN520): seven words of data and check value 0xB in bits 3..0 of
    word 7. *)
Definition an520 : list Z :=
  [0x3132; 0x3334; 0x3536; 0x3738; 0x3940; 0x4142; 0x4344; 0x450B].

(** ** The PROM, as the bus delivers it

    [delivers priv i ws r0 r t t']: from trace [t], reading the PROM words
    number [i], [i+1], ... one after the other succeeds each time, yields
    the words [ws] and leaves the trace [t']; [r] is what the last read
    returned ([r0] when [ws] is empty). *)
Inductive delivers (priv : ms58xx_dev_s)
  : nat -> list Z -> Z -> Z -> list event -> list event -> Prop :=
| delivers_nil i r0 t : delivers priv i [] r0 r0 t t
| delivers_cons i w ws r0 r1 r t t1 t2 :
    ms58xx_readu16 priv (prom_reg i) t = ((r1, Some w), t1) ->
    0 <= r1 ->
    delivers priv (S i) ws r1 r t1 t2 ->
    delivers priv i (w :: ws) r0 r t t2.

(** The two part numbers with a 7-word PROM. *)
Definition compact (m : ms58xx_model_e) : bool :=
  match m with
  | MS58XX_MODEL_MS5805_02 | MS58XX_MODEL_MS5837_30 => true
  | _ => false
  end.

Definition prom_words (m : ms58xx_model_e) : nat :=
  if compact m then 7%nat else 8%nat.

(** The 8-word block made of the words read. *)
Definition prom_block (m : ms58xx_model_e) (ws : list Z) : list Z :=
  if compact m then ws ++ [0] else ws.

(** Bits 15..12 of word 0, or bits 3..0 of word 7. *)
Definition crc_nibble (m : ms58xx_model_e) (block : list Z) : Z :=
  if compact m then Z.land (Z.shiftr (block !!! 0%nat) 12) 0xf
  else Z.land (block !!! 7%nat) 0xf.

(** The block with that nibble set to zero. *)
Definition crc_cleared (m : ms58xx_model_e) (block : list Z) : list Z :=
  if compact m then <[0%nat := Z.land (block !!! 0%nat) 0x0fff]> block
  else <[7%nat := Z.land (block !!! 7%nat) 0xfff0]> block.

Definition coefficients (priv : ms58xx_dev_s) : list Z :=
  [c1 priv; c2 priv; c3 priv; c4 priv; c5 priv; c6 priv; c7 priv; c8 priv].

(** The bus requests of reading [n] PROM words from word [i] on. *)
Definition word_requests (priv : ms58xx_dev_s) (i n : nat) : list event :=
  flat_map (fun k => [SetAddress (addr priv) 7; Write [prom_reg k]; Read 2])
           (seq i n).

(** ** The legal pairings of model and address *)


(** A board configuration without and one with CONFIG_DEBUG. *)
Definition release_config : config :=
  {| CONFIG_DEBUG := false; MS58XX_ADDR0 := 0x76; MS58XX_ADDR1 := 0x77;
     CONFIG_ENDIAN := BigEndian; CONFIG_MS58XX_VDD := 30 |}.

Definition debug_config : config :=
  {| CONFIG_DEBUG := true; MS58XX_ADDR0 := 0x76; MS58XX_ADDR1 := 0x77;
     CONFIG_ENDIAN := BigEndian; CONFIG_MS58XX_VDD := 30 |}.

(** A 7-word PROM image with its check value in bits 15..12 of word 0. *)
Definition compact_image : list Z :=
  [0x3000; 0x3334; 0x3536; 0x3738; 0x3940; 0x4142; 0x4344].

(** The coefficients of the MS5803-14BA data sheet's worked example
    (C1..C6 = 46546, 42845, 29751, 29457, 32745, 29059; for D1 = 4311550
    and D2 = 8387300 the data sheet obtains dT = 4580, TEMP = 2015 and
    P = 10005), as a PROM image with its check value, and the instance
    the driver registers for it. *)
Definition ms5803_14_image : list Z :=
  [0; 46546; 42845; 29751; 29457; 32745; 29059; 0x0006].

Definition ms5803_14_dev : ms58xx_dev_s :=
  match fst (ms58xx_register release_config
               (Some (blank (sensor [] 0 0) 0 MS58XX_MODEL_MS5803_02))
               (fun _ => OK) (replicate 8 0)
               (sensor ms5803_14_image 4311550 8387300)
               0x76 4096 MS58XX_MODEL_MS5803_14 []) with
  | Exited _ (Some dev) => dev
  | _ => blank (sensor [] 0 0) 0 MS58XX_MODEL_MS5803_02
  end.

(** ** ms58xx_ioctl

    The command numbers are those of nuttx/sensors/ioctl.h, which is not
    among the sources; they are taken as given.  [arg] is the
    [unsigned long] argument.  A value stored through the pointer [arg]
    is returned as the pair of the address and the value.

    The [sndbg] line of the oversampling command prints the [uint16_t]
    that [arg], cast to a pointer, points to: where the debug output of
    the sensor drivers is compiled in, [arg] is read as an address.
    [sndbg] says whether that output is compiled in (the macro is
    defined in debug.h, which is not among the sources); [load16 a] is
    the 16-bit value at address [a], and [None] where nothing can be
    read at [a].  What follows a load from such an address is not
    defined by the language: the call ends in [IoctlFaulted].  Every
    other [sndbg] line of the driver prints values already computed. *)

Definition ENOTTY : Z := 25.

Record snioc : Type := {
  SNIOC_MEASURE : Z;
  SNIOC_TEMPERATURE : Z;
  SNIOC_PRESSURE : Z;
  SNIOC_RESET : Z;
  SNIOC_OVERSAMPLING : Z
}.

Inductive ioctl_exit : Type :=
| IoctlAsserted
| IoctlFaulted
| IoctlReturned (ret : Z) (priv : ms58xx_dev_s) (stored : option (Z * Z)).

Definition ms58xx_ioctl (cfg : config) (sn : snioc) (sndbg : bool)
  (load16 : Z -> option Z) (prom : list Z)
  (priv : ms58xx_dev_s) (cmd arg : Z) : io ioctl_exit :=
  if cmd =? SNIOC_MEASURE sn then
    if CONFIG_DEBUG cfg && negb (arg =? 0) then Ret IoctlAsserted else
    let* (ret, priv) := ms58xx_measure (CONFIG_MS58XX_VDD cfg) priv in
    Ret (IoctlReturned ret priv None)
  else if cmd =? SNIOC_TEMPERATURE sn then
    if CONFIG_DEBUG cfg && (arg =? 0) then Ret IoctlAsserted else
    Ret (IoctlReturned OK priv (Some (arg, temp priv)))
  else if cmd =? SNIOC_PRESSURE sn then
    if CONFIG_DEBUG cfg && (arg =? 0) then Ret IoctlAsserted else
    Ret (IoctlReturned OK priv (Some (arg, press priv)))
  else if cmd =? SNIOC_RESET sn then
    if CONFIG_DEBUG cfg && negb (arg =? 0) then Ret IoctlAsserted else
    let* (ret, priv) := ms58xx_reset (CONFIG_ENDIAN cfg) prom priv in
    Ret (IoctlReturned ret priv None)
  else if cmd =? SNIOC_OVERSAMPLING sn then
    let '(ret, priv) := ms58xx_setosr priv (u16 arg) in
    if sndbg then
      match load16 arg with
      | Some _ => Ret (IoctlReturned ret priv None)
      | None => Ret IoctlFaulted
      end
    else Ret (IoctlReturned ret priv None)
  else Ret (IoctlReturned (- ENOTTY) priv None).

(** Command numbers for running the driver. *)
Definition sample_snioc : snioc :=
  {| SNIOC_MEASURE := 0xa01; SNIOC_TEMPERATURE := 0xa02;
     SNIOC_PRESSURE := 0xa03; SNIOC_RESET := 0xa04;
     SNIOC_OVERSAMPLING := 0xa05 |}.

(** ** Single-bit errors in the PROM

    [flip_bit i k ws] is [ws] with bit [k] of word [i] inverted.  The
    syndrome of a block is the XOR of its CRC nibble with the CRC of the
    block with the nibble cleared: the loader accepts a block exactly when
    its syndrome is zero. *)

Definition flip_bit (i k : nat) (ws : list Z) : list Z :=
  <[i := Z.lxor (ws !!! i) (Z.shiftl 1 (Z.of_nat k))]> ws.

Definition unit_block (i k : nat) : list Z :=
  <[i := Z.shiftl 1 (Z.of_nat k)]> (replicate 8 0).

Definition syndrome (e : endianness) (m : ms58xx_model_e) (block : list Z)
  : Z :=
  Z.lxor (crc_nibble m block)
         (ms58xx_crc (prom_bytes e (crc_cleared m block))).

(** Bits 11..8 of word 7, on a little-endian host: the low nibble of the
    last byte [ms58xx_crc] is given. *)
Definition unchecked_bit (e : endianness) (i k : nat) : bool :=
  match e with
  | LittleEndian => Nat.eqb i 7 && Nat.leb 8 k && Nat.ltb k 12
  | BigEndian => false
  end.

Definition all_models : list ms58xx_model_e :=
  [MS58XX_MODEL_MS5803_02; MS58XX_MODEL_MS5803_05; MS58XX_MODEL_MS5803_07;
   MS58XX_MODEL_MS5803_14; MS58XX_MODEL_MS5803_30; MS58XX_MODEL_MS5805_02;
   MS58XX_MODEL_MS5806_02; MS58XX_MODEL_MS5837_30].

(** The syndromes of all single-bit blocks, checked by evaluation. *)
Definition unit_syndromes_nonzero : bool :=
  forallb (fun e =>
    forallb (fun m =>
      forallb (fun i =>
        forallb (fun k =>
          unchecked_bit e i k
          || negb (syndrome e m (unit_block i k) =? 0))
          (seq 0 16))
        (seq 0 (prom_words m)))
      all_models)
    [LittleEndian; BigEndian].

(** * Properties *)

Ltac io_unfold :=
  unfold Bind, Ret, I2C_SETADDRESS, I2C_WRITE, I2C_READ, up_udelay.

(** ** Integer ranges *)

Lemma s32_id (x : Z) : -2147483648 <= x < 2147483648 -> s32 x = x.
Proof. intros H. unfold s32. rewrite Z.mod_small; lia. Qed.

Lemma u8_range (x : Z) : 0 <= u8 x < 256.
Proof. unfold u8. apply Z.mod_pos_bound. lia. Qed.

Lemma u16_range (x : Z) : 0 <= u16 x < 65536.
Proof. unfold u16. apply Z.mod_pos_bound. lia. Qed.

Lemma u16_id (x : Z) : 0 <= x < 65536 -> u16 x = x.
Proof. intros H. unfold u16. apply Z.mod_small. lia. Qed.

Lemma u8_id (x : Z) : 0 <= x < 256 -> u8 x = x.
Proof. intros H. unfold u8. apply Z.mod_small. lia. Qed.

(** ** The temperature difference *)

(** On a 24-bit conversion result and a 16-bit coefficient nothing wraps:
    the code computes [rawtemp - c5 / 256]. *)
Lemma measure_diff_value (priv : ms58xx_dev_s) (rawtemp : Z) :
  0 <= rawtemp < 16777216 -> 0 <= c5 priv < 65536 ->
  measure_diff priv rawtemp = rawtemp - c5 priv / 256.
Proof.
  intros Hr Hc. unfold measure_diff, sub32, div32, shl32.
  change (Z.shiftl 1 8) with 256. rewrite (s32_id 256) by lia.
  rewrite (s32_id rawtemp), (s32_id (c5 priv)) by lia.
  rewrite Z.quot_div_nonneg by lia.
  assert (0 <= c5 priv / 256 < 256).
  { split; [apply Z.div_pos; lia | apply Z.div_lt_upper_bound; lia]. }
  rewrite (s32_id (c5 priv / 256)) by lia. apply s32_id. lia.
Qed.

(** The rest of the arithmetic is the data sheet's: started from the
    data sheet's dT = 4580 (a raw temperature of 4580 + C5 / 256 makes
    the code compute it), it gives the data sheet's TEMP = 2015 and
    P = 10005. *)
Lemma compensate_datasheet_example :
  coefficients ms5803_14_dev = [46546; 42845; 29751; 29457; 32745; 29059; 0; 0]
  /\ measure_diff ms5803_14_dev 4707 = 4580
  /\ measure_compensate 30 ms5803_14_dev 4311550 4707 = (2015, 10005).
Proof. repeat split; vm_compute; reflexivity. Qed.

(** C1 (the code departs from the claim): the first step of
    [ms58xx_measure] divides C5 by 256 where the claim, and the data
    sheet's dT = D2 - C5 * 2^8, multiply.  On the data sheet's example
    (D2 = 8387300, C5 = 32745) the code computes 8387173 where
    D2 - C5 * 256 is 4580, and ends with a temperature of 27472 and a
    pressure of 13865 where the data sheet has 2015 and 10005. *)
Theorem measure_diff_scales_c5_down :
  c5 ms5803_14_dev = 32745
  /\ measure_diff ms5803_14_dev 8387300 = 8387300 - 32745 / 256
  /\ measure_diff ms5803_14_dev 8387300 = 8387173
  /\ 8387300 - 32745 * 256 = 4580
  /\ measure_diff ms5803_14_dev 8387300 <> 8387300 - 32745 * 256
  /\ measure_compensate 30 ms5803_14_dev 4311550 8387300 = (27472, 13865).
Proof. repeat split; vm_compute; congruence. Qed.

(** ** The conversion sequence *)

Lemma readadc_stores (priv : ms58xx_dev_s) (t : list event) :
  let '((ret, adc), _) := ms58xx_readadc priv t in
  0 <= ret -> exists v, adc = Some v /\ 0 <= v.
Proof.
  unfold ms58xx_readadc. io_unfold.
  destruct (i2c_write _ _ _ <? 0) eqn:Ew; [simpl; lia |].
  destruct (i2c_read _ _ _) as [ret buffer].
  destruct (ret <? 0) eqn:E; simpl; [lia |].
  intros _. eexists; split; [reflexivity |].
  pose proof (u8_range (nth 0 buffer 0)). pose proof (u8_range (nth 1 buffer 0)).
  pose proof (u8_range (nth 2 buffer 0)). unfold byte_at.
  repeat (apply Z.lor_nonneg; split); try apply Z.shiftl_nonneg; lia.
Qed.

(** What [ms58xx_convert] returns is what the read-back returned. *)
Lemma convert_returns_readadc (priv : ms58xx_dev_s) (regaddr : Z)
  (t : list event) :
  ms58xx_convert priv regaddr t =
  ms58xx_readadc priv
    (t ++ [SetAddress (addr priv) 7] ++ [Write [u8 (Z.lor regaddr (osr priv))]]
       ++ [Udelay (delay priv)]).
Proof.
  unfold ms58xx_convert. io_unfold.
  rewrite <- !app_assoc. simpl.
  destruct (ms58xx_readadc priv _) as [[ret regval] t'].
  destruct (ret <? 0); reflexivity.
Qed.

Lemma convert_stores (priv : ms58xx_dev_s) (regaddr : Z) (t : list event) :
  let '((ret, regval), _) := ms58xx_convert priv regaddr t in
  0 <= ret -> exists v, regval = Some v /\ 0 <= v.
Proof. rewrite convert_returns_readadc. apply readadc_stores. Qed.

(** A failure of the read-back is returned to the caller. *)
Lemma convert_readback_failure (priv : ms58xx_dev_s) (regaddr : Z)
  (t t1 t' : list event) (ret : Z) (adc : option Z) :
  t1 = t ++ [SetAddress (addr priv) 7; Write [u8 (Z.lor regaddr (osr priv))];
             Udelay (delay priv)] ->
  ms58xx_readadc priv t1 = ((ret, adc), t') -> ret < 0 ->
  ms58xx_convert priv regaddr t = ((ret, adc), t').
Proof. intros -> H _. rewrite convert_returns_readadc. exact H. Qed.

(** C2 (the code departs from the claim): on a bus that refuses the
    trigger write with -EIO and answers everything after it,
    [ms58xx_convert] returns OK together with an ADC value; the failure
    of the trigger write is not returned. *)
Theorem convert_drops_trigger_failure :
  let bus := nack_write 0 (- EIO) (sensor an520 0x123456 0x789abc) in
  let priv := blank bus 0x76 MS58XX_MODEL_MS5803_14 in
  i2c_write bus [SetAddress 0x76 7] [MS58XX_PRESS_REG] = - EIO
  /\ ms58xx_convert priv MS58XX_PRESS_REG [] =
     ((OK, Some 0x123456),
      [SetAddress 0x76 7; Write [MS58XX_PRESS_REG]; Udelay 0;
       SetAddress 0x76 7; Write [MS58XX_ADC_REG]; Read 3]).
Proof. cbv zeta. split; vm_compute; reflexivity. Qed.

(** ** The CRC *)

Section Crc.

Lemma land_bit15 (reg : Z) :
  Z.land reg 0x8000 = if Z.testbit reg 15 then 0x8000 else 0.
Proof.
  change 0x8000 with (2 ^ 15). apply Z.bits_inj'. intros n Hn.
  rewrite Z.land_spec, Z.pow2_bits_eqb by lia.
  destruct (Z.eqb_spec 15 n) as [<- | Hne].
  - destruct (Z.testbit reg 15); [| rewrite Z.bits_0; reflexivity].
    rewrite Z.pow2_bits_true by lia. reflexivity.
  - rewrite andb_false_r.
    destruct (Z.testbit reg 15); [| rewrite Z.bits_0; reflexivity].
    rewrite Z.pow2_bits_false by lia. reflexivity.
Qed.

Lemma lxor_range (a b : Z) :
  0 <= a < 65536 -> 0 <= b < 65536 -> 0 <= Z.lxor a b < 65536.
Proof.
  intros Ha Hb.
  assert (N : 0 <= Z.lxor a b) by (apply Z.lxor_nonneg; lia).
  split; [exact N |].
  destruct (Z.eq_dec (Z.lxor a b) 0) as [-> | Hne]; [lia |].
  change 65536 with (2 ^ 16). apply Z.log2_lt_pow2; [lia |].
  pose proof (Z.log2_lxor a b ltac:(lia) ltac:(lia)) as L.
  assert (La : Z.log2 a < 16).
  { destruct (Z.eq_dec a 0) as [-> | ?]; [reflexivity |].
    apply Z.log2_lt_pow2; [lia |]. change (2 ^ 16) with 65536. lia. }
  assert (Lb : Z.log2 b < 16).
  { destruct (Z.eq_dec b 0) as [-> | ?]; [reflexivity |].
    apply Z.log2_lt_pow2; [lia |]. change (2 ^ 16) with 65536. lia. }
  lia.
Qed.

Lemma crc_shift_one (reg : Z) :
  0 <= reg < 65536 ->
  crc_shift 1 reg = crc4_shift reg /\ 0 <= crc4_shift reg < 65536.
Proof.
  intros H. unfold crc4_shift. cbn [crc_shift].
  rewrite land_bit15, Z.shiftl_mul_pow2 by lia. change (2 ^ 1) with 2.
  replace (reg * 2) with (2 * reg) by lia. unfold u16.
  assert (R : 0 <= (2 * reg) mod 65536 < 65536)
    by (apply Z.mod_pos_bound; lia).
  pose proof (lxor_range _ 0x3000 R ltac:(lia)) as X.
  destruct (Z.testbit reg 15); cbn [Z.eqb negb].
  - rewrite (Z.mod_small (Z.lxor _ _)) by exact X.
    split; [reflexivity | exact X].
  - split; [reflexivity | exact R].
Qed.

Lemma iter_crc4_shift_range (n : nat) (reg : Z) :
  0 <= reg < 65536 -> 0 <= Nat.iter n crc4_shift reg < 65536.
Proof.
  intros H. induction n as [| n IH]; simpl; [exact H |].
  apply crc_shift_one. exact IH.
Qed.

Lemma crc_shift_iter (n : nat) (reg : Z) :
  0 <= reg < 65536 -> crc_shift n reg = Nat.iter n crc4_shift reg.
Proof.
  revert reg. induction n as [| n IH]; intros reg H; [reflexivity |].
  rewrite Nat.iter_succ_r.
  destruct (crc_shift_one reg H) as [E R].
  rewrite <- IH by exact R. rewrite <- E. reflexivity.
Qed.

Lemma crc_byte_spec (reg b : Z) :
  0 <= reg < 65536 -> 0 <= b < 256 ->
  crc_byte reg b = crc4_byte reg b /\ 0 <= crc4_byte reg b < 65536.
Proof.
  intros Hr Hb. unfold crc_byte, crc4_byte.
  pose proof (lxor_range reg b Hr ltac:(lia)) as R.
  rewrite u16_id by exact R. split.
  - apply crc_shift_iter. exact R.
  - apply iter_crc4_shift_range. exact R.
Qed.

Lemma crc_word_big_endian (reg w : Z) :
  0 <= reg < 65536 -> 0 <= w < 65536 ->
  fold_left crc_byte (bytes_of_u16 BigEndian w) reg = crc4_word reg w
  /\ 0 <= crc4_word reg w < 65536.
Proof.
  intros Hr Hw. simpl. unfold crc4_word.
  assert (Hhi : u8 (Z.shiftr w 8) = w / 256).
  { rewrite Z.shiftr_div_pow2 by lia. change (2 ^ 8) with 256.
    apply u8_id. split; [apply Z.div_pos; lia |].
    apply Z.div_lt_upper_bound; lia. }
  rewrite Hhi. unfold u8 at 1.
  assert (0 <= w / 256 < 256).
  { rewrite <- Hhi. apply u8_range. }
  assert (0 <= w mod 256 < 256) by (apply Z.mod_pos_bound; lia).
  destruct (crc_byte_spec reg (w / 256)) as [E1 R1]; [lia .. |].
  rewrite E1.
  destruct (crc_byte_spec (crc4_byte reg (w / 256)) (w mod 256))
    as [E2 R2]; [lia .. |].
  rewrite E2. split; [reflexivity | exact R2].
Qed.

Lemma fold_left_cons {A B : Type} (f : A -> B -> A) (x : B) (l : list B)
  (a : A) : fold_left f (x :: l) a = fold_left f l (f a x).
Proof. reflexivity. Qed.

Lemma prom_bytes_cons (e : endianness) (w : Z) (block : list Z) :
  prom_bytes e (w :: block) = bytes_of_u16 e w ++ prom_bytes e block.
Proof. reflexivity. Qed.

Lemma crc_fold_big_endian (block : list Z) (reg : Z) :
  Forall (fun w => 0 <= w < 65536) block -> 0 <= reg < 65536 ->
  fold_left crc_byte (prom_bytes BigEndian block) reg
  = fold_left crc4_word block reg
  /\ 0 <= fold_left crc4_word block reg < 65536.
Proof.
  intros H. revert reg.
  induction H as [| w block Hw _ IH]; intros reg Hr.
  - split; [reflexivity | exact Hr].
  - destruct (crc_word_big_endian reg w Hr Hw) as [E R].
    rewrite prom_bytes_cons, fold_left_app, E, fold_left_cons.
    apply IH. exact R.
Qed.

(** When the words lie in memory most-significant byte first, the
    value [ms58xx_crc] computes over the array is the check value of the
    data sheet. *)
Lemma crc_big_endian (block : list Z) :
  Forall (fun w => 0 <= w < 65536) block ->
  ms58xx_crc (prom_bytes BigEndian block) = crc4 block.
Proof.
  intros H. unfold ms58xx_crc, crc4.
  destruct (crc_fold_big_endian block 0 H ltac:(lia)) as [E R].
  rewrite E. rewrite Z.shiftr_div_pow2 by lia. change (2 ^ 12) with 4096.
  apply u8_id. split; [apply Z.div_pos; lia |].
  apply Z.div_lt_upper_bound; lia.
Qed.

End Crc.

(** C4 (the code departs from the claim): [ms58xx_readprom] hands the
    array of 16-bit words to [ms58xx_crc] as bytes in memory order.  On a
    little-endian target the low byte of each word comes first, and the
    value compared against the extracted nibble is not the word-wise,
    most-significant-byte-first check value: for the PROM image of the
    data sheet's example, whose nibble 0xB is that check value, the code
    computes 0xF and the loader returns -ENODEV. *)
Theorem crc_little_endian_differs :
  let masked := <[7%nat := 0x4500]> an520 in
  let priv := blank (sensor an520 0 0) 0x76 MS58XX_MODEL_MS5803_14 in
  crc4 masked = 0xB
  /\ ms58xx_crc (prom_bytes BigEndian masked) = 0xB
  /\ ms58xx_crc (prom_bytes LittleEndian masked) = 0xF
  /\ fst (ms58xx_readprom LittleEndian (replicate 8 0) priv [])
     = (- ENODEV, priv).
Proof. cbv zeta. repeat split; vm_compute; reflexivity. Qed.

(** ** The oversampling ratio *)

Section Setosr.

Variable priv : ms58xx_dev_s.

(** A ratio outside the six of the [switch] takes its [default]. *)
Lemma setosr_default (osr : Z) :
  ~ In osr [256; 512; 1024; 2048; 4096; 8192] ->
  ms58xx_setosr priv osr = (- EINVAL, priv).
Proof.
  intros H. unfold ms58xx_setosr.
  destruct osr as [| p | p]; try reflexivity.
  do 14 (destruct p as [p | p |]; try reflexivity;
         try (exfalso; apply H; simpl; tauto)).
Qed.

Lemma setosr_8192_unsupported :
  compact (model priv) = false ->
  ms58xx_setosr priv 8192 = (- EINVAL, priv).
Proof.
  intros H. unfold ms58xx_setosr.
  destruct (model priv); try discriminate H; reflexivity.
Qed.

Lemma setosr_8192_supported :
  compact (model priv) = true ->
  ms58xx_setosr priv 8192
  = (OK, priv <| set_delay := 18080 |> <| set_osr := 62 |>).
Proof.
  intros H. unfold ms58xx_setosr.
  destruct (model priv); try discriminate H; reflexivity.
Qed.

End Setosr.

(** C5: the five ratios 256..4096 are accepted for every model, with the
    delays 600, 1170, 2280, 4540, 9040 and the selector
    (r / 256 - 1) * 2; 8192 is accepted, with delay 18080 and selector 62,
    exactly for MS5805-02 and MS5837-30 and is -EINVAL for the other six
    models; every other ratio is -EINVAL for every model. *)
Theorem setosr_mapping (priv : ms58xx_dev_s) (ratio : Z) :
  (forall d,
      In (ratio, d)
         [(256, 600); (512, 1170); (1024, 2280); (2048, 4540); (4096, 9040)] ->
      ms58xx_setosr priv ratio
      = (OK, priv <| set_delay := d |> <| set_osr := (ratio / 256 - 1) * 2 |>))
  /\ (ratio = 8192 ->
      match model priv with
      | MS58XX_MODEL_MS5805_02 | MS58XX_MODEL_MS5837_30 =>
          ms58xx_setosr priv ratio
          = (OK, priv <| set_delay := 18080 |> <| set_osr := 62 |>)
      | _ => fst (ms58xx_setosr priv ratio) = - EINVAL
      end)
  /\ (~ In ratio [256; 512; 1024; 2048; 4096; 8192] ->
      fst (ms58xx_setosr priv ratio) = - EINVAL).
Proof.
  split; [| split].
  - intros d H. simpl in H.
    repeat (destruct H as [H | H]; [inversion H; subst; reflexivity |]).
    contradiction.
  - intros ->. unfold ms58xx_setosr. destruct (model priv); reflexivity.
  - intros H. rewrite setosr_default by exact H. reflexivity.
Qed.

Lemma setosr_mapping_witness :
  ms58xx_setosr (blank (sensor an520 0 0) 0x76 MS58XX_MODEL_MS5803_14) 1024
  = (OK, (blank (sensor an520 0 0) 0x76 MS58XX_MODEL_MS5803_14)
           <| set_delay := 2280 |> <| set_osr := 6 |>)
  /\ fst (ms58xx_setosr (blank (sensor an520 0 0) 0x76 MS58XX_MODEL_MS5803_14)
                        8192) = - EINVAL
  /\ fst (ms58xx_setosr (blank (sensor an520 0 0) 0x76 MS58XX_MODEL_MS5803_14)
                        1000) = - EINVAL.
Proof.
  split; [| split].
  - apply (proj1 (setosr_mapping _ 1024) 2280). simpl. tauto.
  - apply (proj1 (proj2 (setosr_mapping
             (blank (sensor an520 0 0) 0x76 MS58XX_MODEL_MS5803_14) 8192))).
    reflexivity.
  - apply (proj2 (proj2 (setosr_mapping _ 1000))).
    simpl. intros H. decompose [or] H; try discriminate; assumption.
Defined.

(** C6: a request that fails validation (a ratio outside the legal set,
    or 8192 on a model other than MS5805-02 and MS5837-30) returns
    -EINVAL and leaves the device, and so both the selector field and the
    delay, as it was; and in every call either the device is left as it
    was or both fields are assigned. *)
Theorem setosr_invalid_unchanged (priv : ms58xx_dev_s) (ratio : Z) :
  (~ In ratio [256; 512; 1024; 2048; 4096; 8192]
   \/ (ratio = 8192 /\ model priv <> MS58XX_MODEL_MS5805_02
       /\ model priv <> MS58XX_MODEL_MS5837_30) ->
   ms58xx_setosr priv ratio = (- EINVAL, priv)
   /\ osr (snd (ms58xx_setosr priv ratio)) = osr priv
   /\ delay (snd (ms58xx_setosr priv ratio)) = delay priv)
  /\ (ms58xx_setosr priv ratio = (- EINVAL, priv)
      \/ exists d,
          ms58xx_setosr priv ratio
          = (OK, priv <| set_delay := d |>
                      <| set_osr := (ratio / 256 - 1) * 2 |>)).
Proof.
  split.
  - intros [H | (-> & H1 & H2)].
    + rewrite setosr_default by exact H. auto.
    + rewrite setosr_8192_unsupported; [auto |].
      destruct (model priv); try reflexivity; congruence.
  - destruct (in_dec Z.eq_dec ratio [256; 512; 1024; 2048; 4096; 8192])
      as [H | H]; [| left; apply setosr_default; exact H].
    simpl in H.
    destruct H as [<- | [<- | [<- | [<- | [<- | [<- | []]]]]]];
      try (right; eexists; reflexivity).
    destruct (compact (model priv)) eqn:E.
    + right. eexists. apply setosr_8192_supported. exact E.
    + left. apply setosr_8192_unsupported. exact E.
Qed.

Lemma setosr_invalid_unchanged_witness :
  ms58xx_setosr (blank (sensor an520 0 0) 0x76 MS58XX_MODEL_MS5803_14) 8192
  = (- EINVAL, blank (sensor an520 0 0) 0x76 MS58XX_MODEL_MS5803_14).
Proof.
  apply (proj1 (setosr_invalid_unchanged
                  (blank (sensor an520 0 0) 0x76 MS58XX_MODEL_MS5803_14) 8192)).
  right. repeat split; simpl; discriminate.
Defined.

(** ** Reading PROM words *)

Lemma lor_range (a b : Z) :
  0 <= a < 65536 -> 0 <= b < 65536 -> 0 <= Z.lor a b < 65536.
Proof.
  intros Ha Hb.
  assert (N : 0 <= Z.lor a b) by (apply Z.lor_nonneg; lia).
  split; [exact N |].
  destruct (Z.eq_dec (Z.lor a b) 0) as [-> | Hne]; [lia |].
  change 65536 with (2 ^ 16). apply Z.log2_lt_pow2; [lia |].
  rewrite Z.log2_lor by lia.
  assert (La : Z.log2 a < 16).
  { destruct (Z.eq_dec a 0) as [-> | ?]; [reflexivity |].
    apply Z.log2_lt_pow2; [lia |]. change (2 ^ 16) with 65536. lia. }
  assert (Lb : Z.log2 b < 16).
  { destruct (Z.eq_dec b 0) as [-> | ?]; [reflexivity |].
    apply Z.log2_lt_pow2; [lia |]. change (2 ^ 16) with 65536. lia. }
  lia.
Qed.

Section ReadWords.

Variable priv : ms58xx_dev_s.

(** [ms58xx_readu16] either fails, storing nothing, or returns a
    non-negative value and the 16-bit word, after exactly one write of
    the register address and one read of two bytes. *)
Lemma readu16_cases (regaddr : Z) (t : list event) :
  (exists r t', ms58xx_readu16 priv regaddr t = ((r, None), t') /\ r < 0)
  \/ (exists r w,
        ms58xx_readu16 priv regaddr t
        = ((r, Some w),
           t ++ [SetAddress (addr priv) 7; Write [regaddr]; Read 2])
        /\ 0 <= r /\ 0 <= w < 65536).
Proof.
  unfold ms58xx_readu16. io_unfold.
  destruct (i2c_write _ _ _ <? 0) eqn:Ew.
  { left. do 2 eexists. split; [reflexivity | lia]. }
  destruct (i2c_read _ _ _) as [ret buffer] eqn:Er.
  destruct (ret <? 0) eqn:E.
  { left. do 2 eexists. split; [reflexivity | lia]. }
  right. do 2 eexists. split; [| split].
  - rewrite <- !app_assoc. reflexivity.
  - lia.
  - unfold byte_at.
    pose proof (u8_range (nth 0 buffer 0)).
    pose proof (u8_range (nth 1 buffer 0)).
    apply lor_range; [| lia].
    rewrite Z.shiftl_mul_pow2 by lia. change (2 ^ 8) with 256. lia.
Qed.

Lemma delivers_length_trace (i : nat) (ws : list Z) (r0 r : Z)
  (t t' : list event) :
  delivers priv i ws r0 r t t' ->
  t' = t ++ word_requests priv i (length ws)
  /\ Forall (fun w => 0 <= w < 65536) ws.
Proof.
  induction 1 as [i r0 t | i w ws r0 r1 r t t1 t2 Hread Hr1 _ [IHt IHw]].
  - unfold word_requests. simpl. rewrite app_nil_r. auto.
  - destruct (readu16_cases (prom_reg i) t)
      as [(r' & t0 & E & _) | (r' & w' & E & _ & Hw)];
      rewrite E in Hread; inversion Hread; subst.
    split; [| constructor; assumption].
    unfold word_requests. cbn [length seq flat_map].
    rewrite <- !app_assoc. reflexivity.
Qed.

(** Either the next [n] words are all delivered, or some read among
    them fails after the words before it were delivered. *)
Lemma delivers_or_fails (n i : nat) (r0 : Z) (t : list event) :
  (exists ws r t', length ws = n /\ delivers priv i ws r0 r t t')
  \/ (exists ws r1 t1 r t2,
        (length ws < n)%nat /\ delivers priv i ws r0 r1 t t1
        /\ ms58xx_readu16 priv (prom_reg (i + length ws)) t1
           = ((r, None), t2)
        /\ r < 0).
Proof.
  revert i r0 t. induction n as [| n IH]; intros i r0 t.
  { left. exists [], r0, t. split; [reflexivity | constructor]. }
  destruct (readu16_cases (prom_reg i) t)
    as [(r & t1 & E & Hr) | (r & w & E & Hr & _)].
  - right. exists [], r0, t, r, t1. simpl. rewrite Nat.add_0_r.
    repeat split; [lia | constructor | exact E | exact Hr].
  - destruct (IH (S i) r
                (t ++ [SetAddress (addr priv) 7; Write [prom_reg i]; Read 2]))
      as
      [(ws & r' & t' & L & D) | (ws & r1 & t1 & r' & t2 & L & D & F & Hr')].
    + left. exists (w :: ws), r', t'. split; [simpl; lia |].
      econstructor; eassumption.
    + right. exists (w :: ws), r1, t1, r', t2. cbn [length].
      replace (i + S (length ws))%nat with (S i + length ws)%nat by lia.
      repeat split; [lia | econstructor; eassumption | exact F | exact Hr'].
Qed.

(** The loop, when the words are delivered. *)
Lemma loop_completes (i : nat) (ws : list Z) (r0 r : Z)
  (t t' : list event) :
  delivers priv i ws r0 r t t' ->
  forall prom,
    readprom_loop priv (length ws) i r0 prom t
    = (Completed r (list_inserts i ws prom), t').
Proof.
  induction 1 as [i r0 t | i w ws r0 r1 r t t1 t2 Hread Hr1 _ IH];
    intros prom; [reflexivity |].
  cbn [length readprom_loop list_inserts]. unfold Bind at 1.
  rewrite Hread.
  destruct (r1 <? 0) eqn:E; [lia |].
  rewrite IH. rewrite list_insert_inserts_lt by lia. reflexivity.
Qed.

(** The loop, when a read fails. *)
Lemma loop_returns (i : nat) (ws : list Z) (r0 r1 r : Z)
  (t t1 t2 : list event) :
  delivers priv i ws r0 r1 t t1 ->
  ms58xx_readu16 priv (prom_reg (i + length ws)) t1 = ((r, None), t2) ->
  r < 0 ->
  forall n prom,
    readprom_loop priv (length ws + S n) i r0 prom t = (Returned r, t2).
Proof.
  induction 1 as [i r0 t | i w ws r0 r1 r' t t1 t2' Hread Hr1 _ IH];
    intros Hfail Hr n prom.
  - simpl in *. rewrite Nat.add_0_r in Hfail. unfold Bind.
    rewrite Hfail. destruct (r <? 0) eqn:E; [reflexivity | lia].
  - cbn [length Nat.add readprom_loop]. unfold Bind at 1.
    rewrite Hread. destruct (r1 <? 0) eqn:E; [lia |].
    apply IH; [| exact Hr].
    cbn [length] in Hfail.
    replace (S i + length ws)%nat with (i + S (length ws))%nat by lia.
    exact Hfail.
Qed.

End ReadWords.

(** ** The CRC nibble and the coefficients *)

Lemma land_range (a b : Z) :
  0 <= a < 65536 -> 0 <= b -> 0 <= Z.land a b < 65536.
Proof.
  intros Ha Hb.
  assert (N : 0 <= Z.land a b) by (apply Z.land_nonneg; lia).
  split; [exact N |].
  destruct (Z.eq_dec (Z.land a b) 0) as [-> | Hne]; [lia |].
  change 65536 with (2 ^ 16). apply Z.log2_lt_pow2; [lia |].
  pose proof (Z.log2_land a b ltac:(lia) Hb) as L.
  assert (La : Z.log2 a < 16).
  { destruct (Z.eq_dec a 0) as [-> | ?]; [reflexivity |].
    apply Z.log2_lt_pow2; [lia |]. change (2 ^ 16) with 65536. lia. }
  lia.
Qed.

Lemma land_low16 (w : Z) : 0 <= w < 65536 -> Z.land w 65535 = w.
Proof.
  intros H. change 65535 with (Z.ones 16). rewrite Z.land_ones by lia.
  apply Z.mod_small. change (2 ^ 16) with 65536. lia.
Qed.

(** Clearing the bits of [mask] in a 16-bit word. *)
Lemma clear_mask (w mask : Z) :
  0 <= w < 65536 -> 0 <= Z.land 65535 (Z.lnot mask) ->
  u16 (Z.land w (Z.lnot mask)) = Z.land w (Z.land 65535 (Z.lnot mask)).
Proof.
  intros Hw Hm.
  assert (X : Z.land w (Z.lnot mask) = Z.land w (Z.land 65535 (Z.lnot mask))).
  { rewrite Z.land_assoc, land_low16 by exact Hw. reflexivity. }
  rewrite X. apply u16_id. apply land_range; assumption.
Qed.

Lemma nibble_top (w : Z) :
  u8 (Z.shiftr (Z.land w (u16 (Z.shiftl 0xf 12))) 12)
  = Z.land (Z.shiftr w 12) 0xf.
Proof.
  change (u16 (Z.shiftl 0xf 12)) with 61440.
  rewrite Z.shiftr_land. change (Z.shiftr 61440 12) with 15.
  apply u8_id. change 15 with (Z.ones 4). rewrite Z.land_ones by lia.
  pose proof (Z.mod_pos_bound (Z.shiftr w 12) (2 ^ 4) ltac:(lia)).
  change (2 ^ 4) with 16 in *. lia.
Qed.

Lemma nibble_low (w : Z) :
  u8 (Z.shiftr (Z.land w (u16 (Z.shiftl 0xf 0))) 0) = Z.land w 0xf.
Proof.
  change (u16 (Z.shiftl 0xf 0)) with 15.
  rewrite Z.shiftr_0_r. apply u8_id.
  change 15 with (Z.ones 4). rewrite Z.land_ones by lia.
  pose proof (Z.mod_pos_bound w (2 ^ 4) ltac:(lia)).
  change (2 ^ 4) with 16 in *. lia.
Qed.

Section Finish.

Variables (e : endianness) (priv : ms58xx_dev_s).

Let m := model priv.
Let idx := if compact m then 0%nat else 7%nat.
Let shift := if compact m then 12 else 0.

(** The comparison [readprom_finish] makes is between the nibble at
    the place the model family fixes and the CRC of the block with that
    nibble cleared. *)
Lemma finish_compare (ret : Z) (block : list Z) :
  length block = 8%nat -> Forall (fun w => 0 <= w < 65536) block ->
  readprom_finish e priv idx shift ret block
  = if crc_nibble m block
       =? ms58xx_crc (prom_bytes e (crc_cleared m block))
    then readprom_finish e priv idx shift ret block
    else (- ENODEV, priv).
Proof.
  intros L F.
  destruct (crc_nibble m block
            =? ms58xx_crc (prom_bytes e (crc_cleared m block))) eqn:E;
    [reflexivity |].
  unfold readprom_finish.
  assert (Hw : 0 <= block !!! idx < 65536).
  { apply (proj1 (Forall_lookup _ _) F idx).
    apply list_lookup_lookup_total_lt.
    subst idx. destruct (compact m); lia. }
  revert E Hw. unfold crc_nibble, crc_cleared. subst idx shift.
  destruct (compact m); intros E Hw.
  - rewrite nibble_top.
    change (u16 (Z.shiftl 0xf 12)) with 61440.
    rewrite clear_mask by (exact Hw || (vm_compute; discriminate)).
    change (Z.land 65535 (Z.lnot 61440)) with 0x0fff.
    rewrite E. reflexivity.
  - rewrite nibble_low.
    change (u16 (Z.shiftl 0xf 0)) with 15.
    rewrite clear_mask by (exact Hw || (vm_compute; discriminate)).
    change (Z.land 65535 (Z.lnot 15)) with 0xfff0.
    rewrite E. reflexivity.
Qed.

(** When the comparison succeeds, words 1..6 of the block are stored
    as C1..C6, C7 and C8 are assigned, and [ret] is returned. *)
Lemma finish_match (ret : Z) (block : list Z) :
  length block = 8%nat -> Forall (fun w => 0 <= w < 65536) block ->
  crc_nibble m block = ms58xx_crc (prom_bytes e (crc_cleared m block)) ->
  exists v7 v8,
    readprom_finish e priv idx shift ret block
    = (ret, priv <| set_c1 := block !!! 1%nat |>
                 <| set_c2 := block !!! 2%nat |>
                 <| set_c3 := block !!! 3%nat |>
                 <| set_c4 := block !!! 4%nat |>
                 <| set_c5 := block !!! 5%nat |>
                 <| set_c6 := block !!! 6%nat |>
                 <| set_c7 := v7 |> <| set_c8 := v8 |>).
Proof.
  intros L F E.
  unfold readprom_finish.
  assert (Hw : 0 <= block !!! idx < 65536).
  { apply (proj1 (Forall_lookup _ _) F idx).
    apply list_lookup_lookup_total_lt.
    subst idx. destruct (compact m); lia. }
  revert E Hw. unfold crc_nibble, crc_cleared. subst idx shift.
  destruct (compact m) eqn:C; intros E Hw.
  - rewrite nibble_top.
    change (u16 (Z.shiftl 0xf 12)) with 61440.
    rewrite clear_mask by (exact Hw || (vm_compute; discriminate)).
    change (Z.land 65535 (Z.lnot 61440)) with 0x0fff.
    rewrite E, Z.eqb_refl. cbn [negb].
    rewrite !list_lookup_total_insert_ne by lia.
    subst m. cbn [model set_c1 set_c2 set_c3 set_c4 set_c5 set_c6].
    destruct (model priv); try discriminate C; do 2 eexists; reflexivity.
  - rewrite nibble_low.
    change (u16 (Z.shiftl 0xf 0)) with 15.
    rewrite clear_mask by (exact Hw || (vm_compute; discriminate)).
    change (Z.land 65535 (Z.lnot 15)) with 0xfff0.
    rewrite E, Z.eqb_refl. cbn [negb].
    rewrite !list_lookup_total_insert_ne by lia.
    subst m. cbn [model set_c1 set_c2 set_c3 set_c4 set_c5 set_c6].
    destruct (model priv); try discriminate C; do 2 eexists; reflexivity.
Qed.

End Finish.

(** ** ms58xx_readprom *)

Lemma insert_last_of_8 (l : list Z) (x : Z) :
  length l = 8%nat -> <[7%nat := x]> l = take 7 l ++ [x].
Proof.
  intros L. do 8 (destruct l as [| ? l]; [discriminate |]).
  destruct l; [reflexivity | discriminate].
Qed.

Section Readprom.

Variables (e : endianness) (prom : list Z) (priv : ms58xx_dev_s).
Hypothesis prom_length : length prom = 8%nat.

Let m := model priv.
Let idx := if compact m then 0%nat else 7%nat.
Let shift := if compact m then 12 else 0.

Lemma readprom_unfold (t : list event) :
  ms58xx_readprom e prom priv t =
  match readprom_loop priv (prom_words m) 0 0
          (if compact m then <[7%nat := 0]> prom else prom) t with
  | (Returned ret, t') => ((ret, priv), t')
  | (Completed ret block, t') =>
      (readprom_finish e priv idx shift ret block, t')
  end.
Proof.
  unfold ms58xx_readprom, prom_words, compact. subst idx shift m.
  unfold compact, Bind, Ret, MS58XX_PROM_LEN.
  destruct (model priv); cbn [Nat.sub];
    match goal with
    | |- context [readprom_loop ?p ?n ?i ?r ?a ?t] =>
        destruct (readprom_loop p n i r a t) as [[ret | ret block] t']
    end; reflexivity.
Qed.

(** The array after the loop is the block made of the words read: the
    content the array had on entry does not matter. *)
Lemma start_block (ws : list Z) :
  length ws = prom_words m ->
  list_inserts 0 ws (if compact m then <[7%nat := 0]> prom else prom)
  = prom_block m ws.
Proof.
  unfold prom_words, prom_block. intros L.
  destruct (compact m).
  - rewrite insert_last_of_8 by exact prom_length.
    apply list_inserts_0_r.
    rewrite length_take. lia.
  - rewrite <- (app_nil_r prom), list_inserts_0_r by lia.
    apply app_nil_r.
Qed.

Lemma block_wf (ws : list Z) :
  length ws = prom_words m -> Forall (fun w => 0 <= w < 65536) ws ->
  length (prom_block m ws) = 8%nat
  /\ Forall (fun w => 0 <= w < 65536) (prom_block m ws).
Proof.
  unfold prom_words, prom_block. intros L F.
  destruct (compact m).
  - split; [rewrite length_app; simpl; lia |].
    apply Forall_app. split; [exact F |]. constructor; [lia | constructor].
  - split; assumption.
Qed.

Lemma readprom_bus_failure (ws : list Z) (r1 r : Z) (t t1 t2 : list event) :
  (length ws < prom_words m)%nat ->
  delivers priv 0 ws 0 r1 t t1 ->
  ms58xx_readu16 priv (prom_reg (length ws)) t1 = ((r, None), t2) ->
  r < 0 ->
  ms58xx_readprom e prom priv t = ((r, priv), t2).
Proof.
  intros L D Hfail Hr. rewrite readprom_unfold.
  replace (prom_words m)
    with (length ws + S (prom_words m - length ws - 1))%nat by lia.
  rewrite (loop_returns priv 0 ws 0 r1 r t t1 t2 D Hfail Hr).
  reflexivity.
Qed.

Lemma readprom_delivered (ws : list Z) (r : Z) (t t1 : list event) :
  length ws = prom_words m ->
  delivers priv 0 ws 0 r t t1 ->
  ms58xx_readprom e prom priv t
  = (readprom_finish e priv idx shift r (prom_block m ws), t1).
Proof.
  intros L D. rewrite readprom_unfold, <- L.
  rewrite (loop_completes priv 0 ws 0 r t t1 D).
  rewrite start_block by exact L. reflexivity.
Qed.

Lemma readprom_mismatch (ws : list Z) (r : Z) (t t1 : list event) :
  length ws = prom_words m ->
  delivers priv 0 ws 0 r t t1 ->
  crc_nibble m (prom_block m ws)
  <> ms58xx_crc (prom_bytes e (crc_cleared m (prom_block m ws))) ->
  ms58xx_readprom e prom priv t = ((- ENODEV, priv), t1).
Proof.
  intros L D Hne. rewrite (readprom_delivered ws r t t1 L D).
  destruct (delivers_length_trace priv 0 ws 0 r t t1 D) as [_ F].
  destruct (block_wf ws L F) as [BL BF].
  subst idx shift m. rewrite finish_compare by assumption.
  apply Z.eqb_neq in Hne. rewrite Hne. reflexivity.
Qed.

Lemma readprom_match (ws : list Z) (r : Z) (t t1 : list event) :
  length ws = prom_words m ->
  delivers priv 0 ws 0 r t t1 ->
  crc_nibble m (prom_block m ws)
  = ms58xx_crc (prom_bytes e (crc_cleared m (prom_block m ws))) ->
  exists v7 v8,
    ms58xx_readprom e prom priv t
    = ((r, priv <| set_c1 := ws !!! 1%nat |> <| set_c2 := ws !!! 2%nat |>
                <| set_c3 := ws !!! 3%nat |> <| set_c4 := ws !!! 4%nat |>
                <| set_c5 := ws !!! 5%nat |> <| set_c6 := ws !!! 6%nat |>
                <| set_c7 := v7 |> <| set_c8 := v8 |>), t1).
Proof.
  intros L D E'. rewrite (readprom_delivered ws r t t1 L D).
  destruct (delivers_length_trace priv 0 ws 0 r t t1 D) as [_ F].
  destruct (block_wf ws L F) as [BL BF].
  destruct (finish_match e priv r (prom_block m ws) BL BF E')
    as (v7 & v8 & Efin).
  exists v7, v8. subst idx shift m. rewrite Efin.
  assert (W : forall k, (k < 7)%nat ->
              prom_block (model priv) ws !!! k = ws !!! k).
  { intros k Hk. unfold prom_block, prom_words in *.
    destruct (compact (model priv)); [| reflexivity].
    apply lookup_total_app_l. lia. }
  rewrite !W by lia. reflexivity.
Qed.

End Readprom.

Lemma readu16_failure_trace (priv : ms58xx_dev_s) (regaddr r : Z)
  (t t' : list event) :
  ms58xx_readu16 priv regaddr t = ((r, None), t') ->
  t' = t ++ [SetAddress (addr priv) 7; Write [regaddr]]
  \/ t' = t ++ [SetAddress (addr priv) 7; Write [regaddr]; Read 2].
Proof.
  unfold ms58xx_readu16. io_unfold.
  destruct (i2c_write _ _ _ <? 0).
  { intros H. inversion H. left. rewrite <- app_assoc. reflexivity. }
  destruct (i2c_read _ _ _) as [ret buffer].
  destruct (ret <? 0); intros H; inversion H.
  right. rewrite <- !app_assoc. reflexivity.
Qed.

Lemma word_requests_app (priv : ms58xx_dev_s) (i a b : nat) :
  word_requests priv i (a + b)
  = word_requests priv i a ++ word_requests priv (i + a) b.
Proof. unfold word_requests. rewrite seq_app, flat_map_app. reflexivity. Qed.

(** C3: loading the calibration is all-or-nothing.  Whatever the device
    held before: when a PROM read fails, its error is returned and the
    device is as before; when all reads succeed and the nibble differs
    from the CRC of the cleared block, -ENODEV is returned and the device
    is as before; when they agree, C1..C8 are assigned; and a call that
    changes the device at all is one where all reads succeeded and the
    CRC matched. *)
Theorem readprom_all_or_nothing (e : endianness) (prom : list Z)
  (priv : ms58xx_dev_s) (t : list event) :
  length prom = 8%nat ->
  let m := model priv in
  (forall ws r1 t1 r t2,
      (length ws < prom_words m)%nat ->
      delivers priv 0 ws 0 r1 t t1 ->
      ms58xx_readu16 priv (prom_reg (length ws)) t1 = ((r, None), t2) ->
      r < 0 ->
      ms58xx_readprom e prom priv t = ((r, priv), t2))
  /\ (forall ws r t1,
        length ws = prom_words m ->
        delivers priv 0 ws 0 r t t1 ->
        let block := prom_block m ws in
        (crc_nibble m block <> ms58xx_crc (prom_bytes e (crc_cleared m block)) ->
         ms58xx_readprom e prom priv t = ((- ENODEV, priv), t1))
        /\ (crc_nibble m block = ms58xx_crc (prom_bytes e (crc_cleared m block)) ->
            exists v7 v8,
              ms58xx_readprom e prom priv t
              = ((r, priv <| set_c1 := ws !!! 1%nat |>
                          <| set_c2 := ws !!! 2%nat |>
                          <| set_c3 := ws !!! 3%nat |>
                          <| set_c4 := ws !!! 4%nat |>
                          <| set_c5 := ws !!! 5%nat |>
                          <| set_c6 := ws !!! 6%nat |>
                          <| set_c7 := v7 |> <| set_c8 := v8 |>), t1)))
  /\ (forall ret priv' t',
        ms58xx_readprom e prom priv t = ((ret, priv'), t') ->
        priv' <> priv ->
        exists ws,
          length ws = prom_words m
          /\ delivers priv 0 ws 0 ret t t'
          /\ crc_nibble m (prom_block m ws)
             = ms58xx_crc (prom_bytes e (crc_cleared m (prom_block m ws)))).
Proof.
  intros L m. split; [| split].
  - intros ws r1 t1 r t2. apply readprom_bus_failure. exact L.
  - intros ws r t1 Lw D block. split.
    + intros Hne. exact (readprom_mismatch e prom priv L ws r t t1 Lw D Hne).
    + intros Heq. exact (readprom_match e prom priv L ws r t t1 Lw D Heq).
  - intros ret priv' t' Hrun Hne.
    destruct (delivers_or_fails priv (prom_words m) 0 0 t)
      as [(ws & r & t1 & Lw & D) | (ws & r1 & t1 & r & t2 & Lw & D & F & Hr)].
    + destruct (Z.eq_dec (crc_nibble m (prom_block m ws))
                  (ms58xx_crc (prom_bytes e (crc_cleared m (prom_block m ws)))))
        as [E | E].
      * destruct (readprom_match e prom priv L ws r t t1 Lw D E)
          as (v7 & v8 & Hm).
        rewrite Hm in Hrun. inversion Hrun; subst.
        exists ws. auto.
      * rewrite (readprom_mismatch e prom priv L ws r t t1 Lw D E) in Hrun.
        inversion Hrun; subst. contradiction.
    + simpl in F.
      rewrite (readprom_bus_failure e prom priv L ws r1 r t t1 t2 Lw D F Hr)
        in Hrun.
      inversion Hrun; subst. contradiction.
Qed.

(** The words of a PROM image are delivered by the simulated sensor. *)
Ltac sensor_delivers :=
  repeat (eapply delivers_cons; [reflexivity | unfold OK; lia |]);
  apply delivers_nil.

(** A PROM image with one data word corrupted is rejected and the
    coefficients held before stay. *)
Lemma readprom_all_or_nothing_witness :
  let bad := <[3%nat := 0x3739]> an520 in
  let priv :=
    set_c1 40127 (blank (sensor bad 0 0) 0x76 MS58XX_MODEL_MS5803_14) in
  length (replicate 8 0) = 8%nat
  /\ ms58xx_readprom BigEndian (replicate 8 0) priv []
     = ((- ENODEV, priv), word_requests priv 0 8).
Proof.
  intros bad priv. split; [reflexivity |].
  pose proof (readprom_all_or_nothing BigEndian (replicate 8 0) priv []
                eq_refl) as [_ [H _]].
  apply (H bad OK (word_requests priv 0 8) eq_refl).
  - sensor_delivers.
  - vm_compute. discriminate.
Defined.

(** C7: for MS5805-02 and MS5837-30 the loader requests seven words
    (registers 0xa0, 0xa2, ... 0xac) and never more, the eighth word of
    the block is zero whatever the array held, and the nibble compared is
    bits 15..12 of word 0; for the other six models it requests eight
    words and the nibble is bits 3..0 of word 7; when the comparison
    succeeds, words 1..6 are stored as C1..C6 unchanged. *)
Theorem readprom_layout (e : endianness) (prom : list Z)
  (priv : ms58xx_dev_s) (t : list event) :
  length prom = 8%nat ->
  let m := model priv in
  let n := prom_words m in
  (exists rest,
      t ++ word_requests priv 0 n
      = snd (ms58xx_readprom e prom priv t) ++ rest)
  /\ (forall ws r t1,
        length ws = n ->
        delivers priv 0 ws 0 r t t1 ->
        t1 = t ++ word_requests priv 0 n
        /\ prom_block m ws = (if compact m then ws ++ [0] else ws)
        /\ crc_nibble m (prom_block m ws)
           = (if compact m then Z.land (Z.shiftr (ws !!! 0%nat) 12) 0xf
              else Z.land (ws !!! 7%nat) 0xf)
        /\ if crc_nibble m (prom_block m ws)
              =? ms58xx_crc (prom_bytes e (crc_cleared m (prom_block m ws)))
           then exists priv',
               ms58xx_readprom e prom priv t = ((r, priv'), t1)
               /\ c1 priv' = ws !!! 1%nat /\ c2 priv' = ws !!! 2%nat
               /\ c3 priv' = ws !!! 3%nat /\ c4 priv' = ws !!! 4%nat
               /\ c5 priv' = ws !!! 5%nat /\ c6 priv' = ws !!! 6%nat
           else ms58xx_readprom e prom priv t = ((- ENODEV, priv), t1)).
Proof.
  intros L m n. split.
  - destruct (delivers_or_fails priv n 0 0 t)
      as [(ws & r & t1 & Lw & D) | (ws & r1 & t1 & r & t2 & Lw & D & F & Hr)].
    + exists []. rewrite app_nil_r.
      destruct (delivers_length_trace priv 0 ws 0 r t t1 D) as [Ht _].
      rewrite Lw in Ht. rewrite <- Ht.
      destruct (Z.eq_dec (crc_nibble m (prom_block m ws))
                  (ms58xx_crc (prom_bytes e (crc_cleared m (prom_block m ws)))))
        as [E | E].
      * destruct (readprom_match e prom priv L ws r t t1 Lw D E)
          as (v7 & v8 & Hm).
        rewrite Hm. reflexivity.
      * rewrite (readprom_mismatch e prom priv L ws r t t1 Lw D E).
        reflexivity.
    + simpl in F.
      rewrite (readprom_bus_failure e prom priv L ws r1 r t t1 t2 Lw D F Hr).
      cbn [snd].
      destruct (delivers_length_trace priv 0 ws 0 r1 t t1 D) as [Ht _].
      replace n with (length ws + S (n - length ws - 1))%nat by lia.
      rewrite word_requests_app. cbn [Nat.add].
      unfold word_requests at 2. cbn [seq flat_map].
      destruct (readu16_failure_trace priv _ r t1 t2 F) as [-> | ->];
        subst t1; eexists; rewrite <- !app_assoc; cbn [app]; reflexivity.
  - intros ws r t1 Lw D.
    destruct (delivers_length_trace priv 0 ws 0 r t t1 D) as [Ht _].
    rewrite Lw in Ht.
    repeat split; [exact Ht | ..].
    + unfold crc_nibble, prom_block. subst n. unfold prom_words in Lw.
      destruct (compact m); [| reflexivity].
      rewrite lookup_total_app_l by lia. reflexivity.
    + destruct (crc_nibble m (prom_block m ws)
                =? ms58xx_crc (prom_bytes e (crc_cleared m (prom_block m ws))))
        eqn:E.
      * apply Z.eqb_eq in E.
        destruct (readprom_match e prom priv L ws r t t1 Lw D E)
          as (v7 & v8 & Hm).
        eexists. split; [exact Hm |]. repeat split.
      * apply Z.eqb_neq in E.
        exact (readprom_mismatch e prom priv L ws r t t1 Lw D E).
Qed.

(** An MS5837-30 whose PROM carries the check value in the top nibble of
    word 0: seven words are requested and words 1..6 become C1..C6. *)
Lemma readprom_layout_witness :
  let image := compact_image in
  let priv := blank (sensor image 0 0) 0x76 MS58XX_MODEL_MS5837_30 in
  length (replicate 8 0xffff) = 8%nat
  /\ exists priv',
      ms58xx_readprom BigEndian (replicate 8 0xffff) priv []
      = ((OK, priv'), word_requests priv 0 7)
      /\ c1 priv' = 0x3334 /\ c2 priv' = 0x3536 /\ c3 priv' = 0x3738
      /\ c4 priv' = 0x3940 /\ c5 priv' = 0x4142 /\ c6 priv' = 0x4344.
Proof.
  intros image priv. split; [reflexivity |].
  pose proof (readprom_layout BigEndian (replicate 8 0xffff) priv []
                eq_refl) as [_ H].
  specialize (H image OK (word_requests priv 0 7) eq_refl).
  destruct H as (_ & _ & _ & H); [sensor_delivers |].
  match type of H with
  | if ?c then _ else _ =>
      assert (E : c = true) by (vm_compute; reflexivity); rewrite E in H
  end.
  exact H.
Defined.

(** ** ms58xx_measure *)

Lemma set_temp_press_same (priv : ms58xx_dev_s) :
  priv <| set_temp := temp priv |> <| set_press := press priv |> = priv.
Proof. destruct priv. reflexivity. Qed.

(** [ms58xx_measure] goes by what [ms58xx_convert] returns.  When the
    pressure conversion returns a negative value, or it does not and the
    temperature conversion does, that value is returned and the device
    is as before; when neither does, the pair is overwritten with the
    compensated values.  A bus failure that [ms58xx_convert] does not
    return (a refused trigger write) is not covered: see
    [measure_overwrites_after_refused_triggers]. *)
Theorem measure_atomic (vdd : Z) (priv priv' : ms58xx_dev_s)
  (t t1 t2 t' : list event) (r1 r2 ret : Z) (v1 v2 : option Z) :
  ms58xx_convert priv MS58XX_PRESS_REG t = ((r1, v1), t1) ->
  ms58xx_convert priv MS58XX_TEMP_REG t1 = ((r2, v2), t2) ->
  ms58xx_measure vdd priv t = ((ret, priv'), t') ->
  (r1 < 0 -> ret = r1 /\ priv' = priv /\ t' = t1)
  /\ (0 <= r1 -> r2 < 0 -> ret = r2 /\ priv' = priv /\ t' = t2)
  /\ (0 <= r1 -> 0 <= r2 ->
      ret = r2 /\ t' = t2
      /\ exists rawpress rawtemp,
          v1 = Some rawpress /\ v2 = Some rawtemp
          /\ priv' = priv
               <| set_temp :=
                    fst (measure_compensate vdd priv rawpress rawtemp) |>
               <| set_press :=
                    snd (measure_compensate vdd priv rawpress rawtemp) |>)
  /\ (ret < 0 -> temp priv' = temp priv /\ press priv' = press priv)
  /\ (temp priv' <> temp priv \/ press priv' <> press priv ->
      0 <= r1 /\ 0 <= r2).
Proof.
  intros H1 H2 Hm.
  pose proof (convert_stores priv MS58XX_PRESS_REG t) as S1.
  pose proof (convert_stores priv MS58XX_TEMP_REG t1) as S2.
  rewrite H1 in S1. rewrite H2 in S2. cbv beta iota zeta in S1, S2.
  unfold ms58xx_measure, Bind, Ret in Hm. rewrite H1 in Hm.
  destruct (r1 <? 0) eqn:E1.
  { cbv beta in Hm. injection Hm as Hret Hpriv Ht. subst ret priv' t'.
    apply Z.ltb_lt in E1.
    repeat split; try lia; intros [H | H]; congruence. }
  rewrite H2 in Hm.
  destruct (r2 <? 0) eqn:E2.
  { cbv beta in Hm. injection Hm as Hret Hpriv Ht. subst ret priv' t'.
    apply Z.ltb_lt in E2.
    repeat split; try lia; intros [H | H]; congruence. }
  apply Z.ltb_ge in E1, E2.
  specialize (S1 E1). specialize (S2 E2).
  destruct S1 as (rawpress & Hv1 & _). destruct S2 as (rawtemp & Hv2 & _).
  subst v1 v2. cbn [default from_option id] in Hm.
  destruct (measure_compensate vdd priv rawpress rawtemp) as [tv pv] eqn:C.
  cbv beta iota zeta in Hm. injection Hm as Hret Hpriv Ht.
  subst ret priv' t'.
  repeat split; try lia.
  exists rawpress, rawtemp. rewrite C. auto.
Qed.

(** C10: whatever [ms58xx_measure] returns, the device afterwards is the
    device before with at most [temp] and [press] assigned: the
    coefficients, the scaling exponents, the compensation table, the
    pressure shift, the oversampling field and the delay are unchanged. *)
Theorem measure_frame (vdd : Z) (priv : ms58xx_dev_s) (t : list event) :
  let priv' := snd (fst (ms58xx_measure vdd priv t)) in
  priv' = priv <| set_temp := temp priv' |> <| set_press := press priv' |>
  /\ coefficients priv' = coefficients priv
  /\ [c1s priv'; c2s priv'; c3s priv'; c4s priv']
     = [c1s priv; c2s priv; c3s priv; c4s priv]
  /\ [diffmull priv'; diffdivls priv'; offmull priv'; offdivls priv';
      sensmull priv'; sensdivls priv'; offmulvl priv'; sensmulvl priv';
      diffmulh priv'; diffdivhs priv'; offmulh priv'; offdivhs priv';
      sensmulh priv'; sensdivhs priv'; pressdivs priv']
     = [diffmull priv; diffdivls priv; offmull priv; offdivls priv;
        sensmull priv; sensdivls priv; offmulvl priv; sensmulvl priv;
        diffmulh priv; diffdivhs priv; offmulh priv; offdivhs priv;
        sensmulh priv; sensdivhs priv; pressdivs priv]
  /\ osr priv' = osr priv /\ delay priv' = delay priv
  /\ model priv' = model priv /\ addr priv' = addr priv.
Proof.
  assert (H : exists tv pv,
             snd (fst (ms58xx_measure vdd priv t))
             = priv <| set_temp := tv |> <| set_press := pv |>).
  { unfold ms58xx_measure, Bind, Ret.
    destruct (ms58xx_convert priv MS58XX_PRESS_REG t) as [[r1 v1] t1].
    destruct (r1 <? 0).
    { exists (temp priv), (press priv). symmetry. apply set_temp_press_same. }
    destruct (ms58xx_convert priv MS58XX_TEMP_REG t1) as [[r2 v2] t2].
    destruct (r2 <? 0).
    { exists (temp priv), (press priv). symmetry. apply set_temp_press_same. }
    destruct (measure_compensate vdd priv (default 0 v1) (default 0 v2))
      as [tv pv].
    exists tv, pv. reflexivity. }
  destruct H as (tv & pv & H). cbv zeta. rewrite H.
  repeat split.
Qed.

(** A failed temperature conversion leaves the stored pair. *)
Lemma measure_atomic_witness :
  let bus := nack_read 1 (- EIO) (sensor an520 0x123456 0x789abc) in
  let priv :=
    set_press 10132 (set_temp 2150 (blank bus 0x76 MS58XX_MODEL_MS5803_14)) in
  fst (ms58xx_measure 30 priv []) = (- EIO, priv).
Proof.
  intros bus priv.
  destruct (ms58xx_measure 30 priv []) as [[ret priv'] t'] eqn:Hm.
  destruct (ms58xx_convert priv MS58XX_PRESS_REG []) as [[r1 v1] t1] eqn:H1.
  destruct (ms58xx_convert priv MS58XX_TEMP_REG t1) as [[r2 v2] t2] eqn:H2.
  pose proof (measure_atomic 30 priv priv' [] t1 t2 t' r1 r2 ret v1 v2
                H1 H2 Hm) as (_ & H & _).
  vm_compute in H1. injection H1 as <- <- <-.
  vm_compute in H2. injection H2 as <- <- <-.
  destruct H as (-> & -> & _); [lia | lia | reflexivity].
Defined.

(** C8 (the code departs from the claim): a conversion whose trigger
    write the bus refuses has failed, but [ms58xx_convert] returns OK
    for it, and [ms58xx_measure] tests only that return value.  On a bus
    that refuses both trigger writes with -EIO and answers the two ADC
    reads, the call returns OK and overwrites the stored pair 2150 /
    10132 with 27472 / 13865, where the claim has the error returned
    and the pair left as it was. *)
Theorem measure_overwrites_after_refused_triggers :
  let bus :=
    nack_write 0 (- EIO)
      (nack_write 2 (- EIO) (sensor ms5803_14_image 4311550 8387300)) in
  let priv :=
    snd (ms58xx_setosr
           (ms5803_14_dev <| set_i2c := bus |> <| set_temp := 2150 |>
                          <| set_press := 10132 |>) 256) in
  let first := ms58xx_convert priv MS58XX_PRESS_REG [] in
  let second := ms58xx_convert priv MS58XX_TEMP_REG (snd first) in
  i2c_write bus [SetAddress 0x76 7] [MS58XX_PRESS_REG] = - EIO
  /\ i2c_write bus (snd first ++ [SetAddress 0x76 7]) [MS58XX_TEMP_REG]
     = - EIO
  /\ fst first = (OK, Some 4311550)
  /\ fst second = (OK, Some 8387300)
  /\ (temp priv, press priv) = (2150, 10132)
  /\ fst (ms58xx_measure 30 priv [])
     = (OK, priv <| set_temp := 27472 |> <| set_press := 13865 |>)
  /\ snd (ms58xx_measure 30 priv []) = snd second.
Proof. cbv zeta. repeat apply conj; vm_compute; reflexivity. Qed.

(** ** ms58xx_register *)







(** * Further properties *)

(** ** The CRC value *)

Lemma crc_shift_range (n : nat) (reg : Z) :
  0 <= reg < 65536 -> 0 <= crc_shift n reg < 65536.
Proof.
  revert reg. induction n as [| n IH]; intros reg H; [exact H |].
  cbn [crc_shift]. apply IH.
  destruct (negb (Z.land reg 32768 =? 0)); apply u16_range.
Qed.

Lemma crc_fold_range (src : list Z) (reg : Z) :
  0 <= reg < 65536 -> 0 <= fold_left crc_byte src reg < 65536.
Proof.
  revert reg. induction src as [| b src IH]; intros reg H; [exact H |].
  rewrite fold_left_cons. apply IH.
  unfold crc_byte. apply crc_shift_range, u16_range.
Qed.

(** Whatever the bytes, [ms58xx_crc] returns a 4-bit value. *)
Theorem crc_is_nibble (src : list Z) : 0 <= ms58xx_crc src < 16.
Proof.
  unfold ms58xx_crc.
  pose proof (crc_fold_range src 0 ltac:(lia)) as R.
  rewrite Z.shiftr_div_pow2 by lia. change (2 ^ 12) with 4096.
  assert (0 <= fold_left crc_byte src 0 / 4096 < 16).
  { split; [apply Z.div_pos; lia | apply Z.div_lt_upper_bound; lia]. }
  rewrite u8_id by lia. assumption.
Qed.

Lemma crc_big_endian_witness :
  ms58xx_crc (prom_bytes BigEndian (<[7%nat := 0x4500]> an520))
  = crc4 (<[7%nat := 0x4500]> an520).
Proof.
  apply crc_big_endian.
  repeat (constructor; [lia |]). constructor.
Defined.

Lemma measure_diff_value_witness :
  measure_diff ms5803_14_dev 8387300 = 8387300 - c5 ms5803_14_dev / 256.
Proof.
  apply measure_diff_value.
  - lia.
  - change (c5 ms5803_14_dev) with 32745. lia.
Defined.

(** ** Register reads *)

(** Bits joined with [|] to a value shifted past them add up. *)
Lemma lor_shiftl_add (hi lo k : Z) :
  0 <= k -> 0 <= lo < 2 ^ k -> Z.lor (Z.shiftl hi k) lo = hi * 2 ^ k + lo.
Proof.
  intros Hk Hlo.
  assert (D : Z.land (Z.shiftl hi k) lo = 0).
  { apply Z.bits_inj'. intros n Hn. rewrite Z.land_spec, Z.bits_0.
    destruct (Z.lt_ge_cases n k) as [L | G].
    - rewrite Z.shiftl_spec_low by lia. reflexivity.
    - rewrite <- (Z.mod_small lo (2 ^ k)) by lia.
      rewrite Z.mod_pow2_bits_high by lia. apply andb_false_r. }
  rewrite <- Z.lxor_lor by exact D.
  rewrite <- Z.add_nocarry_lxor by exact D.
  rewrite Z.shiftl_mul_pow2 by lia. reflexivity.
Qed.

Lemma byte_at_range (buffer : list Z) (i : nat) : 0 <= byte_at buffer i < 256.
Proof. apply u8_range. Qed.

(** [ms58xx_readu16]: when the write of the register address fails no
    read is issued and nothing is stored; when the read fails nothing is
    stored; otherwise the two bytes read are joined most-significant byte
    first, [256 * buffer[0] + buffer[1]]. *)
Lemma readu16_outcomes (priv : ms58xx_dev_s) (regaddr : Z)
  (t : list event) :
  let tw := t ++ [SetAddress (addr priv) 7; Write [regaddr]] in
  let w := i2c_write (i2c priv) (t ++ [SetAddress (addr priv) 7]) [regaddr] in
  let r := fst (i2c_read (i2c priv) tw 2) in
  let buffer := snd (i2c_read (i2c priv) tw 2) in
  ms58xx_readu16 priv regaddr t
  = if w <? 0 then ((w, None), tw)
    else if r <? 0 then ((r, None), tw ++ [Read 2])
    else ((r, Some (256 * byte_at buffer 0 + byte_at buffer 1)),
          tw ++ [Read 2]).
Proof.
  cbv zeta. unfold ms58xx_readu16. io_unfold.
  replace ((t ++ [SetAddress (addr priv) 7]) ++ [Write [regaddr]])
    with (t ++ [SetAddress (addr priv) 7; Write [regaddr]])
    by (rewrite <- app_assoc; reflexivity).
  destruct (i2c_write _ _ _ <? 0); [reflexivity |].
  destruct (i2c_read _ _ _) as [r buffer]. cbn [fst snd].
  destruct (r <? 0); [reflexivity |].
  rewrite (lor_shiftl_add (byte_at buffer 0) (byte_at buffer 1) 8)
    by (try apply byte_at_range; lia).
  change (2 ^ 8) with 256. rewrite (Z.mul_comm _ 256). reflexivity.
Qed.

(** A word the sensor sends most-significant byte first is stored
    unchanged. *)
Theorem readu16_round_trip (priv : ms58xx_dev_s) (regaddr w r : Z)
  (t : list event) :
  0 <= w < 65536 ->
  i2c_write (i2c priv) (t ++ [SetAddress (addr priv) 7]) [regaddr] = OK ->
  i2c_read (i2c priv) (t ++ [SetAddress (addr priv) 7; Write [regaddr]]) 2
  = (r, msb_first 2 w) ->
  0 <= r ->
  fst (ms58xx_readu16 priv regaddr t) = (r, Some w).
Proof.
  intros Hw Hwr Hrd Hr.
  pose proof (readu16_outcomes priv regaddr t) as H. cbv zeta in H.
  rewrite H, Hwr, Hrd. cbn [fst snd]. change (OK <? 0) with false.
  destruct (r <? 0) eqn:E; [lia |]. cbn [fst]. f_equal. f_equal.
  unfold msb_first, byte_at. cbn [seq rev app map nth Z.of_nat Z.mul].
  change (8 * Z.of_nat 1) with 8. change (8 * Z.of_nat 0) with 0.
  rewrite Z.shiftr_0_r, Z.shiftr_div_pow2 by lia. change (2 ^ 8) with 256.
  unfold u8. rewrite !Z.mod_mod by lia.
  rewrite (Z.mod_small (w / 256)).
  - symmetry. apply Z.div_mod. lia.
  - split; [apply Z.div_pos; lia | apply Z.div_lt_upper_bound; lia].
Qed.

Lemma readu16_round_trip_witness :
  fst (ms58xx_readu16 (blank (sensor an520 0 0) 0x76 MS58XX_MODEL_MS5803_14)
         0xa4 []) = (OK, Some 0x3536).
Proof.
  apply readu16_round_trip.
  - lia.
  - reflexivity.
  - reflexivity.
  - unfold OK. lia.
Defined.

(** ** Conversions *)

Lemma adc_value (b0 b1 b2 : Z) :
  0 <= b1 < 256 -> 0 <= b2 < 256 ->
  Z.lor (Z.lor (Z.shiftl b0 16) (Z.shiftl b1 8)) b2
  = 65536 * b0 + 256 * b1 + b2.
Proof.
  intros H1 H2.
  replace (Z.shiftl b0 16) with (Z.shiftl (Z.shiftl b0 8) 8)
    by (rewrite Z.shiftl_shiftl by lia; reflexivity).
  rewrite <- Z.shiftl_lor.
  rewrite (lor_shiftl_add b0 b1 8) by (change (2 ^ 8) with 256; lia).
  rewrite lor_shiftl_add by (change (2 ^ 8) with 256; lia).
  change (2 ^ 8) with 256. lia.
Qed.

Lemma readadc_outcomes (priv : ms58xx_dev_s) (t : list event) :
  let '((ret, adc), _) := ms58xx_readadc priv t in
  (ret < 0 -> adc = None)
  /\ (0 <= ret -> exists x, adc = Some x /\ 0 <= x < 16777216).
Proof.
  unfold ms58xx_readadc. io_unfold.
  destruct (i2c_write _ _ _ <? 0) eqn:Ew; [split; [reflexivity | lia] |].
  destruct (i2c_read _ _ _) as [ret buffer].
  destruct (ret <? 0) eqn:E; [split; [reflexivity | lia] |].
  split; [lia |]. intros _. eexists. split; [reflexivity |].
  pose proof (byte_at_range buffer 0). pose proof (byte_at_range buffer 1).
  pose proof (byte_at_range buffer 2).
  rewrite adc_value by assumption. lia.
Qed.

(** What [ms58xx_convert] stores: nothing when it returns an error, and
    otherwise a 24-bit value, which the casts to [int32_t] in
    [ms58xx_measure] leave unchanged. *)
Theorem convert_value_24bit (priv : ms58xx_dev_s) (regaddr : Z)
  (t : list event) :
  let '((ret, regval), _) := ms58xx_convert priv regaddr t in
  (ret < 0 -> regval = None)
  /\ (0 <= ret ->
      exists x, regval = Some x /\ 0 <= x < 16777216 /\ s32 x = x).
Proof.
  rewrite convert_returns_readadc.
  pose proof (readadc_outcomes priv
    (t ++ [SetAddress (addr priv) 7]
       ++ [Write [u8 (Z.lor regaddr (osr priv))]] ++ [Udelay (delay priv)]))
    as H.
  destruct (ms58xx_readadc priv _) as [[ret adc] t'].
  destruct H as [Hn Hp]. split; [exact Hn |].
  intros Hr. destruct (Hp Hr) as (x & -> & Hx).
  exists x. repeat split; try lia. apply s32_id. lia.
Qed.

Lemma convert_trace (priv : ms58xx_dev_s) (regaddr : Z)
  (t : list event) :
  let a := addr priv in
  let pre :=
    t ++ [SetAddress a 7; Write [u8 (Z.lor regaddr (osr priv))];
          Udelay (delay priv); SetAddress a 7] in
  snd (ms58xx_convert priv regaddr t)
  = if i2c_write (i2c priv) pre [MS58XX_ADC_REG] <? 0
    then pre ++ [Write [MS58XX_ADC_REG]]
    else pre ++ [Write [MS58XX_ADC_REG]; Read 3].
Proof.
  cbv zeta. rewrite convert_returns_readadc.
  unfold ms58xx_readadc. io_unfold.
  replace ((t ++ [SetAddress (addr priv) 7]
              ++ [Write [u8 (Z.lor regaddr (osr priv))]]
              ++ [Udelay (delay priv)]) ++ [SetAddress (addr priv) 7])
    with (t ++ [SetAddress (addr priv) 7;
                Write [u8 (Z.lor regaddr (osr priv))];
                Udelay (delay priv); SetAddress (addr priv) 7])
    by (rewrite <- !app_assoc; reflexivity).
  destruct (i2c_write _ _ _ <? 0); [reflexivity |].
  destruct (i2c_read _ _ _) as [ret buffer].
  rewrite <- !app_assoc.
  destruct (ret <? 0); reflexivity.
Qed.

(** The bus sequence of a conversion: the command [regaddr | osr], the
    wait of [delay] microseconds, the ADC read command, and the 3-byte
    read unless that command was refused.  The wait and the read-back
    happen whatever the trigger write returned. *)
Theorem convert_sequence (priv : ms58xx_dev_s) (regaddr : Z)
  (t : list event) :
  let a := addr priv in
  let pre :=
    t ++ [SetAddress a 7; Write [u8 (Z.lor regaddr (osr priv))];
          Udelay (delay priv); SetAddress a 7] in
  snd (ms58xx_convert priv regaddr t)
  = if i2c_write (i2c priv) pre [MS58XX_ADC_REG] <? 0
    then pre ++ [Write [MS58XX_ADC_REG]]
    else pre ++ [Write [MS58XX_ADC_REG]; Read 3].
Proof. apply convert_trace. Qed.



(** ** Reset *)

Lemma delivers_ret (priv : ms58xx_dev_s) (i : nat) (ws : list Z) (r0 r : Z)
  (t t' : list event) :
  delivers priv i ws r0 r t t' -> ws <> [] -> 0 <= r.
Proof.
  induction 1 as [i r0 t | i w ws r0 r1 r t t1 t2 Hread Hr1 D IH];
    intros Hne; [contradiction |].
  destruct ws as [| w' ws]; [inversion D; subst; exact Hr1 |].
  apply IH. discriminate.
Qed.

(** What [ms58xx_readprom] returns is negative exactly when it leaves the
    device as it was; the other case is a load with a CRC match. *)
Lemma readprom_negative_unchanged (e : endianness) (prom : list Z)
  (priv : ms58xx_dev_s) (t : list event) :
  length prom = 8%nat ->
  let '((ret, priv'), _) := ms58xx_readprom e prom priv t in
  (ret < 0 -> priv' = priv)
  /\ (0 <= ret ->
      exists ws,
        length ws = prom_words (model priv)
        /\ crc_nibble (model priv) (prom_block (model priv) ws)
           = ms58xx_crc (prom_bytes e
               (crc_cleared (model priv) (prom_block (model priv) ws)))
        /\ [c1 priv'; c2 priv'; c3 priv'; c4 priv'; c5 priv'; c6 priv']
           = [ws !!! 1%nat; ws !!! 2%nat; ws !!! 3%nat; ws !!! 4%nat;
              ws !!! 5%nat; ws !!! 6%nat]).
Proof.
  intros L.
  destruct (delivers_or_fails priv (prom_words (model priv)) 0 0 t)
    as [(ws & r & t1 & Lw & D) | (ws & r1 & t1 & r & t2 & Lw & D & F & Hr)].
  - destruct (Z.eq_dec (crc_nibble (model priv) (prom_block (model priv) ws))
                (ms58xx_crc (prom_bytes e
                   (crc_cleared (model priv) (prom_block (model priv) ws)))))
      as [E | E].
    + destruct (readprom_match e prom priv L ws r t t1 Lw D E)
        as (v7 & v8 & Hm).
      rewrite Hm.
      assert (0 <= r).
      { apply (delivers_ret priv 0 ws 0 r t t1 D).
        intros ->. unfold prom_words in Lw.
        destruct (compact (model priv)); discriminate Lw. }
      split; [lia |]. intros _. exists ws. repeat split; assumption.
    + rewrite (readprom_mismatch e prom priv L ws r t t1 Lw D E).
      split; [reflexivity |]. unfold ENODEV. lia.
  - simpl in F.
    rewrite (readprom_bus_failure e prom priv L ws r1 r t t1 t2 Lw D F Hr).
    split; [reflexivity | lia].
Qed.

(** [ms58xx_reset] that returns an error has left the device as it was,
    and a reset command that is refused ends the call: the PROM is not
    read. *)
Theorem reset_failure_unchanged (e : endianness) (prom : list Z)
  (priv : ms58xx_dev_s) (t : list event) :
  length prom = 8%nat ->
  let w :=
    i2c_write (i2c priv) (t ++ [SetAddress (addr priv) 7]) [MS58XX_RESET_REG] in
  let '((ret, priv'), t') := ms58xx_reset e prom priv t in
  (ret < 0 -> priv' = priv)
  /\ (w < 0 ->
      ret = w
      /\ t' = t ++ [SetAddress (addr priv) 7; Write [MS58XX_RESET_REG]]).
Proof.
  intros L. cbv zeta. unfold ms58xx_reset. io_unfold.
  destruct (i2c_write _ _ _ <? 0) eqn:E.
  - split; [reflexivity |]. intros _.
    split; [reflexivity | rewrite <- app_assoc; reflexivity].
  - pose proof (readprom_negative_unchanged e prom priv
      ((t ++ [SetAddress (addr priv) 7]) ++ [Write [MS58XX_RESET_REG]]) L) as H.
    destruct (ms58xx_readprom e prom priv _) as [[ret priv'] t'].
    split; [apply H | lia].
Qed.

Lemma reset_failure_unchanged_witness :
  let priv :=
    set_c1 40127
      (blank (nack_write 0 (- EIO) (sensor an520 0 0)) 0x76
         MS58XX_MODEL_MS5803_14) in
  ms58xx_reset BigEndian (replicate 8 0) priv []
  = ((- EIO, priv), [SetAddress 0x76 7; Write [MS58XX_RESET_REG]]).
Proof.
  intros priv.
  pose proof (reset_failure_unchanged BigEndian (replicate 8 0) priv []
                eq_refl) as H.
  cbv zeta in H.
  destruct (ms58xx_reset BigEndian (replicate 8 0) priv [])
    as [[ret priv'] t'].
  destruct H as [H1 H2].
  destruct H2 as [-> ->]; [vm_compute; reflexivity |].
  rewrite H1 by (vm_compute; reflexivity). reflexivity.
Defined.

Lemma finish_frame (e : endianness) (priv : ms58xx_dev_s) (idx : nat)
  (shift ret : Z) (block : list Z) :
  exists v1 v2 v3 v4 v5 v6 v7 v8,
    snd (readprom_finish e priv idx shift ret block)
    = priv <| set_c1 := v1 |> <| set_c2 := v2 |> <| set_c3 := v3 |>
           <| set_c4 := v4 |> <| set_c5 := v5 |> <| set_c6 := v6 |>
           <| set_c7 := v7 |> <| set_c8 := v8 |>.
Proof.
  unfold readprom_finish.
  destruct (negb _).
  - exists (c1 priv), (c2 priv), (c3 priv), (c4 priv), (c5 priv), (c6 priv),
      (c7 priv), (c8 priv).
    destruct priv. reflexivity.
  - cbn [model set_c1 set_c2 set_c3 set_c4 set_c5 set_c6].
    destruct (model priv); do 8 eexists; reflexivity.
Qed.

Lemma reset_assigns_coefficients (e : endianness) (prom : list Z)
  (priv : ms58xx_dev_s) (t : list event) :
  exists v1 v2 v3 v4 v5 v6 v7 v8,
    snd (fst (ms58xx_reset e prom priv t))
    = priv <| set_c1 := v1 |> <| set_c2 := v2 |> <| set_c3 := v3 |>
           <| set_c4 := v4 |> <| set_c5 := v5 |> <| set_c6 := v6 |>
           <| set_c7 := v7 |> <| set_c8 := v8 |>.
Proof.
  assert (Same : exists v1 v2 v3 v4 v5 v6 v7 v8,
             priv = priv <| set_c1 := v1 |> <| set_c2 := v2 |>
                         <| set_c3 := v3 |> <| set_c4 := v4 |>
                         <| set_c5 := v5 |> <| set_c6 := v6 |>
                         <| set_c7 := v7 |> <| set_c8 := v8 |>).
  { exists (c1 priv), (c2 priv), (c3 priv), (c4 priv), (c5 priv),
      (c6 priv), (c7 priv), (c8 priv). destruct priv. reflexivity. }
  unfold ms58xx_reset. io_unfold.
  destruct (i2c_write _ _ _ <? 0); [exact Same |].
  rewrite readprom_unfold.
  destruct (readprom_loop _ _ _ _ _ _) as [[ret | ret block] t'];
    [exact Same |].
  apply finish_frame.
Qed.

(** Resetting, successful or not, assigns at most C1..C8: the stored
    temperature and pressure, the oversampling field and delay, the model,
    the address and the per-model tables are as before. *)
Theorem reset_frame (e : endianness) (prom : list Z) (priv : ms58xx_dev_s)
  (t : list event) :
  let priv' := snd (fst (ms58xx_reset e prom priv t)) in
  priv' = priv <| set_c1 := c1 priv' |> <| set_c2 := c2 priv' |>
               <| set_c3 := c3 priv' |> <| set_c4 := c4 priv' |>
               <| set_c5 := c5 priv' |> <| set_c6 := c6 priv' |>
               <| set_c7 := c7 priv' |> <| set_c8 := c8 priv' |>
  /\ temp priv' = temp priv /\ press priv' = press priv
  /\ osr priv' = osr priv /\ delay priv' = delay priv
  /\ model priv' = model priv /\ addr priv' = addr priv
  /\ pressdivs priv' = pressdivs priv.
Proof.
  destruct (reset_assigns_coefficients e prom priv t)
    as (v1 & v2 & v3 & v4 & v5 & v6 & v7 & v8 & H).
  cbv zeta. rewrite H. repeat split.
Qed.

(** ** Registration *)

Lemma setosr_result (priv : ms58xx_dev_s) (ratio : Z) :
  ms58xx_setosr priv ratio = (- EINVAL, priv)
  \/ exists d,
      In (ratio, d) [(256, 600); (512, 1170); (1024, 2280); (2048, 4540);
                     (4096, 9040); (8192, 18080)]
      /\ ms58xx_setosr priv ratio
         = (OK, priv <| set_delay := d |>
                     <| set_osr := (ratio / 256 - 1) * 2 |>).
Proof.
  destruct (in_dec Z.eq_dec ratio [256; 512; 1024; 2048; 4096; 8192])
    as [H | H]; [| left; apply setosr_default; exact H].
  simpl in H.
  destruct H as [<- | [<- | [<- | [<- | [<- | [<- | []]]]]]];
    try (right; eexists; split; [| reflexivity]; simpl; tauto).
  destruct (compact (model priv)) eqn:E.
  - right. eexists. split; [| apply setosr_8192_supported; exact E].
    simpl. tauto.
  - left. apply setosr_8192_unsupported. exact E.
Qed.

(** [ms58xx_register] keeps the instance exactly when it returns a
    non-negative value: every error path frees it. *)
Theorem register_keeps_iff_success (cfg : config)
  (kmm_malloc : option ms58xx_dev_s) (register_driver : ms58xx_dev_s -> Z)
  (prom : list Z) (bus : i2c_dev_s) (a ratio : Z) (m : ms58xx_model_e)
  (t : list event) (ret : Z) (dev : option ms58xx_dev_s) :
  fst (ms58xx_register cfg kmm_malloc register_driver prom bus a ratio m t)
  = Exited ret dev ->
  (ret < 0 <-> dev = None).
Proof.
  unfold ms58xx_register.
  destruct (CONFIG_DEBUG cfg && negb _); [discriminate |].
  destruct kmm_malloc as [raw |].
  2: { intros H. injection H as <- <-. unfold ENOMEM. split; [reflexivity | lia]. }
  destruct (ms58xx_setosr _ ratio) as [r1 p1].
  destruct (r1 <? 0) eqn:E1.
  { intros H. injection H as <- <-. split; [reflexivity | lia]. }
  unfold Bind.
  destruct (ms58xx_reset _ prom p1 t) as [[r2 p2] t2].
  destruct (r2 <? 0) eqn:E2.
  { intros H. injection H as <- <-. split; [reflexivity | lia]. }
  destruct (register_driver p2 <? 0) eqn:E3;
    intros H; injection H as <- <-.
  - split; [reflexivity | lia].
  - split; [lia | discriminate].
Qed.

Lemma register_keeps_iff_success_witness :
  - ENODEV < 0 <-> (None : option ms58xx_dev_s) = None.
Proof.
  apply (register_keeps_iff_success release_config
           (Some (blank (sensor [] 0 0) 0 MS58XX_MODEL_MS5803_02))
           (fun _ => OK) (replicate 8 0)
           (sensor (<[3%nat := 0x3739]> an520) 0 0)
           0x76 4096 MS58XX_MODEL_MS5803_14 []).
  vm_compute. reflexivity.
Defined.

(** Registration fails before any bus traffic when the allocation fails
    (-ENOMEM) or the oversampling ratio is not accepted for the model
    (-EINVAL). *)
Theorem register_early_failures (cfg : config)
  (kmm_malloc : option ms58xx_dev_s) (register_driver : ms58xx_dev_s -> Z)
  (prom : list Z) (bus : i2c_dev_s) (a ratio : Z) (m : ms58xx_model_e)
  (t : list event) :
  CONFIG_DEBUG cfg
  && negb (register_sanity (MS58XX_ADDR0 cfg) (MS58XX_ADDR1 cfg) m a) = false ->
  (kmm_malloc = None ->
   ms58xx_register cfg kmm_malloc register_driver prom bus a ratio m t
   = (Exited (- ENOMEM) None, t))
  /\ (kmm_malloc <> None ->
      ~ In ratio [256; 512; 1024; 2048; 4096; 8192]
      \/ (ratio = 8192 /\ m <> MS58XX_MODEL_MS5805_02
          /\ m <> MS58XX_MODEL_MS5837_30) ->
      ms58xx_register cfg kmm_malloc register_driver prom bus a ratio m t
      = (Exited (- EINVAL) None, t)).
Proof.
  intros S. unfold ms58xx_register. rewrite S. split.
  - intros ->. reflexivity.
  - intros Hk Hbad. destruct kmm_malloc as [raw |]; [| contradiction].
    match goal with
    | |- context [ms58xx_setosr ?p ratio] =>
        assert (E : ms58xx_setosr p ratio = (- EINVAL, p));
        [| rewrite E; reflexivity]
    end.
    destruct Hbad as [H | (-> & H1 & H2)].
    + apply setosr_default. exact H.
    + apply setosr_8192_unsupported.
      destruct m; try reflexivity; contradiction.
Qed.

Lemma register_early_failures_witness :
  ms58xx_register release_config
    (Some (blank (sensor [] 0 0) 0 MS58XX_MODEL_MS5803_02))
    (fun _ => OK) (replicate 8 0) (sensor an520 0 0)
    0x76 8192 MS58XX_MODEL_MS5803_14 [SetAddress 0x76 7]
  = (Exited (- EINVAL) None, [SetAddress 0x76 7]).
Proof.
  apply (proj2 (register_early_failures release_config
                  (Some (blank (sensor [] 0 0) 0 MS58XX_MODEL_MS5803_02))
                  (fun _ => OK) (replicate 8 0) (sensor an520 0 0)
                  0x76 8192 MS58XX_MODEL_MS5803_14 [SetAddress 0x76 7]
                  eq_refl)).
  - discriminate.
  - right. repeat split; discriminate.
Defined.

(** The register reads look at the bus and the address only. *)
Lemma readu16_same_bus (p q : ms58xx_dev_s) (regaddr : Z) :
  i2c p = i2c q -> addr p = addr q ->
  ms58xx_readu16 p regaddr = ms58xx_readu16 q regaddr.
Proof.
  intros Hi Ha. unfold ms58xx_readu16. rewrite Hi, Ha. reflexivity.
Qed.

Lemma delivers_same_bus (p q : ms58xx_dev_s) (i : nat) (ws : list Z)
  (r0 r : Z) (t t' : list event) :
  i2c p = i2c q -> addr p = addr q ->
  delivers p i ws r0 r t t' -> delivers q i ws r0 r t t'.
Proof.
  intros Hi Ha D.
  induction D as [i r0 t | i w ws r0 r1 r t t1 t2 Hread Hr1 D IH].
  - apply delivers_nil.
  - apply (delivers_cons q i w ws r0 r1 r t t1 t2); [| exact Hr1 | exact IH].
    rewrite <- (readu16_same_bus p q _ Hi Ha). exact Hread.
Qed.

(** A PROM load that returns a non-negative value has read the words
    [ws] from the bus, found their CRC to match, and stored words 1..6
    as C1..C6. *)
Lemma readprom_loaded_from_bus (e : endianness) (prom : list Z)
  (priv : ms58xx_dev_s) (t : list event) :
  length prom = 8%nat ->
  let '((ret, priv'), t') := ms58xx_readprom e prom priv t in
  0 <= ret ->
  exists ws,
    length ws = prom_words (model priv)
    /\ delivers priv 0 ws 0 ret t t'
    /\ crc_nibble (model priv) (prom_block (model priv) ws)
       = ms58xx_crc (prom_bytes e
           (crc_cleared (model priv) (prom_block (model priv) ws)))
    /\ [c1 priv'; c2 priv'; c3 priv'; c4 priv'; c5 priv'; c6 priv']
       = [ws !!! 1%nat; ws !!! 2%nat; ws !!! 3%nat; ws !!! 4%nat;
          ws !!! 5%nat; ws !!! 6%nat].
Proof.
  intros L.
  destruct (delivers_or_fails priv (prom_words (model priv)) 0 0 t)
    as [(ws & r & t1 & Lw & D) | (ws & r1 & t1 & r & t2 & Lw & D & F & Hr)].
  - destruct (Z.eq_dec (crc_nibble (model priv) (prom_block (model priv) ws))
                (ms58xx_crc (prom_bytes e
                   (crc_cleared (model priv) (prom_block (model priv) ws)))))
      as [E | E].
    + destruct (readprom_match e prom priv L ws r t t1 Lw D E)
        as (v7 & v8 & Hm).
      rewrite Hm. intros _. exists ws. repeat split; assumption.
    + rewrite (readprom_mismatch e prom priv L ws r t t1 Lw D E).
      unfold ENODEV. lia.
  - simpl in F.
    rewrite (readprom_bus_failure e prom priv L ws r1 r t t1 t2 Lw D F Hr).
    lia.
Qed.

Lemma reset_loaded_from_bus (e : endianness) (prom : list Z)
  (priv : ms58xx_dev_s) (t : list event) :
  length prom = 8%nat ->
  let '((ret, priv'), t') := ms58xx_reset e prom priv t in
  0 <= ret ->
  exists ws,
    length ws = prom_words (model priv)
    /\ delivers priv 0 ws 0 ret
         (t ++ [SetAddress (addr priv) 7; Write [MS58XX_RESET_REG]]) t'
    /\ crc_nibble (model priv) (prom_block (model priv) ws)
       = ms58xx_crc (prom_bytes e
           (crc_cleared (model priv) (prom_block (model priv) ws)))
    /\ [c1 priv'; c2 priv'; c3 priv'; c4 priv'; c5 priv'; c6 priv']
       = [ws !!! 1%nat; ws !!! 2%nat; ws !!! 3%nat; ws !!! 4%nat;
          ws !!! 5%nat; ws !!! 6%nat].
Proof.
  intros L. unfold ms58xx_reset. io_unfold.
  destruct (i2c_write _ _ _ <? 0) eqn:E; [lia |].
  rewrite <- app_assoc. cbn [app].
  pose proof (readprom_loaded_from_bus e prom priv
    (t ++ [SetAddress (addr priv) 7; Write [MS58XX_RESET_REG]]) L) as H.
  destruct (ms58xx_readprom e prom priv _) as [[ret priv'] t'].
  apply H.
Qed.

(** The instance [ms58xx_register] keeps: the bus, address and model it
    was given, a zero temperature and pressure, the delay and selector of
    the requested ratio, shift exponents of at most 37 (so that no
    [1 << s] of the compensation overflows or is zero), and coefficients
    C1..C6 that are words 1..6 of the PROM words the bus delivered after
    the reset command, to the end of the call's bus traffic, and whose
    CRC matched. *)
Theorem register_instance (cfg : config)
  (kmm_malloc : option ms58xx_dev_s) (register_driver : ms58xx_dev_s -> Z)
  (prom : list Z) (bus : i2c_dev_s) (a ratio : Z) (m : ms58xx_model_e)
  (t : list event) (ret : Z) (dev : ms58xx_dev_s) :
  length prom = 8%nat ->
  fst (ms58xx_register cfg kmm_malloc register_driver prom bus a ratio m t)
  = Exited ret (Some dev) ->
  0 <= ret /\ i2c dev = bus /\ addr dev = a /\ model dev = m
  /\ temp dev = 0 /\ press dev = 0
  /\ In (ratio, delay dev)
        [(256, 600); (512, 1170); (1024, 2280); (2048, 4540); (4096, 9040);
         (8192, 18080)]
  /\ osr dev = (ratio / 256 - 1) * 2
  /\ Forall (fun s => 0 <= s <= 37)
       [c1s dev; c2s dev; c3s dev; c4s dev; diffdivls dev; offdivls dev;
        sensdivls dev; diffdivhs dev; offdivhs dev; sensdivhs dev;
        pressdivs dev]
  /\ exists ws r,
      length ws = prom_words m
      /\ delivers dev 0 ws 0 r
           (t ++ [SetAddress a 7; Write [MS58XX_RESET_REG]])
           (snd (ms58xx_register cfg kmm_malloc register_driver prom bus a
                   ratio m t))
      /\ crc_nibble m (prom_block m ws)
         = ms58xx_crc (prom_bytes (CONFIG_ENDIAN cfg)
             (crc_cleared m (prom_block m ws)))
      /\ [c1 dev; c2 dev; c3 dev; c4 dev; c5 dev; c6 dev]
         = [ws !!! 1%nat; ws !!! 2%nat; ws !!! 3%nat; ws !!! 4%nat;
            ws !!! 5%nat; ws !!! 6%nat].
Proof.
  intros L. unfold ms58xx_register.
  destruct (CONFIG_DEBUG cfg && negb _); [discriminate |].
  destruct kmm_malloc as [raw |]; [| discriminate].
  match goal with
  | |- context [ms58xx_setosr ?p ratio] => remember p as p0 eqn:Hp0
  end.
  destruct (setosr_result p0 ratio) as [E | (d & Hin & E)]; rewrite E.
  { change (- EINVAL <? 0) with true. cbv iota. discriminate. }
  change (OK <? 0) with false. cbv iota. unfold Bind.
  remember (set_osr ((ratio / 256 - 1) * 2) (set_delay d p0)) as p1 eqn:Hp1.
  pose proof (reset_loaded_from_bus (CONFIG_ENDIAN cfg) prom p1 t L) as Hl.
  destruct (reset_assigns_coefficients (CONFIG_ENDIAN cfg) prom p1 t)
    as (v1 & v2 & v3 & v4 & v5 & v6 & v7 & v8 & Hf).
  destruct (ms58xx_reset _ prom p1 t) as [[r2 p2] t2].
  cbn [fst snd] in Hf.
  destruct (r2 <? 0) eqn:E2; [discriminate |].
  apply Z.ltb_ge in E2. specialize (Hl E2).
  destruct (register_driver p2 <? 0) eqn:E3; intros H; [discriminate H |].
  injection H as <- <-. apply Z.ltb_ge in E3.
  assert (Hm : model p1 = m) by (subst p1 p0; destruct m; reflexivity).
  assert (Hb : i2c p1 = bus /\ addr p1 = a)
    by (subst p1 p0; destruct m; split; reflexivity).
  destruct Hb as [Hb Ha].
  rewrite Hm, Ha in Hl.
  split; [exact E3 |].
  assert (F : i2c p2 = bus /\ addr p2 = a /\ model p2 = m /\ temp p2 = 0
              /\ press p2 = 0 /\ delay p2 = d
              /\ osr p2 = (ratio / 256 - 1) * 2
              /\ Forall (fun s => 0 <= s <= 37)
                   [c1s p2; c2s p2; c3s p2; c4s p2; diffdivls p2;
                    offdivls p2; sensdivls p2; diffdivhs p2; offdivhs p2;
                    sensdivhs p2; pressdivs p2]).
  { subst p2 p1 p0. destruct m; cbn; repeat split;
      repeat (constructor; [lia |]); constructor. }
  destruct F as (F1 & F2 & F3 & F4 & F5 & F6 & F7 & F8).
  rewrite F6.
  destruct Hl as (ws & Lw & D & Hcrc & Hc).
  repeat split; try assumption.
  exists ws, r2. cbn [snd Ret].
  repeat split; try assumption.
  apply (delivers_same_bus p1 p2); [congruence | congruence | exact D].
Qed.

(** The MS5803-14 registered on the simulated sensor. *)
Lemma register_instance_witness :
  0 <= OK /\ i2c ms5803_14_dev = sensor ms5803_14_image 4311550 8387300
  /\ addr ms5803_14_dev = 0x76.
Proof.
  destruct (register_instance release_config
              (Some (blank (sensor [] 0 0) 0 MS58XX_MODEL_MS5803_02))
              (fun _ => OK) (replicate 8 0)
              (sensor ms5803_14_image 4311550 8387300)
              0x76 4096 MS58XX_MODEL_MS5803_14 [] OK ms5803_14_dev
              eq_refl ltac:(vm_compute; reflexivity))
    as (H1 & H2 & H3 & _).
  auto.
Defined.

(** *** The content of the fresh block *)

Lemma loop_returned_negative (priv : ms58xx_dev_s) (n i : nat) (r0 : Z)
  (prom : list Z) (t t' : list event) (r : Z) :
  readprom_loop priv n i r0 prom t = (Returned r, t') -> r < 0.
Proof.
  revert i r0 prom t. induction n as [| n IH]; intros i r0 prom t;
    [discriminate |].
  cbn [readprom_loop]. unfold Bind at 1.
  destruct (ms58xx_readu16 priv (prom_reg i) t) as [[r1 v] t1].
  destruct (r1 <? 0) eqn:E.
  - unfold Ret. intros H. injection H as <- _. lia.
  - apply IH.
Qed.

Section Overwritten.

Variables (e : endianness) (priv : ms58xx_dev_s).
Variables a1 a2 a3 a4 a5 a6 a7 a8 : Z.

Let priv' :=
  priv <| set_c1 := a1 |> <| set_c2 := a2 |> <| set_c3 := a3 |>
       <| set_c4 := a4 |> <| set_c5 := a5 |> <| set_c6 := a6 |>
       <| set_c7 := a7 |> <| set_c8 := a8 |>.

(** The register reads look at the bus and the address only. *)
Lemma readu16_overwritten (regaddr : Z) :
  ms58xx_readu16 priv' regaddr = ms58xx_readu16 priv regaddr.
Proof. reflexivity. Qed.

Lemma loop_overwritten (n i : nat) (r0 : Z) (prom : list Z)
  (t : list event) :
  readprom_loop priv' n i r0 prom t = readprom_loop priv n i r0 prom t.
Proof.
  revert i r0 prom t. induction n as [| n IH]; intros i r0 prom t;
    [reflexivity |].
  cbn [readprom_loop]. unfold Bind. rewrite readu16_overwritten.
  destruct (ms58xx_readu16 priv (prom_reg i) t) as [[r1 v] t1].
  destruct (r1 <? 0); [reflexivity | apply IH].
Qed.

Lemma finish_overwritten (idx : nat) (shift ret : Z) (block : list Z) :
  (readprom_finish e priv' idx shift ret block = (- ENODEV, priv')
   /\ readprom_finish e priv idx shift ret block = (- ENODEV, priv))
  \/ readprom_finish e priv' idx shift ret block
     = readprom_finish e priv idx shift ret block.
Proof.
  unfold readprom_finish.
  destruct (negb _); [left; split; reflexivity | right].
  subst priv'. destruct priv as [? ? md ? ? ? ? ? ? ? ? ? ? ? ? ? ? ? ? ? ?
    ? ? ? ? ? ? ? ? ? ? ? ? ? ? ?].
  destruct md; reflexivity.
Qed.

(** Loading the PROM into a device whose coefficients were different
    goes the same way: the same bus traffic and return value, and after a
    successful load the same device. *)
Lemma readprom_overwritten (prom : list Z) (t : list event) :
  (exists r t1,
      r < 0 /\ ms58xx_readprom e prom priv' t = ((r, priv'), t1)
      /\ ms58xx_readprom e prom priv t = ((r, priv), t1))
  \/ ms58xx_readprom e prom priv' t = ms58xx_readprom e prom priv t.
Proof.
  rewrite !readprom_unfold. change (model priv') with (model priv).
  rewrite loop_overwritten.
  destruct (readprom_loop priv _ _ _ _ t) as [[r | r block] t1] eqn:El.
  - left. exists r, t1. split; [| split; reflexivity].
    exact (loop_returned_negative _ _ _ _ _ _ _ _ El).
  - destruct (finish_overwritten
                (if compact (model priv) then 0%nat else 7%nat)
                (if compact (model priv) then 12 else 0) r block)
      as [[E1 E2] | E].
    + left. exists (- ENODEV), t1. rewrite E1, E2.
      split; [unfold ENODEV; lia | split; reflexivity].
    + right. rewrite E. reflexivity.
Qed.

Lemma reset_overwritten (prom : list Z) (t : list event) :
  (exists r t1,
      r < 0 /\ ms58xx_reset e prom priv' t = ((r, priv'), t1)
      /\ ms58xx_reset e prom priv t = ((r, priv), t1))
  \/ ms58xx_reset e prom priv' t = ms58xx_reset e prom priv t.
Proof.
  unfold ms58xx_reset. io_unfold.
  change (i2c priv') with (i2c priv). change (addr priv') with (addr priv).
  destruct (i2c_write _ _ _ <? 0) eqn:E.
  - left. do 2 eexists. split; [| split; reflexivity]. lia.
  - apply readprom_overwritten.
Qed.

End Overwritten.

Lemma setosr_same_model (priv priv' : ms58xx_dev_s) (ratio : Z) :
  model priv' = model priv ->
  (ms58xx_setosr priv ratio = (- EINVAL, priv)
   /\ ms58xx_setosr priv' ratio = (- EINVAL, priv'))
  \/ exists d,
      ms58xx_setosr priv ratio
      = (OK, priv <| set_delay := d |>
                  <| set_osr := (ratio / 256 - 1) * 2 |>)
      /\ ms58xx_setosr priv' ratio
         = (OK, priv' <| set_delay := d |>
                      <| set_osr := (ratio / 256 - 1) * 2 |>).
Proof.
  intros Hm.
  destruct (in_dec Z.eq_dec ratio [256; 512; 1024; 2048; 4096; 8192])
    as [H | H]; [| left; split; apply setosr_default; exact H].
  simpl in H.
  destruct H as [<- | [<- | [<- | [<- | [<- | [<- | []]]]]]];
    try (right; eexists; split; reflexivity).
  destruct (compact (model priv)) eqn:E.
  - right. eexists. split; apply setosr_8192_supported; congruence.
  - left. split; apply setosr_8192_unsupported; congruence.
Qed.

(** Registration does not depend on what the freshly allocated block
    held: every field the driver later reads is assigned before use.
    Only [crcindex] and [crcshift], which the driver never assigns and
    never reads, keep their content. *)
Theorem register_ignores_fresh_block (cfg : config)
  (raw raw' : ms58xx_dev_s) (register_driver : ms58xx_dev_s -> Z)
  (prom : list Z) (bus : i2c_dev_s) (a ratio : Z) (m : ms58xx_model_e)
  (t : list event) :
  crcindex raw = crcindex raw' -> crcshift raw = crcshift raw' ->
  ms58xx_register cfg (Some raw) register_driver prom bus a ratio m t
  = ms58xx_register cfg (Some raw') register_driver prom bus a ratio m t.
Proof.
  intros Hi Hs. unfold ms58xx_register.
  destruct (CONFIG_DEBUG cfg && negb _); [reflexivity |].
  match goal with
  | |- context [ms58xx_setosr ?p ratio] => remember p as p0 eqn:Hp0
  end.
  match goal with
  | |- _ = (let '(_, _) := ms58xx_setosr ?p ratio in _) t =>
      remember p as p0' eqn:Hp0'
  end.
  assert (Hm : model p0' = model p0)
    by (subst p0 p0'; destruct m; reflexivity).
  destruct (setosr_same_model p0 p0' ratio Hm) as [[E E'] | (d & E & E')];
    rewrite E, E'.
  { reflexivity. }
  change (OK <? 0) with false. cbv iota. unfold Bind.
  assert (Hp1 : set_osr ((ratio / 256 - 1) * 2) (set_delay d p0')
                = (set_osr ((ratio / 256 - 1) * 2) (set_delay d p0))
                    <| set_c1 := c1 raw' |> <| set_c2 := c2 raw' |>
                    <| set_c3 := c3 raw' |> <| set_c4 := c4 raw' |>
                    <| set_c5 := c5 raw' |> <| set_c6 := c6 raw' |>
                    <| set_c7 := c7 raw' |> <| set_c8 := c8 raw' |>).
  { subst p0 p0'. destruct raw, raw'. cbn in Hi, Hs. subst.
    destruct m; reflexivity. }
  rewrite Hp1.
  destruct (reset_overwritten (CONFIG_ENDIAN cfg)
              (set_osr ((ratio / 256 - 1) * 2) (set_delay d p0))
              (c1 raw') (c2 raw') (c3 raw') (c4 raw') (c5 raw') (c6 raw')
              (c7 raw') (c8 raw') prom t)
    as [(r & t1 & Hr & R' & R) | R].
  - rewrite R, R'. destruct (r <? 0) eqn:Er; [reflexivity | lia].
  - rewrite R. reflexivity.
Qed.

Lemma register_ignores_fresh_block_witness :
  ms58xx_register release_config
    (Some (blank (sensor [] 0 0) 0 MS58XX_MODEL_MS5803_02))
    (fun _ => OK) (replicate 8 0) (sensor an520 0 0)
    0x76 4096 MS58XX_MODEL_MS5803_14 []
  = ms58xx_register release_config
      (Some (set_c1 0xffff (set_temp 123 (set_delay 7
         (blank (sensor an520 9 9) 0x55 MS58XX_MODEL_MS5837_30)))))
      (fun _ => OK) (replicate 8 0) (sensor an520 0 0)
      0x76 4096 MS58XX_MODEL_MS5803_14 [].
Proof. apply register_ignores_fresh_block; reflexivity. Defined.

(** ** The ioctl interface *)

Section Ioctl.

Variables (cfg : config) (sn : snioc) (sndbg : bool)
  (load16 : Z -> option Z) (prom : list Z).

(** The case labels of the [switch] are distinct. *)
Hypothesis labels_distinct :
  NoDup [SNIOC_MEASURE sn; SNIOC_TEMPERATURE sn; SNIOC_PRESSURE sn;
         SNIOC_RESET sn; SNIOC_OVERSAMPLING sn].

Lemma labels_neq :
  SNIOC_MEASURE sn <> SNIOC_TEMPERATURE sn
  /\ SNIOC_MEASURE sn <> SNIOC_PRESSURE sn
  /\ SNIOC_MEASURE sn <> SNIOC_RESET sn
  /\ SNIOC_MEASURE sn <> SNIOC_OVERSAMPLING sn
  /\ SNIOC_TEMPERATURE sn <> SNIOC_PRESSURE sn
  /\ SNIOC_TEMPERATURE sn <> SNIOC_RESET sn
  /\ SNIOC_TEMPERATURE sn <> SNIOC_OVERSAMPLING sn
  /\ SNIOC_PRESSURE sn <> SNIOC_RESET sn
  /\ SNIOC_PRESSURE sn <> SNIOC_OVERSAMPLING sn
  /\ SNIOC_RESET sn <> SNIOC_OVERSAMPLING sn.
Proof.
  pose proof labels_distinct as H.
  rewrite !NoDup_cons, !not_elem_of_cons in H.
  intuition congruence.
Qed.

Lemma ioctl_temperature (priv : ms58xx_dev_s) (arg : Z) (t : list event) :
  CONFIG_DEBUG cfg && (arg =? 0) = false ->
  ms58xx_ioctl cfg sn sndbg load16 prom priv (SNIOC_TEMPERATURE sn) arg t
  = (IoctlReturned OK priv (Some (arg, temp priv)), t).
Proof.
  intros H. destruct labels_neq as (N & _).
  unfold ms58xx_ioctl.
  destruct (Z.eqb_spec (SNIOC_TEMPERATURE sn) (SNIOC_MEASURE sn));
    [congruence |].
  rewrite Z.eqb_refl, H. reflexivity.
Qed.

Lemma ioctl_pressure (priv : ms58xx_dev_s) (arg : Z) (t : list event) :
  CONFIG_DEBUG cfg && (arg =? 0) = false ->
  ms58xx_ioctl cfg sn sndbg load16 prom priv (SNIOC_PRESSURE sn) arg t
  = (IoctlReturned OK priv (Some (arg, press priv)), t).
Proof.
  intros H. destruct labels_neq as (_ & N1 & _ & _ & N2 & _).
  unfold ms58xx_ioctl.
  destruct (Z.eqb_spec (SNIOC_PRESSURE sn) (SNIOC_MEASURE sn));
    [congruence |].
  destruct (Z.eqb_spec (SNIOC_PRESSURE sn) (SNIOC_TEMPERATURE sn));
    [congruence |].
  rewrite Z.eqb_refl, H. reflexivity.
Qed.

Lemma ioctl_oversampling (priv : ms58xx_dev_s) (arg : Z) (t : list event) :
  ms58xx_ioctl cfg sn sndbg load16 prom priv (SNIOC_OVERSAMPLING sn) arg t
  = (if sndbg && negb (bool_decide (is_Some (load16 arg)))
     then IoctlFaulted
     else IoctlReturned (fst (ms58xx_setosr priv (arg mod 65536)))
            (snd (ms58xx_setosr priv (arg mod 65536))) None, t).
Proof.
  destruct labels_neq as (_ & _ & _ & N1 & _ & _ & N2 & _ & N3 & N4).
  unfold ms58xx_ioctl.
  destruct (Z.eqb_spec (SNIOC_OVERSAMPLING sn) (SNIOC_MEASURE sn));
    [congruence |].
  destruct (Z.eqb_spec (SNIOC_OVERSAMPLING sn) (SNIOC_TEMPERATURE sn));
    [congruence |].
  destruct (Z.eqb_spec (SNIOC_OVERSAMPLING sn) (SNIOC_PRESSURE sn));
    [congruence |].
  destruct (Z.eqb_spec (SNIOC_OVERSAMPLING sn) (SNIOC_RESET sn));
    [congruence |].
  rewrite Z.eqb_refl. unfold u16.
  destruct (ms58xx_setosr priv (arg mod 65536)).
  destruct sndbg; [| reflexivity].
  destruct (load16 arg); reflexivity.
Qed.

End Ioctl.

(** A command that is none of the five is answered -ENOTTY; the device
    is not changed, nothing is stored and the bus is not used. *)
Theorem ioctl_unrecognized (cfg : config) (sn : snioc) (sndbg : bool)
  (load16 : Z -> option Z) (prom : list Z)
  (priv : ms58xx_dev_s) (cmd arg : Z) (t : list event) :
  ~ In cmd [SNIOC_MEASURE sn; SNIOC_TEMPERATURE sn; SNIOC_PRESSURE sn;
            SNIOC_RESET sn; SNIOC_OVERSAMPLING sn] ->
  ms58xx_ioctl cfg sn sndbg load16 prom priv cmd arg t
  = (IoctlReturned (- ENOTTY) priv None, t).
Proof.
  intros H. unfold ms58xx_ioctl. simpl in H.
  repeat match goal with
         | |- context [cmd =? ?c] =>
             destruct (Z.eqb_spec cmd c); [exfalso; intuition congruence |]
         end.
  reflexivity.
Qed.

Lemma ioctl_unrecognized_witness :
  ms58xx_ioctl release_config sample_snioc false (fun _ => None)
    (replicate 8 0) ms5803_14_dev
    0xa06 0 []
  = (IoctlReturned (- ENOTTY) ms5803_14_dev None, []).
Proof.
  apply ioctl_unrecognized. simpl.
  intros H. decompose [or] H; try discriminate; assumption.
Defined.

(** Reading the temperature or the pressure returns the stored value
    through the pointer, without using the bus or changing the device. *)
Theorem ioctl_getters (cfg : config) (sn : snioc) (sndbg : bool)
  (load16 : Z -> option Z) (prom : list Z)
  (priv : ms58xx_dev_s) (ptr : Z) (t : list event) :
  NoDup [SNIOC_MEASURE sn; SNIOC_TEMPERATURE sn; SNIOC_PRESSURE sn;
         SNIOC_RESET sn; SNIOC_OVERSAMPLING sn] ->
  ptr <> 0 ->
  ms58xx_ioctl cfg sn sndbg load16 prom priv (SNIOC_TEMPERATURE sn) ptr t
  = (IoctlReturned OK priv (Some (ptr, temp priv)), t)
  /\ ms58xx_ioctl cfg sn sndbg load16 prom priv (SNIOC_PRESSURE sn) ptr t
     = (IoctlReturned OK priv (Some (ptr, press priv)), t).
Proof.
  intros D Hp.
  assert (E : CONFIG_DEBUG cfg && (ptr =? 0) = false).
  { destruct (Z.eqb_spec ptr 0); [contradiction | apply andb_false_r]. }
  split.
  - apply ioctl_temperature; assumption.
  - apply ioctl_pressure; assumption.
Qed.

Lemma ioctl_getters_witness :
  ms58xx_ioctl debug_config sample_snioc false (fun _ => None) (replicate 8 0)
    (set_temp 2015 ms5803_14_dev) 0xa02 0x20001000 []
  = (IoctlReturned OK (set_temp 2015 ms5803_14_dev)
       (Some (0x20001000, 2015)), []).
Proof.
  apply (proj1 (ioctl_getters debug_config sample_snioc false
                  (fun _ => None) (replicate 8 0)
                  (set_temp 2015 ms5803_14_dev) 0x20001000 []
                  ltac:(repeat (constructor;
                                [rewrite ?not_elem_of_cons, elem_of_nil;
                                 unfold sample_snioc; simpl; lia |]);
                        constructor)
                  ltac:(lia))).
Defined.

(** The ratio passed to the oversampling command is converted to
    [uint16_t], and the command does not use the bus.  Without the debug
    output of the sensor drivers, arguments that agree modulo 65536 are
    treated alike and the call returns what [ms58xx_setosr] returns.
    With that output compiled in, the argument is also read as an
    address by the [sndbg] line: arguments that agree modulo 65536 are
    treated alike only when both can be read as addresses, and the call
    has no defined result when the argument cannot. *)
Theorem ioctl_oversampling_truncates (cfg : config) (sn : snioc)
  (sndbg : bool) (load16 : Z -> option Z) (prom : list Z)
  (priv : ms58xx_dev_s) (arg k : Z) (t : list event) :
  NoDup [SNIOC_MEASURE sn; SNIOC_TEMPERATURE sn; SNIOC_PRESSURE sn;
         SNIOC_RESET sn; SNIOC_OVERSAMPLING sn] ->
  let run x :=
    ms58xx_ioctl cfg sn sndbg load16 prom priv (SNIOC_OVERSAMPLING sn) x t in
  snd (run arg) = t
  /\ (sndbg = false
      \/ (is_Some (load16 arg) /\ is_Some (load16 (arg + 65536 * k))) ->
      run (arg + 65536 * k) = run arg
      /\ fst (run arg)
         = IoctlReturned (fst (ms58xx_setosr priv (arg mod 65536)))
             (snd (ms58xx_setosr priv (arg mod 65536))) None)
  /\ (sndbg = true -> load16 arg = None -> fst (run arg) = IoctlFaulted).
Proof.
  intros D run. subst run. cbv beta.
  rewrite !ioctl_oversampling by exact D.
  rewrite (Z.mul_comm 65536 k), Z.mod_add by lia.
  split; [reflexivity |]. split.
  - intros [-> | [H1 H2]]; [split; reflexivity |].
    rewrite !bool_decide_eq_true_2 by assumption.
    rewrite andb_false_r. split; reflexivity.
  - intros -> E. rewrite E.
    rewrite bool_decide_eq_false_2 by (intros [x Hx]; discriminate Hx).
    reflexivity.
Qed.

(** With the debug output compiled in, 256 at an address that can be
    read is accepted, and 65536 + 256, the same ratio after the
    conversion, at an address that cannot be read is not. *)
Lemma ioctl_oversampling_truncates_witness :
  let load16 := fun a : Z => if a =? 65792 then None else Some 0 in
  let run x :=
    ms58xx_ioctl release_config sample_snioc true load16 (replicate 8 0)
      ms5803_14_dev 0xa05 x [] in
  fst (run 65792) = IoctlFaulted
  /\ fst (run 256)
     = IoctlReturned OK (snd (ms58xx_setosr ms5803_14_dev 256)) None.
Proof.
  intros load16 run.
  destruct (ioctl_oversampling_truncates release_config sample_snioc true
              load16 (replicate 8 0) ms5803_14_dev 65792 (-1) []
              ltac:(repeat (constructor;
                            [rewrite ?not_elem_of_cons, elem_of_nil;
                             unfold sample_snioc; simpl; lia |]);
                    constructor))
    as (_ & _ & F).
  split; [exact (F eq_refl eq_refl) | vm_compute; reflexivity].
Defined.

Lemma measure_cases (vdd : Z) (priv priv' : ms58xx_dev_s)
  (t t' : list event) (ret : Z) :
  ms58xx_measure vdd priv t = ((ret, priv'), t') ->
  (ret < 0 /\ priv' = priv)
  \/ (0 <= ret
      /\ exists r1 rawpress t1 rawtemp,
          ms58xx_convert priv MS58XX_PRESS_REG t = ((r1, Some rawpress), t1)
          /\ 0 <= r1
          /\ ms58xx_convert priv MS58XX_TEMP_REG t1
             = ((ret, Some rawtemp), t')
          /\ priv' = priv
               <| set_temp :=
                    fst (measure_compensate vdd priv rawpress rawtemp) |>
               <| set_press :=
                    snd (measure_compensate vdd priv rawpress rawtemp) |>).
Proof.
  unfold ms58xx_measure, Bind, Ret.
  pose proof (convert_stores priv MS58XX_PRESS_REG t) as S1.
  destruct (ms58xx_convert priv MS58XX_PRESS_REG t) as [[r1 v1] t1] eqn:C1.
  destruct (r1 <? 0) eqn:E1.
  { intros H. injection H as <- <- <-. left. split; [lia | reflexivity]. }
  pose proof (convert_stores priv MS58XX_TEMP_REG t1) as S2.
  destruct (ms58xx_convert priv MS58XX_TEMP_REG t1) as [[r2 v2] t2] eqn:C2.
  destruct (r2 <? 0) eqn:E2.
  { intros H. injection H as <- <- <-. left. split; [lia | reflexivity]. }
  apply Z.ltb_ge in E1, E2.
  destruct (S1 E1) as (rawpress & Hv1 & _).
  destruct (S2 E2) as (rawtemp & Hv2 & _). subst v1 v2.
  cbn [default from_option id].
  destruct (measure_compensate vdd priv rawpress rawtemp) as [tv pv] eqn:C.
  intros H. injection H as <- <- <-. right. split; [exact E2 |].
  exists r1, rawpress, t1, rawtemp.
  split; [reflexivity |]. split; [exact E1 |]. split; [exact C2 |].
  rewrite C. reflexivity.
Qed.

(** Measuring and then reading back: after a successful measurement the
    two read commands return the temperature and the pressure computed
    from the two values just converted; after a failed one they return
    what was stored before. *)
Theorem ioctl_measure_then_read (cfg : config) (sn : snioc) (sndbg : bool)
  (load16 : Z -> option Z) (prom : list Z)
  (priv priv' : ms58xx_dev_s) (t t' : list event) (ret ptr : Z) :
  NoDup [SNIOC_MEASURE sn; SNIOC_TEMPERATURE sn; SNIOC_PRESSURE sn;
         SNIOC_RESET sn; SNIOC_OVERSAMPLING sn] ->
  ptr <> 0 ->
  ms58xx_ioctl cfg sn sndbg load16 prom priv (SNIOC_MEASURE sn) 0 t
  = (IoctlReturned ret priv' None, t') ->
  let read_temp :=
    ms58xx_ioctl cfg sn sndbg load16 prom priv' (SNIOC_TEMPERATURE sn) ptr t' in
  let read_press :=
    ms58xx_ioctl cfg sn sndbg load16 prom priv' (SNIOC_PRESSURE sn) ptr t' in
  (ret < 0 ->
   read_temp = (IoctlReturned OK priv' (Some (ptr, temp priv)), t')
   /\ read_press = (IoctlReturned OK priv' (Some (ptr, press priv)), t'))
  /\ (0 <= ret ->
      exists r1 rawpress t1 rawtemp,
        ms58xx_convert priv MS58XX_PRESS_REG t = ((r1, Some rawpress), t1)
        /\ ms58xx_convert priv MS58XX_TEMP_REG t1
           = ((ret, Some rawtemp), t')
        /\ read_temp
           = (IoctlReturned OK priv'
                (Some (ptr, fst (measure_compensate (CONFIG_MS58XX_VDD cfg)
                                   priv rawpress rawtemp))), t')
        /\ read_press
           = (IoctlReturned OK priv'
                (Some (ptr, snd (measure_compensate (CONFIG_MS58XX_VDD cfg)
                                   priv rawpress rawtemp))), t')).
Proof.
  intros D Hp H rt rp.
  assert (E : CONFIG_DEBUG cfg && (ptr =? 0) = false).
  { destruct (Z.eqb_spec ptr 0); [contradiction | apply andb_false_r]. }
  subst rt rp.
  rewrite (ioctl_temperature cfg sn sndbg load16 prom D priv' ptr t' E).
  rewrite (ioctl_pressure cfg sn sndbg load16 prom D priv' ptr t' E).
  unfold ms58xx_ioctl in H. rewrite Z.eqb_refl in H.
  change (0 =? 0) with true in H. cbn [negb] in H.
  rewrite andb_false_r in H. unfold Bind, Ret in H.
  destruct (ms58xx_measure (CONFIG_MS58XX_VDD cfg) priv t)
    as [[r p'] t1] eqn:Hm.
  injection H as -> -> ->.
  destruct (measure_cases _ _ _ _ _ _ Hm)
    as [[Hneg ->] | (Hpos & r1 & rawpress & t1 & rawtemp & C1 & _ & C2 & ->)].
  - split; [auto | lia].
  - split; [lia |]. intros _. exists r1, rawpress, t1, rawtemp. auto.
Qed.

Lemma ioctl_measure_then_read_witness :
  ms58xx_ioctl release_config sample_snioc false (fun _ => None) (replicate 8 0)
    (snd (fst (ms58xx_measure 30
                 (set_osr 0 (set_delay 600 ms5803_14_dev)) [])))
    (SNIOC_TEMPERATURE sample_snioc) 0x20001000
    (snd (ms58xx_measure 30 (set_osr 0 (set_delay 600 ms5803_14_dev)) []))
  = (IoctlReturned OK
       (snd (fst (ms58xx_measure 30
                    (set_osr 0 (set_delay 600 ms5803_14_dev)) [])))
       (Some (0x20001000, 27472)),
     snd (ms58xx_measure 30 (set_osr 0 (set_delay 600 ms5803_14_dev)) [])).
Proof.
  destruct (ioctl_measure_then_read release_config sample_snioc false
              (fun _ => None)
              (replicate 8 0) (set_osr 0 (set_delay 600 ms5803_14_dev))
              (snd (fst (ms58xx_measure 30
                 (set_osr 0 (set_delay 600 ms5803_14_dev)) [])))
              []
              (snd (ms58xx_measure 30
                 (set_osr 0 (set_delay 600 ms5803_14_dev)) []))
              OK 0x20001000
              ltac:(repeat (constructor;
                            [rewrite ?not_elem_of_cons, elem_of_nil;
                             unfold sample_snioc; simpl; lia |]);
                    constructor)
              ltac:(lia) ltac:(vm_compute; reflexivity))
    as [_ H].
  destruct (H ltac:(unfold OK; lia))
    as (r1 & rawpress & t1 & rawtemp & C1 & C2 & Ht & _).
  rewrite Ht. f_equal. f_equal. f_equal. f_equal.
  vm_compute in C1. injection C1 as _ <- <-.
  vm_compute in C2. injection C2 as <-.
  vm_compute. reflexivity.
Defined.

(** No ioctl command changes the bus, the address, the model or the
    per-model tables of the device. *)
Theorem ioctl_frame (cfg : config) (sn : snioc) (sndbg : bool)
  (load16 : Z -> option Z) (prom : list Z)
  (priv priv' : ms58xx_dev_s) (cmd arg ret : Z) (stored : option (Z * Z))
  (t : list event) :
  fst (ms58xx_ioctl cfg sn sndbg load16 prom priv cmd arg t)
  = IoctlReturned ret priv' stored ->
  i2c priv' = i2c priv /\ addr priv' = addr priv /\ model priv' = model priv
  /\ [c1s priv'; c2s priv'; c3s priv'; c4s priv']
     = [c1s priv; c2s priv; c3s priv; c4s priv]
  /\ [diffmull priv'; diffdivls priv'; offmull priv'; offdivls priv';
      sensmull priv'; sensdivls priv'; offmulvl priv'; sensmulvl priv';
      diffmulh priv'; diffdivhs priv'; offmulh priv'; offdivhs priv';
      sensmulh priv'; sensdivhs priv'; pressdivs priv']
     = [diffmull priv; diffdivls priv; offmull priv; offdivls priv;
        sensmull priv; sensdivls priv; offmulvl priv; sensmulvl priv;
        diffmulh priv; diffdivhs priv; offmulh priv; offdivhs priv;
        sensmulh priv; sensdivhs priv; pressdivs priv].
Proof.
  unfold ms58xx_ioctl.
  destruct (cmd =? SNIOC_MEASURE sn).
  { destruct (CONFIG_DEBUG cfg && negb (arg =? 0)); [discriminate |].
    unfold Bind, Ret.
    destruct (ms58xx_measure _ priv t) as [[r p'] t1] eqn:Hm.
    intros H. injection H as <- <- <-.
    destruct (measure_cases _ _ _ _ _ _ Hm)
      as [[_ ->] | (_ & r1 & rawpress & t0 & rawtemp & _ & _ & _ & ->)];
      repeat split. }
  destruct (cmd =? SNIOC_TEMPERATURE sn).
  { destruct (CONFIG_DEBUG cfg && (arg =? 0)); [discriminate |].
    intros H. injection H as <- <- <-. repeat split. }
  destruct (cmd =? SNIOC_PRESSURE sn).
  { destruct (CONFIG_DEBUG cfg && (arg =? 0)); [discriminate |].
    intros H. injection H as <- <- <-. repeat split. }
  destruct (cmd =? SNIOC_RESET sn).
  { destruct (CONFIG_DEBUG cfg && negb (arg =? 0)); [discriminate |].
    unfold Bind, Ret.
    destruct (reset_assigns_coefficients (CONFIG_ENDIAN cfg) prom priv t)
      as (v1 & v2 & v3 & v4 & v5 & v6 & v7 & v8 & Hf).
    destruct (ms58xx_reset _ prom priv t) as [[r p'] t1].
    cbn [fst snd] in Hf. intros H. injection H as <- <- <-. subst p'.
    repeat split. }
  destruct (cmd =? SNIOC_OVERSAMPLING sn).
  { destruct (setosr_result priv (u16 arg)) as [E | (d & _ & E)];
      rewrite E; destruct sndbg; try destruct (load16 arg);
      try discriminate; intros H; injection H as <- <- <-; repeat split. }
  intros H. injection H as <- <- <-. repeat split.
Qed.

Lemma ioctl_frame_witness :
  model (set_osr 0 (set_delay 600 ms5803_14_dev)) = model ms5803_14_dev.
Proof.
  exact (proj1 (proj2 (proj2 (ioctl_frame release_config sample_snioc
           false (fun _ => None) (replicate 8 0) ms5803_14_dev
           (set_osr 0 (set_delay 600 ms5803_14_dev)) 0xa05 256 OK None []
           ltac:(vm_compute; reflexivity))))).
Defined.

(** ** The post-correction of the pressure *)

Lemma s32_range (x : Z) : -2147483648 <= s32 x < 2147483648.
Proof.
  unfold s32.
  pose proof (Z.mod_pos_bound (x + 2147483648) 4294967296 ltac:(lia)). lia.
Qed.

Lemma add32_zero (x : Z) : add32 (s32 x) 0 = s32 x.
Proof.
  unfold add32. rewrite Z.add_0_r. apply s32_id, s32_range.
Qed.

Lemma supply_3v_correction (c : Z) :
  s32 (div64 (mul64 (sub64 30 30) c) (mul64 (shl64 1 6) 10)) = 0.
Proof.
  change (sub64 30 30) with 0. unfold mul64 at 1.
  rewrite Z.mul_0_l. change (s64 0) with 0.
  unfold div64. rewrite Z.quot_0_l by (vm_compute; discriminate).
  reflexivity.
Qed.

Ltac unfold_compensate :=
  cbv beta iota zeta delta
    [measure_compensate measure_diff set_model set_c7 set_c8
     i2c addr model crcindex crcshift temp press osr delay
     c1 c2 c3 c4 c5 c6 c7 c8 c1s c2s c3s c4s
     diffmull diffdivls offmull offdivls sensmull sensdivls
     offmulvl sensmulvl diffmulh diffdivhs offmulh offdivhs
     sensmulh sensdivhs pressdivs fst snd].

Ltac split_temp_ranges :=
  repeat match goal with
         | |- context [if ?c <? 2000 then _ else _] =>
             destruct (c <? 2000)
         | |- context [if ?c <? -1500 then _ else _] =>
             destruct (c <? -1500)
         end.

(** The model-specific correction after the second-order compensation
    never changes the temperature, and changes the pressure only for
    MS5803-07 above 110000 and for MS5806-02 with a supply voltage from
    2.2 V to below 3.0 V.  In every other case the result is that of the
    common formula and does not depend on C7, C8 or the supply voltage
    (the common formula is what the code computes for MS5803-02). *)
Theorem post_correction_scope (vdd vdd' a7 a8 : Z) (priv : ms58xx_dev_s)
  (rawpress rawtemp : Z) :
  let common :=
    measure_compensate vdd'
      (set_c8 a8 (set_c7 a7 (set_model MS58XX_MODEL_MS5803_02 priv)))
      rawpress rawtemp in
  let result := measure_compensate vdd priv rawpress rawtemp in
  fst result = fst common
  /\ (model priv <> MS58XX_MODEL_MS5803_07 ->
      model priv <> MS58XX_MODEL_MS5806_02 -> result = common)
  /\ (model priv = MS58XX_MODEL_MS5803_07 -> snd common <= 110000 ->
      result = common)
  /\ (model priv = MS58XX_MODEL_MS5806_02 -> vdd < 22 \/ 30 <= vdd ->
      result = common).
Proof.
  destruct priv as [? ? md ? ? ? ? ? ? ? ? ? ? ? ? ? ? ? ? ? ? ? ? ? ? ? ? ?
    ? ? ? ? ? ? ? ?].
  cbv zeta. unfold_compensate. split; [| split; [| split]].
  - split_temp_ranges; destruct md; reflexivity.
  - intros N1 N2. split_temp_ranges;
      destruct md; try contradiction; reflexivity.
  - intros -> H. split_temp_ranges; cbv beta iota in H |- *;
      match goal with
      | |- context [110000 <? ?P] => destruct (Z.ltb_spec 110000 P)
      end; try reflexivity; lia.
  - intros -> H.
    assert (E : (22 <=? vdd) && (vdd <=? 30) = false \/ vdd = 30).
    { destruct (Z.leb_spec 22 vdd); [| left; reflexivity].
      destruct (Z.leb_spec vdd 30); [right; lia | left; reflexivity]. }
    destruct E as [E | ->].
    + rewrite E. split_temp_ranges; reflexivity.
    + change ((22 <=? 30) && (30 <=? 30)) with true. cbv iota.
      split_temp_ranges; f_equal;
        rewrite supply_3v_correction; apply add32_zero.
Qed.

Lemma post_correction_scope_witness :
  measure_compensate 30 ms5803_14_dev 4311550 4707
  = measure_compensate 25
      (set_c8 9 (set_c7 5 (set_model MS58XX_MODEL_MS5803_02 ms5803_14_dev)))
      4311550 4707.
Proof.
  apply (proj1 (proj2 (post_correction_scope 30 25 5 9 ms5803_14_dev
                         4311550 4707)));
    vm_compute; discriminate.
Defined.


(** ** Single-bit errors *)

Ltac bitwise :=
  apply Z.bits_inj'; intros ? ?;
  rewrite ?Z.lxor_spec, ?Z.land_spec, ?Z.lxor_spec, ?Z.land_spec;
  repeat match goal with
         | |- context [Z.testbit ?a ?n] => destruct (Z.testbit a n)
         end;
  reflexivity.

Lemma land_lxor_distr (a b c : Z) :
  Z.land (Z.lxor a b) c = Z.lxor (Z.land a c) (Z.land b c).
Proof. bitwise. Qed.

Lemma lxor_swap (a b c d : Z) :
  Z.lxor (Z.lxor a b) (Z.lxor c d) = Z.lxor (Z.lxor a c) (Z.lxor b d).
Proof. bitwise. Qed.

Lemma u8_lxor (a b : Z) : u8 (Z.lxor a b) = Z.lxor (u8 a) (u8 b).
Proof.
  unfold u8. change 256 with (2 ^ 8). rewrite <- !Z.land_ones by lia.
  apply land_lxor_distr.
Qed.

Lemma crc4_shift_linear (x y : Z) :
  crc4_shift (Z.lxor x y) = Z.lxor (crc4_shift x) (crc4_shift y).
Proof.
  unfold crc4_shift. rewrite Z.lxor_spec.
  assert (E : (2 * Z.lxor x y) mod 65536
              = Z.lxor ((2 * x) mod 65536) ((2 * y) mod 65536)).
  { change 65536 with (2 ^ 16). rewrite <- !Z.land_ones by lia.
    rewrite <- land_lxor_distr. f_equal.
    rewrite !(Z.mul_comm 2). change 2 with (2 ^ 1).
    rewrite <- !Z.shiftl_mul_pow2 by lia. apply Z.shiftl_lxor. }
  rewrite E.
  destruct (Z.testbit x 15), (Z.testbit y 15); cbn [xorb]; bitwise.
Qed.

Lemma crc_shift_succ (n : nat) (reg : Z) :
  crc_shift (S n) reg = crc_shift n (crc_shift 1 reg).
Proof. reflexivity. Qed.

Lemma crc_shift_linear (n : nat) (x y : Z) :
  0 <= x < 65536 -> 0 <= y < 65536 ->
  crc_shift n (Z.lxor x y) = Z.lxor (crc_shift n x) (crc_shift n y).
Proof.
  revert x y. induction n as [| n IH]; intros x y Hx Hy; [reflexivity |].
  rewrite (crc_shift_succ n (Z.lxor x y)), (crc_shift_succ n x),
    (crc_shift_succ n y).
  destruct (crc_shift_one x Hx) as [Ex Rx].
  destruct (crc_shift_one y Hy) as [Ey Ry].
  destruct (crc_shift_one (Z.lxor x y) (lxor_range x y Hx Hy)) as [Exy _].
  rewrite Ex, Ey, Exy, crc4_shift_linear. apply IH; assumption.
Qed.

Lemma crc_byte_linear (r s b d : Z) :
  0 <= r < 65536 -> 0 <= s < 65536 -> 0 <= b < 256 -> 0 <= d < 256 ->
  crc_byte (Z.lxor r s) (Z.lxor b d)
  = Z.lxor (crc_byte r b) (crc_byte s d).
Proof.
  intros Hr Hs Hb Hd. unfold crc_byte.
  pose proof (lxor_range r b Hr ltac:(lia)) as R1.
  pose proof (lxor_range s d Hs ltac:(lia)) as R2.
  rewrite lxor_swap.
  rewrite (u16_id _ (lxor_range _ _ R1 R2)), (u16_id _ R1), (u16_id _ R2).
  apply crc_shift_linear; assumption.
Qed.

Lemma crc_fold_linear (bs ds : list Z) (r s : Z) :
  length bs = length ds ->
  Forall (fun b => 0 <= b < 256) bs -> Forall (fun b => 0 <= b < 256) ds ->
  0 <= r < 65536 -> 0 <= s < 65536 ->
  fold_left crc_byte (zip_with Z.lxor bs ds) (Z.lxor r s)
  = Z.lxor (fold_left crc_byte bs r) (fold_left crc_byte ds s).
Proof.
  revert ds r s.
  induction bs as [| b bs IH]; intros [| d ds] r s L Fb Fd Hr Hs;
    try discriminate L; [reflexivity |].
  inversion Fb as [| ? ? Hb Fb2]; inversion Fd as [| ? ? Hd Fd2]; subst.
  cbn [zip_with]. rewrite !fold_left_cons.
  rewrite crc_byte_linear by assumption.
  apply IH; try assumption.
  - simpl in L. lia.
  - unfold crc_byte. apply crc_shift_range, u16_range.
  - unfold crc_byte. apply crc_shift_range, u16_range.
Qed.

(** The CRC of the XOR of two byte strings is the XOR of their CRCs. *)
Lemma crc_linear (bs ds : list Z) :
  length bs = length ds ->
  Forall (fun b => 0 <= b < 256) bs -> Forall (fun b => 0 <= b < 256) ds ->
  ms58xx_crc (zip_with Z.lxor bs ds)
  = Z.lxor (ms58xx_crc bs) (ms58xx_crc ds).
Proof.
  intros L Fb Fd. unfold ms58xx_crc.
  change 0 with (Z.lxor 0 0) at 1.
  rewrite crc_fold_linear by (assumption || lia).
  rewrite Z.shiftr_lxor. apply u8_lxor.
Qed.

Lemma prom_bytes_are_bytes (e : endianness) (block : list Z) :
  Forall (fun b => 0 <= b < 256) (prom_bytes e block).
Proof.
  induction block as [| w block IH]; [constructor |].
  rewrite prom_bytes_cons. apply Forall_app. split; [| exact IH].
  destruct e; repeat (constructor; [apply u8_range |]); constructor.
Qed.

Lemma prom_bytes_length (e : endianness) (block : list Z) :
  length (prom_bytes e block) = (2 * length block)%nat.
Proof.
  induction block as [| w block IH]; [reflexivity |].
  rewrite prom_bytes_cons, length_app, IH. destruct e; simpl; lia.
Qed.

Lemma prom_bytes_lxor (e : endianness) (block other : list Z) :
  length block = length other ->
  prom_bytes e (zip_with Z.lxor block other)
  = zip_with Z.lxor (prom_bytes e block) (prom_bytes e other).
Proof.
  revert other. induction block as [| w block IH]; intros [| p other] L;
    try discriminate L; [reflexivity |].
  cbn [zip_with]. rewrite !prom_bytes_cons, IH by (simpl in L; lia).
  destruct e; cbn [bytes_of_u16 app zip_with];
    rewrite Z.shiftr_lxor, !u8_lxor; reflexivity.
Qed.

Lemma nibble_lxor (m : ms58xx_model_e) (block other : list Z) :
  length block = 8%nat -> length other = 8%nat ->
  crc_nibble m (zip_with Z.lxor block other)
  = Z.lxor (crc_nibble m block) (crc_nibble m other).
Proof.
  intros L1 L2.
  do 8 (destruct block as [| ? block]; [discriminate |]).
  destruct block; [| discriminate].
  do 8 (destruct other as [| ? other]; [discriminate |]).
  destruct other; [| discriminate].
  unfold crc_nibble. destruct (compact m);
    cbn [zip_with lookup_total list_lookup_total];
    rewrite ?Z.shiftr_lxor; apply land_lxor_distr.
Qed.

Lemma cleared_lxor (m : ms58xx_model_e) (block other : list Z) :
  length block = 8%nat -> length other = 8%nat ->
  crc_cleared m (zip_with Z.lxor block other)
  = zip_with Z.lxor (crc_cleared m block) (crc_cleared m other).
Proof.
  intros L1 L2.
  do 8 (destruct block as [| ? block]; [discriminate |]).
  destruct block; [| discriminate].
  do 8 (destruct other as [| ? other]; [discriminate |]).
  destruct other; [| discriminate].
  unfold crc_cleared. destruct (compact m);
    cbn [zip_with lookup_total list_lookup_total insert list_insert];
    rewrite land_lxor_distr; reflexivity.
Qed.

Lemma cleared_length (m : ms58xx_model_e) (block : list Z) :
  length (crc_cleared m block) = length block.
Proof. unfold crc_cleared. destruct (compact m); apply length_insert. Qed.

(** The syndrome of the XOR of two blocks is the XOR of their
    syndromes. *)
Lemma syndrome_linear (e : endianness) (m : ms58xx_model_e)
  (block other : list Z) :
  length block = 8%nat -> length other = 8%nat ->
  syndrome e m (zip_with Z.lxor block other)
  = Z.lxor (syndrome e m block) (syndrome e m other).
Proof.
  intros L1 L2. unfold syndrome.
  rewrite nibble_lxor, cleared_lxor by assumption.
  rewrite prom_bytes_lxor by (rewrite !cleared_length; lia).
  rewrite crc_linear.
  - apply lxor_swap.
  - rewrite !prom_bytes_length, !cleared_length. lia.
  - apply prom_bytes_are_bytes.
  - apply prom_bytes_are_bytes.
Qed.

Lemma zip_lxor_zeros (block : list Z) :
  zip_with Z.lxor block (replicate (length block) 0) = block.
Proof.
  induction block as [| w block IH]; [reflexivity |].
  cbn [length replicate zip_with]. rewrite Z.lxor_0_r, IH. reflexivity.
Qed.

Lemma insert_lxor (block : list Z) (i : nat) (p : Z) :
  (i < length block)%nat ->
  <[i := Z.lxor (block !!! i) p]> block
  = zip_with Z.lxor block (<[i := p]> (replicate (length block) 0)).
Proof.
  revert i. induction block as [| w block IH]; intros i H;
    [simpl in H; lia |].
  destruct i as [| i].
  - cbn [length replicate insert list_insert zip_with lookup_total
         list_lookup_total].
    rewrite zip_lxor_zeros. reflexivity.
  - cbn [length replicate insert list_insert zip_with lookup_total
         list_lookup_total].
    rewrite Z.lxor_0_r, <- IH by (simpl in H; lia). reflexivity.
Qed.

Lemma flipped_block (m : ms58xx_model_e) (ws : list Z) (i k : nat) :
  length ws = prom_words m -> (i < prom_words m)%nat ->
  prom_block m (flip_bit i k ws)
  = zip_with Z.lxor (prom_block m ws) (unit_block i k).
Proof.
  intros L H. unfold prom_block, flip_bit, unit_block, prom_words in *.
  destruct (compact m).
  - rewrite <- insert_app_l by lia.
    rewrite <- (lookup_total_app_l ws [0]) by lia.
    rewrite insert_lxor by (rewrite length_app; simpl; lia).
    rewrite length_app, L. reflexivity.
  - rewrite insert_lxor by lia. rewrite L. reflexivity.
Qed.

Lemma forallb_In {A} (f : A -> bool) (l : list A) (x : A) :
  forallb f l = true -> In x l -> f x = true.
Proof. intros H Hx. rewrite forallb_forall in H. apply H, Hx. Qed.

(** The table of single-bit syndromes, by evaluation. *)
Lemma unit_syndromes_checked :
  ltac:(let table := eval unfold unit_syndromes_nonzero
                     in (unit_syndromes_nonzero = true) in
        exact table).
Proof. vm_compute. reflexivity. Qed.

Lemma unit_syndrome (e : endianness) (m : ms58xx_model_e) (i k : nat) :
  (i < prom_words m)%nat -> (k < 16)%nat -> unchecked_bit e i k = false ->
  syndrome e m (unit_block i k) <> 0.
Proof.
  intros Hi Hk Hu.
  assert (He : In e [LittleEndian; BigEndian]) by (destruct e; simpl; tauto).
  assert (Hm : In m all_models) by (destruct m; simpl; tauto).
  assert (Hi' : In i (seq 0 (prom_words m))) by (apply in_seq; lia).
  assert (Hk' : In k (seq 0 16)) by (apply in_seq; lia).
  pose proof unit_syndromes_checked as H.
  apply (forallb_In _ _ e) in H; [| exact He]. cbv beta in H.
  apply (forallb_In _ _ m) in H; [| exact Hm]. cbv beta in H.
  apply (forallb_In _ _ i) in H; [| exact Hi']. cbv beta in H.
  apply (forallb_In _ _ k) in H; [| exact Hk']. cbv beta in H.
  rewrite Hu, orb_false_l in H.
  apply negb_true_iff, Z.eqb_neq in H. exact H.
Qed.

(** Every single-bit error in the PROM words read is detected: when the
    words of an image that passes the CRC comparison arrive with one bit
    inverted, the loader returns -ENODEV and leaves the device as it was.
    The exception is a little-endian host, where bits 11..8 of word 7 do
    not enter the CRC. *)
Theorem single_bit_error_rejected (e : endianness) (prom : list Z)
  (priv : ms58xx_dev_s) (ws : list Z) (i k : nat) (r : Z)
  (t t1 : list event) :
  let m := model priv in
  length prom = 8%nat ->
  length ws = prom_words m ->
  crc_nibble m (prom_block m ws)
  = ms58xx_crc (prom_bytes e (crc_cleared m (prom_block m ws))) ->
  (i < prom_words m)%nat -> (k < 16)%nat ->
  unchecked_bit e i k = false ->
  delivers priv 0 (flip_bit i k ws) 0 r t t1 ->
  ms58xx_readprom e prom priv t = ((- ENODEV, priv), t1).
Proof.
  intros m L Lw Hok Hi Hk Hu D.
  apply (readprom_mismatch e prom priv L (flip_bit i k ws) r t t1).
  - unfold flip_bit. rewrite length_insert. exact Lw.
  - exact D.
  - fold m. intros Heq.
    assert (S : syndrome e m (prom_block m (flip_bit i k ws)) = 0).
    { unfold syndrome. rewrite Heq. apply Z.lxor_nilpotent. }
    rewrite flipped_block in S by assumption.
    assert (L8 : length (prom_block m ws) = 8%nat).
    { unfold prom_block, prom_words in *.
      destruct (compact m); [rewrite length_app; simpl |]; lia. }
    rewrite syndrome_linear in S
      by (exact L8 || (unfold unit_block; rewrite length_insert; reflexivity)).
    assert (S0 : syndrome e m (prom_block m ws) = 0).
    { unfold syndrome. rewrite Hok. apply Z.lxor_nilpotent. }
    rewrite S0, Z.lxor_0_l in S.
    exact (unit_syndrome e m i k Hi Hk Hu S).
Qed.

(** The data sheet's example image with bit 9 of word 3 inverted. *)
Lemma single_bit_error_rejected_witness :
  let priv :=
    blank (sensor (flip_bit 3 9 an520) 0 0) 0x76 MS58XX_MODEL_MS5803_14 in
  ms58xx_readprom BigEndian (replicate 8 0) priv []
  = ((- ENODEV, priv), word_requests priv 0 8).
Proof.
  intros priv.
  apply (single_bit_error_rejected BigEndian (replicate 8 0) priv an520
           3 9 OK [] (word_requests priv 0 8)).
  - reflexivity.
  - reflexivity.
  - vm_compute. reflexivity.
  - vm_compute. lia.
  - lia.
  - reflexivity.
  - sensor_delivers.
Defined.

Lemma unchecked_syndrome (m : ms58xx_model_e) (k : nat) :
  compact m = false -> (8 <= k < 12)%nat ->
  syndrome LittleEndian m (unit_block 7 k) = 0.
Proof.
  intros C Hk.
  assert (K : k = 8%nat \/ k = 9%nat \/ k = 10%nat \/ k = 11%nat) by lia.
  destruct K as [-> | [-> | [-> | ->]]];
    destruct m; try discriminate C; vm_compute; reflexivity.
Qed.

(** On a little-endian host an 8-word image that passes the CRC
    comparison still passes it after any of bits 11..8 of word 7 is
    inverted: the loader accepts the changed words and stores their
    coefficients. *)
Theorem little_endian_unchecked_bits (prom : list Z) (priv : ms58xx_dev_s)
  (ws : list Z) (k : nat) (r : Z) (t t1 : list event) :
  let m := model priv in
  length prom = 8%nat ->
  compact m = false ->
  length ws = 8%nat ->
  crc_nibble m ws = ms58xx_crc (prom_bytes LittleEndian (crc_cleared m ws)) ->
  (8 <= k < 12)%nat ->
  delivers priv 0 (flip_bit 7 k ws) 0 r t t1 ->
  exists priv',
    ms58xx_readprom LittleEndian prom priv t = ((r, priv'), t1)
    /\ [c1 priv'; c2 priv'; c3 priv'; c4 priv'; c5 priv'; c6 priv']
       = [ws !!! 1%nat; ws !!! 2%nat; ws !!! 3%nat; ws !!! 4%nat;
          ws !!! 5%nat; ws !!! 6%nat].
Proof.
  intros m L C Lw Hok Hk D.
  assert (Pw : prom_words m = 8%nat) by (unfold prom_words; rewrite C; reflexivity).
  assert (Pb : forall l, prom_block m l = l)
    by (intros l; unfold prom_block; rewrite C; reflexivity).
  assert (Lf : length (flip_bit 7 k ws) = prom_words m).
  { unfold flip_bit. rewrite length_insert. lia. }
  assert (S : syndrome LittleEndian m (flip_bit 7 k ws) = 0).
  { rewrite <- (Pb (flip_bit 7 k ws)).
    rewrite flipped_block by lia. rewrite Pb.
    rewrite syndrome_linear
      by (exact Lw || (unfold unit_block; rewrite length_insert; reflexivity)).
    rewrite unchecked_syndrome by assumption.
    rewrite Z.lxor_0_r. unfold syndrome. rewrite Hok.
    apply Z.lxor_nilpotent. }
  assert (E : crc_nibble m (prom_block m (flip_bit 7 k ws))
              = ms58xx_crc (prom_bytes LittleEndian
                  (crc_cleared m (prom_block m (flip_bit 7 k ws))))).
  { rewrite Pb. unfold syndrome in S. apply Z.lxor_eq. exact S. }
  destruct (readprom_match LittleEndian prom priv L (flip_bit 7 k ws)
              r t t1 Lf D E) as (v7 & v8 & Hm).
  eexists. split; [exact Hm |].
  unfold flip_bit. cbn [c1 c2 c3 c4 c5 c6 set_c1 set_c2 set_c3 set_c4 set_c5
                        set_c6 set_c7 set_c8].
  rewrite !list_lookup_total_insert_ne by lia. reflexivity.
Qed.

Lemma little_endian_unchecked_bits_witness :
  let image := <[7%nat := 0x450F]> an520 in
  let priv :=
    blank (sensor (flip_bit 7 10 image) 0 0) 0x76 MS58XX_MODEL_MS5803_07 in
  exists priv',
    ms58xx_readprom LittleEndian (replicate 8 0) priv []
    = ((OK, priv'), word_requests priv 0 8)
    /\ [c1 priv'; c2 priv'; c3 priv'; c4 priv'; c5 priv'; c6 priv']
       = [0x3334; 0x3536; 0x3738; 0x3940; 0x4142; 0x4344].
Proof.
  intros image priv.
  apply (little_endian_unchecked_bits (replicate 8 0) priv image 10 OK []
           (word_requests priv 0 8)).
  - reflexivity.
  - reflexivity.
  - reflexivity.
  - vm_compute. reflexivity.
  - lia.
  - sensor_delivers.
Defined.

(** ** Composition of configuration and measurement *)

Lemma set_osr_delay_twice (priv : ms58xx_dev_s) (d1 s1 d2 s2 : Z) :
  set_osr s2 (set_delay d2 (set_osr s1 (set_delay d1 priv)))
  = set_osr s2 (set_delay d2 priv).
Proof. destruct priv. reflexivity. Qed.

(** The last accepted ratio wins: setting a ratio after another gives
    the same device as setting it directly, and a rejected ratio leaves
    the configuration of the one before. *)
Theorem setosr_last_wins (priv : ms58xx_dev_s) (r1 r2 : Z) :
  let p1 := snd (ms58xx_setosr priv r1) in
  (fst (ms58xx_setosr priv r2) = OK ->
   ms58xx_setosr p1 r2 = ms58xx_setosr priv r2)
  /\ (fst (ms58xx_setosr priv r2) <> OK ->
      ms58xx_setosr p1 r2 = (- EINVAL, p1)).
Proof.
  cbv zeta.
  assert (M : model (snd (ms58xx_setosr priv r1)) = model priv).
  { destruct (setosr_result priv r1) as [E | (d & _ & E)]; rewrite E;
      reflexivity. }
  destruct (setosr_same_model priv (snd (ms58xx_setosr priv r1)) r2 M)
    as [[E E'] | (d & E & E')]; rewrite E, E'; cbn [fst].
  - split; [discriminate | reflexivity].
  - split; [| congruence]. intros _.
    destruct (setosr_result priv r1) as [E1 | (d1 & _ & E1)]; rewrite E1;
      cbn [snd]; [reflexivity |].
    rewrite set_osr_delay_twice. reflexivity.
Qed.

Lemma setosr_last_wins_witness :
  ms58xx_setosr (snd (ms58xx_setosr ms5803_14_dev 512)) 2048
  = ms58xx_setosr ms5803_14_dev 2048.
Proof.
  apply (proj1 (setosr_last_wins ms5803_14_dev 512 2048)). reflexivity.
Defined.

Section StoredPair.

Variables (priv : ms58xx_dev_s) (a b : Z).

Let priv' := priv <| set_temp := a |> <| set_press := b |>.

Lemma convert_ignores_stored (regaddr : Z) :
  ms58xx_convert priv' regaddr = ms58xx_convert priv regaddr.
Proof. reflexivity. Qed.

Lemma compensate_ignores_stored (vdd rawpress rawtemp : Z) :
  measure_compensate vdd priv' rawpress rawtemp
  = measure_compensate vdd priv rawpress rawtemp.
Proof.
  unfold measure_compensate, measure_diff. subst priv'. destruct priv.
  cbn [set_temp set_press c1 c2 c3 c4 c5 c6 c7 c8 c1s c2s c3s c4s
       offmulvl sensmulvl diffmull diffdivls offmull offdivls sensmull
       sensdivls diffmulh diffdivhs offmulh offdivhs sensmulh sensdivhs
       pressdivs model].
  reflexivity.
Qed.

Lemma stored_pair_overwritten (x y : Z) :
  priv' <| set_temp := x |> <| set_press := y |>
  = priv <| set_temp := x |> <| set_press := y |>.
Proof. subst priv'. destruct priv. reflexivity. Qed.

End StoredPair.

(** A measurement does not depend on the pair stored by an earlier one:
    from devices that differ only in the stored temperature and pressure
    it returns the same value after the same bus traffic, and when it
    succeeds it leaves the same device. *)
Theorem measure_ignores_stored (vdd : Z) (priv : ms58xx_dev_s) (a b : Z)
  (t : list event) :
  let run := ms58xx_measure vdd priv t in
  let run' :=
    ms58xx_measure vdd (priv <| set_temp := a |> <| set_press := b |>) t in
  fst (fst run') = fst (fst run) /\ snd run' = snd run
  /\ (0 <= fst (fst run) -> run' = run).
Proof.
  cbv zeta. unfold ms58xx_measure, Bind, Ret.
  rewrite !convert_ignores_stored.
  destruct (ms58xx_convert priv MS58XX_PRESS_REG t) as [[r1 v1] t1].
  destruct (r1 <? 0) eqn:E1; [cbn [fst snd]; repeat split; lia |].
  destruct (ms58xx_convert priv MS58XX_TEMP_REG t1) as [[r2 v2] t2].
  destruct (r2 <? 0) eqn:E2; [cbn [fst snd]; repeat split; lia |].
  rewrite compensate_ignores_stored.
  destruct (measure_compensate vdd priv (default 0 v1) (default 0 v2))
    as [tv pv].
  rewrite stored_pair_overwritten. repeat split.
Qed.

(** ** The factory coefficients C7 and C8 *)

Lemma land_byte (a b : Z) :
  0 <= a -> 0 <= b < 256 -> 0 <= Z.land a b < 256.
Proof.
  intros Ha Hb.
  assert (N : 0 <= Z.land a b) by (apply Z.land_nonneg; lia).
  split; [exact N |].
  destruct (Z.eq_dec (Z.land a b) 0) as [-> | Hne]; [lia |].
  change 256 with (2 ^ 8). apply Z.log2_lt_pow2; [lia |].
  pose proof (Z.log2_land a b Ha ltac:(lia)) as L.
  assert (Lb : Z.log2 b < 8).
  { destruct (Z.eq_dec b 0) as [-> | ?]; [reflexivity |].
    apply Z.log2_lt_pow2; [lia |]. change (2 ^ 8) with 256. lia. }
  lia.
Qed.

(** A field cut out of a 16-bit word by a mask and a right shift, after
    the CRC nibble was cleared by [keep]. *)
Lemma masked_field (w keep mask s field : Z) :
  0 <= w -> 0 <= s -> Z.shiftr (Z.land keep mask) s = field ->
  0 <= field < 256 ->
  u8 (Z.shiftr (Z.land (Z.land w keep) mask) s)
  = Z.land (Z.shiftr w s) field.
Proof.
  intros Hw Hs <- Hf.
  rewrite <- Z.land_assoc, Z.shiftr_land.
  apply u8_id. apply land_byte; [| exact Hf].
  apply Z.shiftr_nonneg. exact Hw.
Qed.

Lemma finish_c7_c8 (e : endianness) (priv : ms58xx_dev_s) (ret : Z)
  (block : list Z) :
  let m := model priv in
  let idx := if compact m then 0%nat else 7%nat in
  let shift := if compact m then 12 else 0 in
  length block = 8%nat -> Forall (fun w => 0 <= w < 65536) block ->
  crc_nibble m block = ms58xx_crc (prom_bytes e (crc_cleared m block)) ->
  let priv' := snd (readprom_finish e priv idx shift ret block) in
  let w7 := block !!! 7%nat in
  (m = MS58XX_MODEL_MS5803_07 ->
   c7 priv' = Z.land (Z.shiftr w7 4) 0x3f
   /\ c8 priv' = Z.land (Z.shiftr w7 10) 0x3d)
  /\ (m = MS58XX_MODEL_MS5806_02 ->
      c7 priv' = Z.land (Z.shiftr w7 4) 0xff /\ c8 priv' = 0)
  /\ (m <> MS58XX_MODEL_MS5803_07 -> m <> MS58XX_MODEL_MS5806_02 ->
      c7 priv' = 0 /\ c8 priv' = 0).
Proof.
  intros m idx shift L F E priv' w7. subst priv'.
  unfold readprom_finish.
  assert (Hw : 0 <= block !!! idx < 65536).
  { apply (proj1 (Forall_lookup _ _) F idx).
    apply list_lookup_lookup_total_lt.
    subst idx. destruct (compact m); lia. }
  revert E Hw. unfold crc_nibble, crc_cleared. subst idx shift.
  destruct (compact m) eqn:C; intros E Hw.
  - rewrite nibble_top.
    change (u16 (Z.shiftl 0xf 12)) with 61440.
    rewrite clear_mask by (exact Hw || (vm_compute; discriminate)).
    change (Z.land 65535 (Z.lnot 61440)) with 0x0fff.
    rewrite E, Z.eqb_refl. cbn [negb].
    cbn [model set_c1 set_c2 set_c3 set_c4 set_c5 set_c6].
    subst m. destruct (model priv); try discriminate C;
      cbn [snd c7 c8 set_c7 set_c8];
      repeat split; intros; congruence.
  - rewrite nibble_low.
    change (u16 (Z.shiftl 0xf 0)) with 15.
    rewrite clear_mask by (exact Hw || (vm_compute; discriminate)).
    change (Z.land 65535 (Z.lnot 15)) with 0xfff0.
    rewrite E, Z.eqb_refl. cbn [negb].
    rewrite !list_lookup_total_insert_eq by lia.
    cbn [model set_c1 set_c2 set_c3 set_c4 set_c5 set_c6].
    fold w7 in Hw |- *.
    subst m. destruct (model priv); try discriminate C;
      cbn [snd c7 c8 set_c7 set_c8];
      repeat split; intros; try congruence;
      apply masked_field; first [lia | reflexivity].
Qed.

(** What a successful PROM load stores as C7 and C8.  MS5803-07: C7 is
    bits 9..4 of word 7, and C8 is bits 15..10 of word 7 without bit 11,
    which the mask 0xf700 leaves out, so that bit 1 of C8 is always
    zero.  MS5806-02: C7 is bits 11..4 of word 7 and C8 is zero.  Every
    other model: both are zero. *)
Theorem readprom_c7_c8 (e : endianness) (prom : list Z)
  (priv : ms58xx_dev_s) (ws : list Z) (r : Z) (t t1 : list event) :
  let m := model priv in
  length prom = 8%nat ->
  length ws = prom_words m ->
  delivers priv 0 ws 0 r t t1 ->
  crc_nibble m (prom_block m ws)
  = ms58xx_crc (prom_bytes e (crc_cleared m (prom_block m ws))) ->
  let priv' := snd (fst (ms58xx_readprom e prom priv t)) in
  let w7 := ws !!! 7%nat in
  (m = MS58XX_MODEL_MS5803_07 ->
   c7 priv' = Z.land (Z.shiftr w7 4) 0x3f
   /\ c8 priv' = Z.land (Z.shiftr w7 10) 0x3d
   /\ Z.testbit (c8 priv') 1 = false)
  /\ (m = MS58XX_MODEL_MS5806_02 ->
      c7 priv' = Z.land (Z.shiftr w7 4) 0xff /\ c8 priv' = 0)
  /\ (m <> MS58XX_MODEL_MS5803_07 -> m <> MS58XX_MODEL_MS5806_02 ->
      c7 priv' = 0 /\ c8 priv' = 0).
Proof.
  intros m P L D E priv' w7. subst priv'.
  rewrite (readprom_delivered e prom priv P ws r t t1 L D).
  cbn [fst].
  destruct (delivers_length_trace priv 0 ws 0 r t t1 D) as [_ F].
  destruct (block_wf prom priv P ws L F) as [BL BF].
  destruct (finish_c7_c8 e priv r (prom_block m ws) BL BF E)
    as (H7 & H6 & H0).
  fold m in H7, H6, H0 |- *.
  split; [| split].
  - intros M. destruct (H7 M) as [E7 E8].
    assert (W : prom_block m ws !!! 7%nat = w7) by (rewrite M; reflexivity).
    rewrite W in E7, E8.
    split; [exact E7 | split; [exact E8 |]].
    rewrite E8, Z.land_spec. apply andb_false_r.
  - intros M. destruct (H6 M) as [E7 E8].
    assert (W : prom_block m ws !!! 7%nat = w7) by (rewrite M; reflexivity).
    rewrite W in E7. split; assumption.
  - exact H0.
Qed.

(** An MS5803-07 whose word 7 is 0x4D00 (bits 14, 11, 10 and 8; the
    CRC nibble of the image is 0): bits 15..10 are 19, and 17 is
    stored. *)
Lemma readprom_c7_c8_witness :
  let image := <[7%nat := 0x4D00]> an520 in
  let priv := blank (sensor image 0 0) 0x76 MS58XX_MODEL_MS5803_07 in
  let priv' :=
    snd (fst (ms58xx_readprom BigEndian (replicate 8 0) priv [])) in
  Z.shiftr (image !!! 7%nat) 10 = 19 /\ c7 priv' = 16 /\ c8 priv' = 17.
Proof.
  intros image priv priv'.
  destruct (readprom_c7_c8 BigEndian (replicate 8 0) priv image OK []
              (word_requests priv 0 8)) as (H7 & _ & _).
  - reflexivity.
  - reflexivity.
  - sensor_delivers.
  - vm_compute. reflexivity.
  - destruct (H7 eq_refl) as (E7 & E8 & _).
    split; [reflexivity | split; [exact E7 | exact E8]].
Defined.
